(** * Project provisioning service (project-service.ts)

    A shallow embedding of [projectServiceFactory]: the operations
    [createProject], [deleteProject] and [updateVersionLimit], over an
    explicit relational store, a transaction discipline and a key-store log;
    then [getAProject], [updateName], [upgradeProject] and
    [getProjectUpgradeStatus], and the key generator of the MFA rate limiter.

    Conventions.
    - uuid primary keys drawn by the database are naturals taken from the
      store's sequence [nextId]; organisation ids are only ever read by this
      service and stay strings, as they are interpolated into cache keys.
    - [async]/[await] is sequential here: every call is awaited at once, so
      the service is a state-and-error computation.
    - collaborators whose code is outside this service (permission service,
      licence service, crypto, slugify, nanoid, read-only DAL queries) are
      fields of the record [Deps]; every theorem quantifies over it. *)

From Stdlib Require Import Ascii String DecimalString List Bool Arith Lia.
Import ListNotations.
Open Scope string_scope.

Set Implicit Arguments.

(** ** Enumerations *)

Definition Id := nat.
Definition OrgId := string.

(** auth-type.ts: the actor kinds; [createProject] distinguishes
    [USER] and [IDENTITY] and does nothing extra for the others. *)
Inductive ActorType := PLATFORM | USER | SERVICE | IDENTITY.

Inductive ProjectMembershipRole := PAdmin | PMember | PCustom | PViewer | PNoAccess.
Inductive OrgMembershipRole := OAdmin | OMember | ONoAccess | OCustom.
Inductive ProjectVersion := V1 | V2.

(** The capabilities this service asks about. *)
Inductive Action := Create | Read | Edit | Delete.
Inductive Subject := Workspace | Project | Settings | Secrets.

(** A CASL ability, seen through the only thing the service does with it:
    asking whether an action on a subject is allowed. *)
Record Permission := { can : Action -> Subject -> bool }.

Inductive DalOp :=
| OpAddGhostUser | OpProjectCreate | OpMembershipCreate | OpMembershipRoleCreate
| OpBlindIndexCreate | OpEnvInsertMany | OpFolderInsertMany | OpProjectKeyCreate
| OpProjectBotCreate | OpIdentityProjectCreate | OpIdentityProjectRoleCreate
| OpProjectDeleteById | OpUserDeleteById | OpProjectUpdateById.

Inductive Error :=
| ForbiddenError                         (* thrown by throwUnlessCan *)
| BadRequestError (message : string)
| ForbiddenRequestError (message : string)
| PlainError (message : string)          (* new Error(...) *)
| TypeError                              (* property access on undefined *)
| DatabaseError (op : DalOp)
| CollaboratorError (message : string).  (* raised inside a collaborator *)

Definition Result (A : Type) := (Error + A)%type.

(** ** Rows *)

Record TUser := { user_id : Id; user_isGhost : bool; user_orgId : OrgId }.

Record TProject := {
  project_id : Id;
  project_name : string;
  project_orgId : OrgId;
  project_slug : string;
  project_version : ProjectVersion;
  project_pitVersionLimit : nat
}.

Record TProjectMembership := { pm_id : Id; pm_userId : Id; pm_projectId : Id }.

Record TProjectUserMembershipRole := {
  pumr_id : Id; pumr_projectMembershipId : Id; pumr_role : ProjectMembershipRole
}.

Record TSecretBlindIndex := {
  sbi_projectId : Id;
  sbi_keyEncoding : string;
  sbi_saltIV : string;
  sbi_saltTag : string;
  sbi_algorithm : string;
  sbi_encryptedSaltCipherText : string
}.

Record TProjectEnv := {
  env_id : Id; env_name : string; env_slug : string;
  env_projectId : Id; env_position : nat
}.

Record TSecretFolder := {
  folder_id : Id; folder_name : string; folder_envId : Id; folder_version : nat
}.

Record TProjectKey := {
  pk_id : Id;
  pk_projectId : Id;
  pk_receiverId : Id;
  pk_encryptedKey : string;
  pk_nonce : string;
  pk_senderId : Id
}.

Record TProjectBot := {
  bot_id : Id;
  bot_name : string;
  bot_projectId : Id;
  bot_tag : string;
  bot_iv : string;
  bot_encryptedProjectKey : string;
  bot_encryptedProjectKeyNonce : string;
  bot_encryptedPrivateKey : string;
  bot_isActive : bool;
  bot_publicKey : string;
  bot_senderId : Id;
  bot_algorithm : string;
  bot_keyEncoding : string
}.

Record TIdentityProjectMembership := { ipm_id : Id; ipm_identityId : Id; ipm_projectId : Id }.

Record TIdentityProjectMembershipRole := {
  ipmr_id : Id;
  ipmr_projectMembershipId : Id;
  ipmr_role : ProjectMembershipRole;
  ipmr_customRoleId : option Id
}.

(** The tables this service writes. *)
Record DB := {
  nextId : Id;
  users : list TUser;
  projects : list TProject;
  projectMemberships : list TProjectMembership;
  projectUserMembershipRoles : list TProjectUserMembershipRole;
  secretBlindIndexes : list TSecretBlindIndex;
  projectEnvs : list TProjectEnv;
  secretFolders : list TSecretFolder;
  projectKeys : list TProjectKey;
  projectBots : list TProjectBot;
  identityProjectMemberships : list TIdentityProjectMembership;
  identityProjectMembershipRoles : list TIdentityProjectMembershipRole
}.

(** ** Values exchanged with collaborators *)

Record TOrganization := { org_id : OrgId }.
Record TOrgMembership := { orgMembership_id : Id }.
Record TPlan := { workspaceLimit : option nat; workspacesUsed : nat }.
Record TOrgRole := { orgRole_id : Id }.
Record TUserEncKey := { uek_userId : Id; uek_publicKey : string }.

Record TIdentityOrgMembership := {
  iom_id : Id;
  iom_role : OrgMembershipRole;
  iom_roleId : option Id;
  iom_identityId : Id;
  iom_orgId : OrgId
}.

Record TGhostUser := {
  ghost_user : TUser;
  ghost_publicKey : string;
  ghost_plainPrivateKey : string
}.

Record TBlindIndex := {
  bi_keyEncoding : string; bi_iv : string; bi_tag : string;
  bi_algorithm : string; bi_ciphertext : string
}.

Record TSealed := {
  sealed_iv : string; sealed_tag : string; sealed_ciphertext : string;
  sealed_encoding : string; sealed_algorithm : string
}.

(** TProjectKeys & { sender: { publicKey } } *)
Record TLatestKey := { lk_key : TProjectKey; lk_senderPublicKey : string }.

Record TAppCfg := { ROOT_ENCRYPTION_KEY : option string; ENCRYPTION_KEY : option string }.

Definition ActorAuthMethod := option string.

Record TProjectPermission := {
  pp_permission : Permission;
  pp_hasRole : ProjectMembershipRole -> bool
}.

(** ** Collaborators *)

Record Deps := {
  orgDAL_findOne : option OrgId -> option TOrganization;
  getOrgPermission :
    ActorType -> Id -> OrgId -> ActorAuthMethod -> option OrgId ->
    Result (Permission * TOrgMembership);
  getOrgPermissionByRole :
    OrgMembershipRole -> OrgId -> Result (Permission * option TOrgRole);
  getProjectPermission :
    ActorType -> Id -> Id -> ActorAuthMethod -> option OrgId ->
    Result TProjectPermission;
  isAtLeastAsPrivileged : Permission -> Permission -> bool;
  getPlan : OrgId -> TPlan;
  getConfig : TAppCfg;
  createSecretBlindIndex : option string -> option string -> TBlindIndex;
  createProjectKey : string -> string -> string * string;
  infisicalSymmetricEncypt : string -> TSealed;
  decryptAsymmetric : string -> string -> string -> string -> string;
  encryptAsymmetric : string -> string -> string -> string * string;
  slugify : string -> string;
  alphaNumericNanoId : nat -> string;
  generateUserKeys : Id -> string * string;
  findUserEncKeyByUserId : Id -> option TUserEncKey;
  identityOrgMembershipDAL_findOne : Id -> OrgId -> option TIdentityOrgMembership;
  findLatestProjectKey : Id -> Id -> list TProjectKey -> option TLatestKey;
  findProjectGhostUser : Id -> DB -> Result TUser;
  (* a store call may be refused by the database (constraint, connection) *)
  dalFault : DalOp -> DB -> bool
}.

(** ** The service's world and its computation type *)

(** [db] is the committed store; [txdb] is the working copy of the open
    transaction, if any; [deletedItems] logs [keyStore.deleteItem] calls,
    oldest first. *)
Record World := {
  db : DB;
  txdb : option DB;
  deletedItems : list string
}.

Definition M (A : Type) := World -> Result A * World.

Definition ret {A} (a : A) : M A := fun w => (inr a, w).
Definition throw {A} (e : Error) : M A := fun w => (inl e, w).
Definition bind {A B} (m : M A) (f : A -> M B) : M B :=
  fun w => match m w with
           | (inr a, w') => f a w'
           | (inl e, w') => (inl e, w')
           end.

Notation "x <- m ;; k" := (bind m (fun x => k))
  (at level 61, m at next level, right associativity).
Notation "m ;;; k" := (bind m (fun _ => k))
  (at level 61, right associativity).

Definition liftResult {A} (r : Result A) : M A :=
  match r with inr a => ret a | inl e => throw e end.

(** The optional [tx] argument of a DAL method. *)
Inductive Handle := Tx | NoTx.

(** A store call.  With the handle it works on the transaction's copy;
    without it, on the committed store. *)
Definition dal {A} (D : Deps) (op : DalOp) (h : Handle) (f : DB -> A * DB) : M A :=
  fun w =>
    match h, txdb w with
    | Tx, Some d =>
        if dalFault D op d then (inl (DatabaseError op), w)
        else let '(a, d') := f d in
             (inr a, {| db := db w; txdb := Some d'; deletedItems := deletedItems w |})
    | _, _ =>
        if dalFault D op (db w) then (inl (DatabaseError op), w)
        else let '(a, d') := f (db w) in
             (inr a, {| db := d'; txdb := txdb w; deletedItems := deletedItems w |})
    end.

(** A query through the handle. *)
Definition dalRead {A} (h : Handle) (f : DB -> A) : M A :=
  fun w =>
    match h, txdb w with
    | Tx, Some d => (inr (f d), w)
    | _, _ => (inr (f (db w)), w)
    end.

(** Modelled from the spec: [projectDAL.transaction] (the DAL is not among
    the sources).  The callback runs on a working copy of the store; when it
    returns the copy is committed, when it throws the copy is dropped and the
    exception propagates ("any exception at any step aborts the entire
    transaction"). *)
Definition transaction {A} (body : Handle -> M A) : M A :=
  fun w =>
    match body Tx {| db := db w; txdb := Some (db w); deletedItems := deletedItems w |} with
    | (inr a, w') =>
        (inr a, {| db := match txdb w' with Some d => d | None => db w' end;
                   txdb := txdb w; deletedItems := deletedItems w' |})
    | (inl e, w') =>
        (inl e, {| db := db w'; txdb := txdb w; deletedItems := deletedItems w' |})
    end.

(** [keyStore.deleteItem(key)], taken to resolve: the key store is outside
    this service and a rejection of the call is not modelled.  Both
    operations await it after their transaction has committed. *)
Definition keyStore_deleteItem (key : string) : M unit :=
  fun w => (inr tt, {| db := db w; txdb := txdb w;
                       deletedItems := deletedItems w ++ [key] |}).

(** ** Store operations *)

Definition withNextId (d : DB) (n : Id) : DB :=
  {| nextId := n; users := users d; projects := projects d;
     projectMemberships := projectMemberships d;
     projectUserMembershipRoles := projectUserMembershipRoles d;
     secretBlindIndexes := secretBlindIndexes d;
     projectEnvs := projectEnvs d; secretFolders := secretFolders d;
     projectKeys := projectKeys d; projectBots := projectBots d;
     identityProjectMemberships := identityProjectMemberships d;
     identityProjectMembershipRoles := identityProjectMembershipRoles d |}.

Definition withUsers (d : DB) (l : list TUser) : DB :=
  {| nextId := nextId d; users := l; projects := projects d;
     projectMemberships := projectMemberships d;
     projectUserMembershipRoles := projectUserMembershipRoles d;
     secretBlindIndexes := secretBlindIndexes d;
     projectEnvs := projectEnvs d; secretFolders := secretFolders d;
     projectKeys := projectKeys d; projectBots := projectBots d;
     identityProjectMemberships := identityProjectMemberships d;
     identityProjectMembershipRoles := identityProjectMembershipRoles d |}.

Definition withProjects (d : DB) (l : list TProject) : DB :=
  {| nextId := nextId d; users := users d; projects := l;
     projectMemberships := projectMemberships d;
     projectUserMembershipRoles := projectUserMembershipRoles d;
     secretBlindIndexes := secretBlindIndexes d;
     projectEnvs := projectEnvs d; secretFolders := secretFolders d;
     projectKeys := projectKeys d; projectBots := projectBots d;
     identityProjectMemberships := identityProjectMemberships d;
     identityProjectMembershipRoles := identityProjectMembershipRoles d |}.

Definition withProjectMemberships (d : DB) (l : list TProjectMembership) : DB :=
  {| nextId := nextId d; users := users d; projects := projects d;
     projectMemberships := l;
     projectUserMembershipRoles := projectUserMembershipRoles d;
     secretBlindIndexes := secretBlindIndexes d;
     projectEnvs := projectEnvs d; secretFolders := secretFolders d;
     projectKeys := projectKeys d; projectBots := projectBots d;
     identityProjectMemberships := identityProjectMemberships d;
     identityProjectMembershipRoles := identityProjectMembershipRoles d |}.

Definition withProjectUserMembershipRoles (d : DB) (l : list TProjectUserMembershipRole) : DB :=
  {| nextId := nextId d; users := users d; projects := projects d;
     projectMemberships := projectMemberships d;
     projectUserMembershipRoles := l;
     secretBlindIndexes := secretBlindIndexes d;
     projectEnvs := projectEnvs d; secretFolders := secretFolders d;
     projectKeys := projectKeys d; projectBots := projectBots d;
     identityProjectMemberships := identityProjectMemberships d;
     identityProjectMembershipRoles := identityProjectMembershipRoles d |}.

Definition withSecretBlindIndexes (d : DB) (l : list TSecretBlindIndex) : DB :=
  {| nextId := nextId d; users := users d; projects := projects d;
     projectMemberships := projectMemberships d;
     projectUserMembershipRoles := projectUserMembershipRoles d;
     secretBlindIndexes := l;
     projectEnvs := projectEnvs d; secretFolders := secretFolders d;
     projectKeys := projectKeys d; projectBots := projectBots d;
     identityProjectMemberships := identityProjectMemberships d;
     identityProjectMembershipRoles := identityProjectMembershipRoles d |}.

Definition withProjectEnvs (d : DB) (l : list TProjectEnv) : DB :=
  {| nextId := nextId d; users := users d; projects := projects d;
     projectMemberships := projectMemberships d;
     projectUserMembershipRoles := projectUserMembershipRoles d;
     secretBlindIndexes := secretBlindIndexes d;
     projectEnvs := l; secretFolders := secretFolders d;
     projectKeys := projectKeys d; projectBots := projectBots d;
     identityProjectMemberships := identityProjectMemberships d;
     identityProjectMembershipRoles := identityProjectMembershipRoles d |}.

Definition withSecretFolders (d : DB) (l : list TSecretFolder) : DB :=
  {| nextId := nextId d; users := users d; projects := projects d;
     projectMemberships := projectMemberships d;
     projectUserMembershipRoles := projectUserMembershipRoles d;
     secretBlindIndexes := secretBlindIndexes d;
     projectEnvs := projectEnvs d; secretFolders := l;
     projectKeys := projectKeys d; projectBots := projectBots d;
     identityProjectMemberships := identityProjectMemberships d;
     identityProjectMembershipRoles := identityProjectMembershipRoles d |}.

Definition withProjectKeys (d : DB) (l : list TProjectKey) : DB :=
  {| nextId := nextId d; users := users d; projects := projects d;
     projectMemberships := projectMemberships d;
     projectUserMembershipRoles := projectUserMembershipRoles d;
     secretBlindIndexes := secretBlindIndexes d;
     projectEnvs := projectEnvs d; secretFolders := secretFolders d;
     projectKeys := l; projectBots := projectBots d;
     identityProjectMemberships := identityProjectMemberships d;
     identityProjectMembershipRoles := identityProjectMembershipRoles d |}.

Definition withProjectBots (d : DB) (l : list TProjectBot) : DB :=
  {| nextId := nextId d; users := users d; projects := projects d;
     projectMemberships := projectMemberships d;
     projectUserMembershipRoles := projectUserMembershipRoles d;
     secretBlindIndexes := secretBlindIndexes d;
     projectEnvs := projectEnvs d; secretFolders := secretFolders d;
     projectKeys := projectKeys d; projectBots := l;
     identityProjectMemberships := identityProjectMemberships d;
     identityProjectMembershipRoles := identityProjectMembershipRoles d |}.

Definition withIdentityProjectMemberships (d : DB) (l : list TIdentityProjectMembership) : DB :=
  {| nextId := nextId d; users := users d; projects := projects d;
     projectMemberships := projectMemberships d;
     projectUserMembershipRoles := projectUserMembershipRoles d;
     secretBlindIndexes := secretBlindIndexes d;
     projectEnvs := projectEnvs d; secretFolders := secretFolders d;
     projectKeys := projectKeys d; projectBots := projectBots d;
     identityProjectMemberships := l;
     identityProjectMembershipRoles := identityProjectMembershipRoles d |}.

Definition withIdentityProjectMembershipRoles (d : DB) (l : list TIdentityProjectMembershipRole) : DB :=
  {| nextId := nextId d; users := users d; projects := projects d;
     projectMemberships := projectMemberships d;
     projectUserMembershipRoles := projectUserMembershipRoles d;
     secretBlindIndexes := secretBlindIndexes d;
     projectEnvs := projectEnvs d; secretFolders := secretFolders d;
     projectKeys := projectKeys d; projectBots := projectBots d;
     identityProjectMemberships := identityProjectMemberships d;
     identityProjectMembershipRoles := l |}.

(** Drawing the next primary key. *)
Definition bump (d : DB) : DB := withNextId d (S (nextId d)).

(** Rows of an [insertMany] receive consecutive keys. *)
Fixpoint assignIds {R} (n : Id) (mk : list (Id -> R)) : list R :=
  match mk with
  | [] => []
  | f :: t => f n :: assignIds (S n) t
  end.

Fixpoint mapi_from {A B} (i : nat) (f : A -> nat -> B) (l : list A) : list B :=
  match l with
  | [] => []
  | a :: t => f a i :: mapi_from (S i) f t
  end.

(** [Array.prototype.map] with its index argument. *)
Definition mapi {A B} (f : A -> nat -> B) (l : list A) : list B := mapi_from 0 f l.

(** Modelled from the spec: [orgService.addGhostUser] (org-service.ts is not
    among the sources): "creates a new synthetic account inside the
    organization's identity space and generates its asymmetric keypair",
    returning the account with the plaintext private key. *)
Definition addGhostUser_op (D : Deps) (orgId : OrgId) (d : DB) : TGhostUser * DB :=
  let u := {| user_id := nextId d; user_isGhost := true; user_orgId := orgId |} in
  let keys := generateUserKeys D (nextId d) in
  ({| ghost_user := u; ghost_publicKey := fst keys; ghost_plainPrivateKey := snd keys |},
   withUsers (bump d) (users d ++ [u])).

Definition projectDAL_create_op (name : string) (orgId : OrgId) (slug : string)
    (version : ProjectVersion) (pitVersionLimit : nat) (d : DB) : TProject * DB :=
  let p := {| project_id := nextId d; project_name := name; project_orgId := orgId;
              project_slug := slug; project_version := version;
              project_pitVersionLimit := pitVersionLimit |} in
  (p, withProjects (bump d) (projects d ++ [p])).

Definition projectMembershipDAL_create_op (userId projectId : Id) (d : DB)
    : TProjectMembership * DB :=
  let m := {| pm_id := nextId d; pm_userId := userId; pm_projectId := projectId |} in
  (m, withProjectMemberships (bump d) (projectMemberships d ++ [m])).

Definition projectUserMembershipRoleDAL_create_op (projectMembershipId : Id)
    (role : ProjectMembershipRole) (d : DB) : TProjectUserMembershipRole * DB :=
  let r := {| pumr_id := nextId d; pumr_projectMembershipId := projectMembershipId;
              pumr_role := role |} in
  (r, withProjectUserMembershipRoles (bump d) (projectUserMembershipRoles d ++ [r])).

Definition secretBlindIndexDAL_create_op (row : TSecretBlindIndex) (d : DB)
    : TSecretBlindIndex * DB :=
  (row, withSecretBlindIndexes d (secretBlindIndexes d ++ [row])).

Definition projectEnvDAL_insertMany_op (mk : list (Id -> TProjectEnv)) (d : DB)
    : list TProjectEnv * DB :=
  let rows := assignIds (nextId d) mk in
  (rows, withProjectEnvs (withNextId d (length mk + nextId d)) (projectEnvs d ++ rows)).

Definition folderDAL_insertMany_op (mk : list (Id -> TSecretFolder)) (d : DB)
    : list TSecretFolder * DB :=
  let rows := assignIds (nextId d) mk in
  (rows, withSecretFolders (withNextId d (length mk + nextId d)) (secretFolders d ++ rows)).

Definition projectKeyDAL_create_op (mk : Id -> TProjectKey) (d : DB) : TProjectKey * DB :=
  let k := mk (nextId d) in
  (k, withProjectKeys (bump d) (projectKeys d ++ [k])).

Definition projectBotDAL_create_op (mk : Id -> TProjectBot) (d : DB) : TProjectBot * DB :=
  let b := mk (nextId d) in
  (b, withProjectBots (bump d) (projectBots d ++ [b])).

Definition identityProjectDAL_create_op (identityId projectId : Id) (d : DB)
    : TIdentityProjectMembership * DB :=
  let m := {| ipm_id := nextId d; ipm_identityId := identityId; ipm_projectId := projectId |} in
  (m, withIdentityProjectMemberships (bump d) (identityProjectMemberships d ++ [m])).

Definition identityProjectMembershipRoleDAL_create_op (projectMembershipId : Id)
    (role : ProjectMembershipRole) (customRoleId : option Id) (d : DB)
    : TIdentityProjectMembershipRole * DB :=
  let r := {| ipmr_id := nextId d; ipmr_projectMembershipId := projectMembershipId;
              ipmr_role := role; ipmr_customRoleId := customRoleId |} in
  (r, withIdentityProjectMembershipRoles (bump d) (identityProjectMembershipRoles d ++ [r])).

Definition projectDAL_deleteById_op (id : Id) (d : DB) : option TProject * DB :=
  (find (fun p => Nat.eqb (project_id p) id) (projects d),
   withProjects d (filter (fun p => negb (Nat.eqb (project_id p) id)) (projects d))).

Definition userDAL_deleteById_op (id : Id) (d : DB) : option TUser * DB :=
  (find (fun u => Nat.eqb (user_id u) id) (users d),
   withUsers d (filter (fun u => negb (Nat.eqb (user_id u) id)) (users d))).

Definition setPitVersionLimit (limit : nat) (p : TProject) : TProject :=
  {| project_id := project_id p; project_name := project_name p;
     project_orgId := project_orgId p; project_slug := project_slug p;
     project_version := project_version p; project_pitVersionLimit := limit |}.

Definition projectDAL_updateById_op (id : Id) (pitVersionLimit : nat) (d : DB)
    : option TProject * DB :=
  let upd := map (fun p => if Nat.eqb (project_id p) id then setPitVersionLimit pitVersionLimit p else p)
                 (projects d) in
  (find (fun p => Nat.eqb (project_id p) id) upd, withProjects d upd).

(** Modelled from the spec: [projectDAL.findProjectBySlug] (project-dal.ts is
    not among the sources): the project with that slug "scoped to an
    organization", or nothing. *)
Definition projectDAL_findProjectBySlug (slug : string) (orgId : option OrgId) (d : DB)
    : option TProject :=
  match orgId with
  | None => None
  | Some o => find (fun p => String.eqb (project_slug p) slug && String.eqb (project_orgId p) o)
                   (projects d)
  end.

(** project-types.ts: [Filter]. *)
Inductive Filter :=
| FilterID (projectId : Id)
| FilterSLUG (slug : string) (orgId : option OrgId).

(** Modelled from the spec: [projectDAL.findProjectByFilter] (project-dal.ts
    is not among the sources): "return Project by identifier or slug"; a
    missing project is a NotFound error that aborts the operation.  The
    spec does not give the error value; it is rendered as the error this
    service raises for its own missing project (lines 421-423). *)
Definition projectDAL_findProjectByFilter (f : Filter) (d : DB) : Result TProject :=
  let r := match f with
           | FilterID id => find (fun p => Nat.eqb (project_id p) id) (projects d)
           | FilterSLUG slug orgId => projectDAL_findProjectBySlug slug orgId d
           end in
  match r with
  | Some p => inr p
  | None => inl (BadRequestError "Project not found")
  end.

(** ** project-fns.ts and constants *)

Record TMember := {
  m_userPublicKey : string;
  m_orgMembershipId : Id;
  m_projectMembershipRole : ProjectMembershipRole
}.

Record TNewMember := {
  nm_orgMembershipId : Id;
  nm_projectRole : ProjectMembershipRole;
  nm_workspaceEncryptedKey : string;
  nm_workspaceEncryptedNonce : string
}.

(** Modelled from the spec: [assignWorkspaceKeysToMembers] (project-fns.ts is
    not among the sources): "wrap the root key for the actor (sender =
    custodian)", which "requires unwrapping it first via the sender's private
    key"; each member keeps the role it was submitted with. *)
Definition assignWorkspaceKeysToMembers (D : Deps) (decryptKey : TLatestKey)
    (userPrivateKey : string) (members : list TMember) : list TNewMember :=
  let plaintextProjectKey :=
    decryptAsymmetric D (pk_encryptedKey (lk_key decryptKey)) (pk_nonce (lk_key decryptKey))
                      (lk_senderPublicKey decryptKey) userPrivateKey in
  map (fun m =>
         let wrapped :=
           encryptAsymmetric D plaintextProjectKey (m_userPublicKey m) userPrivateKey in
         {| nm_orgMembershipId := m_orgMembershipId m;
            nm_projectRole := m_projectMembershipRole m;
            nm_workspaceEncryptedKey := fst wrapped;
            nm_workspaceEncryptedNonce := snd wrapped |})
      members.

Definition DEFAULT_PROJECT_ENVS : list (string * string) :=
  [ ("Development", "dev"); ("Staging", "staging"); ("Production", "prod") ].

(** secret-folder-dal.ts exports this constant; its value is taken from the
    folder convention of the store. *)
Definition ROOT_FOLDER_NAME : string := "root".

(** ** JavaScript idioms *)

(** [a || b] on an optional string: [undefined] and the empty string are falsy. *)
Definition js_or (a : option string) (b : string) : string :=
  match a with
  | None => b
  | Some EmptyString => b
  | Some s => s
  end.

(** An id inside a template literal.  Ids are naturals here, so the text of
    an id is its decimal numeral. *)
Definition idText (id : Id) : string := NilEmpty.string_of_uint (Nat.to_uint id).

(** An optional string inside a template literal. *)
Definition template (a : option string) : string :=
  match a with Some s => s | None => "undefined" end.

(** [ForbiddenError.from(permission).throwUnlessCan(action, subject)] *)
Definition throwUnlessCan (permission : Permission) (a : Action) (s : Subject) : M unit :=
  if can permission a s then ret tt else throw ForbiddenError.

Definition planLimitReached (plan : TPlan) : bool :=
  match workspaceLimit plan with
  | Some limit => Nat.leb limit (workspacesUsed plan)
  | None => false
  end.

(** ** createProject *)

Record TCreateProjectDTO := {
  actor : ActorType;
  actorAuthMethod : ActorAuthMethod;
  actorId : Id;
  actorOrgId : option OrgId;
  workspaceName : string;
  slug : option string
}.

(** [{ ...project, environments: envs, _id: project.id }] *)
Record TCreateProjectResult := {
  res_project : TProject;
  res_environments : list TProjectEnv;
  res__id : Id
}.

(** Lines 224-268 of the transaction callback: the [actor === ActorType.USER]
    branch. *)
Definition addUserAsAdmin (D : Deps) (tx : Handle) (dto : TCreateProjectDTO)
    (orgMembership : TOrgMembership) (ghostUser : TGhostUser) (project : TProject)
    (latestKey : TLatestKey) : M unit :=
  match findUserEncKeyByUserId D (actorId dto) with
  | None => throw (PlainError "User not found")
  | Some user =>
      match assignWorkspaceKeysToMembers D latestKey (ghost_plainPrivateKey ghostUser)
              [ {| m_userPublicKey := uek_publicKey user;
                   m_orgMembershipId := orgMembership_id orgMembership;
                   m_projectMembershipRole := PAdmin |} ] with
      | [] => throw TypeError
      | projectAdmin :: _ =>
          userProjectMembership <-
            dal D OpMembershipCreate tx
                (projectMembershipDAL_create_op (uek_userId user) (project_id project)) ;;
          dal D OpMembershipRoleCreate tx
              (projectUserMembershipRoleDAL_create_op (pm_id userProjectMembership)
                                                      (nm_projectRole projectAdmin)) ;;;
          dal D OpProjectKeyCreate tx
              (projectKeyDAL_create_op (fun id =>
                 {| pk_id := id;
                    pk_projectId := project_id project;
                    pk_receiverId := uek_userId user;
                    pk_encryptedKey := nm_workspaceEncryptedKey projectAdmin;
                    pk_nonce := nm_workspaceEncryptedNonce projectAdmin;
                    pk_senderId := user_id (ghost_user ghostUser) |})) ;;;
          ret tt
      end
  end.

(** Lines 271-318 of the transaction callback: the
    [actor === ActorType.IDENTITY] branch. *)
Definition addIdentityAsAdmin (D : Deps) (tx : Handle) (dto : TCreateProjectDTO)
    (permission : Permission) (organization : TOrganization) (project : TProject)
    : M unit :=
  match identityOrgMembershipDAL_findOne D (actorId dto) (project_orgId project) with
  | None =>
      throw (BadRequestError ("Failed to find identity with id " ++ idText (actorId dto))%string)
  | Some identityOrgMembership =>
      rp <- liftResult (getOrgPermissionByRole D OMember (org_id organization)) ;;
      let '(rolePermission, customRole) := rp in
      let hasPrivilege := isAtLeastAsPrivileged D permission rolePermission in
      if negb hasPrivilege then
        throw (ForbiddenRequestError
                 "Failed to add identity to project with more privileged role")
      else
        let isCustomRole := match customRole with Some _ => true | None => false end in
        identityProjectMembership <-
          dal D OpIdentityProjectCreate tx
              (identityProjectDAL_create_op (actorId dto) (project_id project)) ;;
        dal D OpIdentityProjectRoleCreate tx
            (identityProjectMembershipRoleDAL_create_op
               (ipm_id identityProjectMembership)
               (if isCustomRole then PCustom else PAdmin)
               (option_map orgRole_id customRole)) ;;;
        ret tt
  end.

(** The callback handed to [projectDAL.transaction] (lines 129-325). *)
Definition createProject_tx (D : Deps) (dto : TCreateProjectDTO)
    (organization : TOrganization) (permission : Permission)
    (orgMembership : TOrgMembership) (blindIndex : TBlindIndex) (tx : Handle)
    : M TCreateProjectResult :=
  ghostUser <- dal D OpAddGhostUser tx (addGhostUser_op D (org_id organization)) ;;
  project <-
    dal D OpProjectCreate tx
        (projectDAL_create_op
           (workspaceName dto) (org_id organization)
           (js_or (slug dto)
                  (slugify D (workspaceName dto ++ "-" ++ alphaNumericNanoId D 4)))
           V2 10) ;;
  projectMembership <-
    dal D OpMembershipCreate tx
        (projectMembershipDAL_create_op (user_id (ghost_user ghostUser)) (project_id project)) ;;
  dal D OpMembershipRoleCreate tx
      (projectUserMembershipRoleDAL_create_op (pm_id projectMembership) PAdmin) ;;;
  dal D OpBlindIndexCreate tx
      (secretBlindIndexDAL_create_op
         {| sbi_projectId := project_id project;
            sbi_keyEncoding := bi_keyEncoding blindIndex;
            sbi_saltIV := bi_iv blindIndex;
            sbi_saltTag := bi_tag blindIndex;
            sbi_algorithm := bi_algorithm blindIndex;
            sbi_encryptedSaltCipherText := bi_ciphertext blindIndex |}) ;;;
  envs <-
    dal D OpEnvInsertMany tx
        (projectEnvDAL_insertMany_op
           (mapi (fun el i id =>
                    {| env_id := id; env_name := fst el; env_slug := snd el;
                       env_projectId := project_id project; env_position := i + 1 |})
                 DEFAULT_PROJECT_ENVS)) ;;
  dal D OpFolderInsertMany tx
      (folderDAL_insertMany_op
         (map (fun e id =>
                 {| folder_id := id; folder_name := ROOT_FOLDER_NAME;
                    folder_envId := env_id e; folder_version := 1 |})
              envs)) ;;;
  let projectKey :=
    createProjectKey D (ghost_publicKey ghostUser) (ghost_plainPrivateKey ghostUser) in
  let encryptedProjectKey := fst projectKey in
  let encryptedProjectKeyIv := snd projectKey in
  dal D OpProjectKeyCreate tx
      (projectKeyDAL_create_op (fun id =>
         {| pk_id := id;
            pk_projectId := project_id project;
            pk_receiverId := user_id (ghost_user ghostUser);
            pk_encryptedKey := encryptedProjectKey;
            pk_nonce := encryptedProjectKeyIv;
            pk_senderId := user_id (ghost_user ghostUser) |})) ;;;
  let sealed := infisicalSymmetricEncypt D (ghost_plainPrivateKey ghostUser) in
  dal D OpProjectBotCreate tx
      (projectBotDAL_create_op (fun id =>
         {| bot_id := id;
            bot_name := "Infisical Bot (Ghost)";
            bot_projectId := project_id project;
            bot_tag := sealed_tag sealed;
            bot_iv := sealed_iv sealed;
            bot_encryptedProjectKey := encryptedProjectKey;
            bot_encryptedProjectKeyNonce := encryptedProjectKeyIv;
            bot_encryptedPrivateKey := sealed_ciphertext sealed;
            bot_isActive := true;
            bot_publicKey := ghost_publicKey ghostUser;
            bot_senderId := user_id (ghost_user ghostUser);
            bot_algorithm := sealed_algorithm sealed;
            bot_keyEncoding := sealed_encoding sealed |})) ;;;
  latest <- dalRead tx (fun d =>
              findLatestProjectKey D (user_id (ghost_user ghostUser)) (project_id project)
                                   (projectKeys d)) ;;
  match latest with
  | None => throw (PlainError "Latest key not found for user")
  | Some latestKey =>
      match actor dto with
      | USER => addUserAsAdmin D tx dto orgMembership ghostUser project latestKey
      | IDENTITY => addIdentityAsAdmin D tx dto permission organization project
      | _ => ret tt
      end ;;;
      ret {| res_project := project; res_environments := envs; res__id := project_id project |}
  end.

Definition createProject (D : Deps) (dto : TCreateProjectDTO) : M TCreateProjectResult :=
  match orgDAL_findOne D (actorOrgId dto) with
  | None => throw TypeError
  | Some organization =>
      pm <- liftResult (getOrgPermission D (actor dto) (actorId dto) (org_id organization)
                                         (actorAuthMethod dto) (actorOrgId dto)) ;;
      let '(permission, orgMembership) := pm in
      throwUnlessCan permission Create Workspace ;;;
      let appCfg := getConfig D in
      let blindIndex :=
        createSecretBlindIndex D (ROOT_ENCRYPTION_KEY appCfg) (ENCRYPTION_KEY appCfg) in
      let plan := getPlan D (org_id organization) in
      if planLimitReached plan then
        throw (BadRequestError
          "Failed to create workspace due to plan limit reached. Upgrade plan to add more workspaces.")
      else
        results <- transaction
                     (createProject_tx D dto organization permission orgMembership blindIndex) ;;
        keyStore_deleteItem ("infisical-cloud-plan-" ++ template (actorOrgId dto)) ;;;
        ret results
  end.

(** ** deleteProject *)

Record TDeleteProjectDTO := {
  del_actor : ActorType;
  del_actorId : Id;
  del_actorOrgId : option OrgId;
  del_actorAuthMethod : ActorAuthMethod;
  del_filter : Filter
}.

(** [promise.catch(() => null)] *)
Definition catchNull {A} (r : Result A) : option A :=
  match r with inr a => Some a | inl _ => None end.

Definition deleteProject_tx (D : Deps) (project : TProject) (tx : Handle)
    : M (option TProject) :=
  delProject <- dal D OpProjectDeleteById tx (projectDAL_deleteById_op (project_id project)) ;;
  projectGhostUser <- dalRead tx (fun d => catchNull (findProjectGhostUser D (project_id project) d)) ;;
  match projectGhostUser with
  | Some g => dal D OpUserDeleteById tx (userDAL_deleteById_op (user_id g)) ;;; ret tt
  | None => ret tt
  end ;;;
  ret delProject.

Definition deleteProject (D : Deps) (dto : TDeleteProjectDTO) : M (option TProject) :=
  found <- dalRead NoTx (projectDAL_findProjectByFilter (del_filter dto)) ;;
  project <- liftResult found ;;
  pp <- liftResult (getProjectPermission D (del_actor dto) (del_actorId dto) (project_id project)
                                         (del_actorAuthMethod dto) (del_actorOrgId dto)) ;;
  throwUnlessCan (pp_permission pp) Delete Project ;;;
  deletedProject <- transaction (deleteProject_tx D project) ;;
  keyStore_deleteItem ("infisical-cloud-plan-" ++ template (del_actorOrgId dto)) ;;;
  ret deletedProject.

(** ** updateVersionLimit *)

Record TUpdateProjectVersionLimitDTO := {
  uvl_actor : ActorType;
  uvl_actorId : Id;
  uvl_actorOrgId : option OrgId;
  uvl_actorAuthMethod : ActorAuthMethod;
  uvl_pitVersionLimit : nat;
  uvl_workspaceSlug : string
}.

Definition updateVersionLimit (D : Deps) (dto : TUpdateProjectVersionLimitDTO)
    : M (option TProject) :=
  found <- dalRead NoTx (projectDAL_findProjectBySlug (uvl_workspaceSlug dto) (uvl_actorOrgId dto)) ;;
  match found with
  | None => throw (BadRequestError "Project not found")
  | Some project =>
      pp <- liftResult (getProjectPermission D (uvl_actor dto) (uvl_actorId dto)
                          (project_id project) (uvl_actorAuthMethod dto) (uvl_actorOrgId dto)) ;;
      if negb (pp_hasRole pp PAdmin) then
        throw (BadRequestError "Only admins are allowed to take this action")
      else
        dal D OpProjectUpdateById NoTx
            (projectDAL_updateById_op (project_id project) (uvl_pitVersionLimit dto))
  end.

(** ** Concrete collaborators for evaluation *)

Definition allowAll : Permission := {| can := fun _ _ => true |}.
Definition denyAll : Permission := {| can := fun _ _ => false |}.

(** The latest grant of a receiver in a project, by insertion order. *)
Definition latestGrant (receiverId projectId : Id) (ks : list TProjectKey)
    : option TLatestKey :=
  match find (fun k => Nat.eqb (pk_receiverId k) receiverId
                       && Nat.eqb (pk_projectId k) projectId) (rev ks) with
  | Some k => Some {| lk_key := k; lk_senderPublicKey := "ghost-public-key" |}
  | None => None
  end.

(** What varies between the scenarios evaluated below. *)
Record Scenario := {
  sc_plan : TPlan;
  sc_permission : Permission;
  sc_privileged : bool;
  sc_memberRoleObject : option TOrgRole;
  sc_identityMembership : option TIdentityOrgMembership;
  sc_userKey : option TUserEncKey;
  sc_isProjectAdmin : bool;
  sc_latestKeyFound : bool;
  sc_fault : DalOp -> DB -> bool
}.

Definition scenarioDeps (sc : Scenario) : Deps :=
  {| orgDAL_findOne := option_map (fun o => {| org_id := o |});
     getOrgPermission := fun _ _ _ _ _ =>
       inr (sc_permission sc, {| orgMembership_id := 7 |});
     getOrgPermissionByRole := fun _ _ => inr (allowAll, sc_memberRoleObject sc);
     getProjectPermission := fun _ _ _ _ _ =>
       inr {| pp_permission := sc_permission sc;
              pp_hasRole := fun r => match r with
                                     | PAdmin => sc_isProjectAdmin sc
                                     | _ => false
                                     end |};
     isAtLeastAsPrivileged := fun _ _ => sc_privileged sc;
     getPlan := fun _ => sc_plan sc;
     getConfig := {| ROOT_ENCRYPTION_KEY := Some "root-key"; ENCRYPTION_KEY := None |};
     createSecretBlindIndex := fun _ _ =>
       {| bi_keyEncoding := "base64"; bi_iv := "iv"; bi_tag := "tag";
          bi_algorithm := "aes-256-gcm"; bi_ciphertext := "salt" |};
     createProjectKey := fun _ _ => ("wrapped-root-key", "nonce0");
     infisicalSymmetricEncypt := fun _ =>
       {| sealed_iv := "iv1"; sealed_tag := "tag1"; sealed_ciphertext := "sealed-private-key";
          sealed_encoding := "base64"; sealed_algorithm := "aes-256-gcm" |};
     decryptAsymmetric := fun _ _ _ _ => "root-key-plain";
     encryptAsymmetric := fun _ pub _ => ("wrapped-for-" ++ pub, "nonce1");
     slugify := fun s => s;
     alphaNumericNanoId := fun _ => "x7k2";
     generateUserKeys := fun _ => ("ghost-public-key", "ghost-private-key");
     findUserEncKeyByUserId := fun _ => sc_userKey sc;
     identityOrgMembershipDAL_findOne := fun _ _ => sc_identityMembership sc;
     findLatestProjectKey := fun u p ks =>
       if sc_latestKeyFound sc then latestGrant u p ks else None;
     findProjectGhostUser := fun _ _ => inl (CollaboratorError "ghost user not found");
     dalFault := sc_fault sc |}.

Definition noFault : DalOp -> DB -> bool := fun _ _ => false.

Definition happyScenario : Scenario :=
  {| sc_plan := {| workspaceLimit := Some 3; workspacesUsed := 1 |};
     sc_permission := allowAll;
     sc_privileged := true;
     sc_memberRoleObject := None;
     sc_identityMembership :=
       Some {| iom_id := 50; iom_role := OMember; iom_roleId := None;
               iom_identityId := 1; iom_orgId := "org1" |};
     sc_userKey := Some {| uek_userId := 1; uek_publicKey := "alice-public-key" |};
     sc_isProjectAdmin := true;
     sc_latestKeyFound := true;
     sc_fault := noFault |}.

Definition emptyDB : DB :=
  {| nextId := 100; users := []; projects := []; projectMemberships := [];
     projectUserMembershipRoles := []; secretBlindIndexes := []; projectEnvs := [];
     secretFolders := []; projectKeys := []; projectBots := [];
     identityProjectMemberships := []; identityProjectMembershipRoles := [] |}.

Definition emptyWorld : World := {| db := emptyDB; txdb := None; deletedItems := [] |}.

Definition acmeBy (a : ActorType) (s : option string) : TCreateProjectDTO :=
  {| actor := a; actorAuthMethod := None; actorId := 1; actorOrgId := Some "org1";
     workspaceName := "Acme"; slug := s |}.

(** ** Postconditions, error values and scenarios used by the theorems *)

Open Scope list_scope.

(** [m] touches neither the committed store nor the key store, and leaves
    the transaction open. *)
Definition txLocal {A} (m : M A) : Prop :=
  forall b d l r w',
    m {| db := b; txdb := Some d; deletedItems := l |} = (r, w') ->
    exists d', w' = {| db := b; txdb := Some d'; deletedItems := l |}.

(** What is left of [createProject] once the organisation, the permission
    and the plan have been looked at. *)
Definition createProject_provision (D : Deps) (dto : TCreateProjectDTO)
    (organization : TOrganization) (permission : Permission)
    (orgMembership : TOrgMembership) : M TCreateProjectResult :=
  let appCfg := getConfig D in
  let blindIndex :=
    createSecretBlindIndex D (ROOT_ENCRYPTION_KEY appCfg) (ENCRYPTION_KEY appCfg) in
  results <- transaction
               (createProject_tx D dto organization permission orgMembership blindIndex) ;;
  keyStore_deleteItem ("infisical-cloud-plan-" ++ template (actorOrgId dto)) ;;;
  ret results.

Definition planLimitError : Error :=
  BadRequestError
    "Failed to create workspace due to plan limit reached. Upgrade plan to add more workspaces.".

Definition botFaultScenario : Scenario :=
  {| sc_plan := sc_plan happyScenario;
     sc_permission := allowAll;
     sc_privileged := true;
     sc_memberRoleObject := None;
     sc_identityMembership := sc_identityMembership happyScenario;
     sc_userKey := sc_userKey happyScenario;
     sc_isProjectAdmin := true;
     sc_latestKeyFound := true;
     sc_fault := fun op _ => match op with OpProjectBotCreate => true | _ => false end |}.

Definition DalOp_eqb (a b : DalOp) : bool :=
  match a, b with
  | OpAddGhostUser, OpAddGhostUser | OpProjectCreate, OpProjectCreate
  | OpMembershipCreate, OpMembershipCreate | OpMembershipRoleCreate, OpMembershipRoleCreate
  | OpBlindIndexCreate, OpBlindIndexCreate | OpEnvInsertMany, OpEnvInsertMany
  | OpFolderInsertMany, OpFolderInsertMany | OpProjectKeyCreate, OpProjectKeyCreate
  | OpProjectBotCreate, OpProjectBotCreate | OpIdentityProjectCreate, OpIdentityProjectCreate
  | OpIdentityProjectRoleCreate, OpIdentityProjectRoleCreate
  | OpProjectDeleteById, OpProjectDeleteById | OpUserDeleteById, OpUserDeleteById
  | OpProjectUpdateById, OpProjectUpdateById => true
  | _, _ => false
  end.

(** The store refuses the first call of kind [op]. *)
Definition faultAt (op : DalOp) : Scenario :=
  {| sc_plan := sc_plan happyScenario;
     sc_permission := allowAll;
     sc_privileged := true;
     sc_memberRoleObject := None;
     sc_identityMembership := sc_identityMembership happyScenario;
     sc_userKey := sc_userKey happyScenario;
     sc_isProjectAdmin := true;
     sc_latestKeyFound := true;
     sc_fault := fun o _ => DalOp_eqb o op |}.

(** The store refuses the actor's rows of step 8 only: a membership, a role
    or a key grant is refused once the custodian's is in place. *)
Definition faultAtActorRows (op : DalOp) : Scenario :=
  {| sc_plan := sc_plan happyScenario;
     sc_permission := allowAll;
     sc_privileged := true;
     sc_memberRoleObject := None;
     sc_identityMembership := sc_identityMembership happyScenario;
     sc_userKey := sc_userKey happyScenario;
     sc_isProjectAdmin := true;
     sc_latestKeyFound := true;
     sc_fault := fun o d =>
       DalOp_eqb o op &&
       match o with
       | OpMembershipCreate => negb (Nat.eqb (length (projectMemberships d)) 0)
       | OpMembershipRoleCreate => negb (Nat.eqb (length (projectUserMembershipRoles d)) 0)
       | OpProjectKeyCreate => negb (Nat.eqb (length (projectKeys d)) 0)
       | _ => true
       end |}.

Definition noLatestKeyScenario : Scenario :=
  {| sc_plan := sc_plan happyScenario;
     sc_permission := allowAll;
     sc_privileged := true;
     sc_memberRoleObject := None;
     sc_identityMembership := sc_identityMembership happyScenario;
     sc_userKey := sc_userKey happyScenario;
     sc_isProjectAdmin := true;
     sc_latestKeyFound := false;
     sc_fault := noFault |}.

(** The store calls of the provisioning transaction, in source order, up to
    the actor branch; and those of the two actor branches. *)
Definition commonSteps : list DalOp :=
  [ OpAddGhostUser; OpProjectCreate; OpMembershipCreate; OpMembershipRoleCreate;
    OpBlindIndexCreate; OpEnvInsertMany; OpFolderInsertMany; OpProjectKeyCreate;
    OpProjectBotCreate ].

Definition userSteps : list DalOp :=
  [ OpMembershipCreate; OpMembershipRoleCreate; OpProjectKeyCreate ].

Definition identitySteps : list DalOp :=
  [ OpIdentityProjectCreate; OpIdentityProjectRoleCreate ].

(** The key both operations hand to [keyStore.deleteItem]. *)
Definition planCacheKey (actorOrgId : option OrgId) : string :=
  ("infisical-cloud-plan-" ++ template actorOrgId)%string.

(** The slug given to a new project. *)
Definition newSlug (D : Deps) (dto : TCreateProjectDTO) : string :=
  js_or (slug dto) (slugify D (workspaceName dto ++ "-" ++ alphaNumericNanoId D 4)).

Definition ghostRow (org : TOrganization) (n : Id) : TUser :=
  {| user_id := n; user_isGhost := true; user_orgId := org_id org |}.

Definition projectRow (D : Deps) (dto : TCreateProjectDTO) (org : TOrganization) (n : Id)
    : TProject :=
  {| project_id := 1 + n; project_name := workspaceName dto; project_orgId := org_id org;
     project_slug := newSlug D dto; project_version := V2; project_pitVersionLimit := 10 |}.

Definition envRows (n : Id) : list TProjectEnv :=
  [ {| env_id := 4 + n; env_name := "Development"; env_slug := "dev";
       env_projectId := 1 + n; env_position := 1 |};
    {| env_id := 5 + n; env_name := "Staging"; env_slug := "staging";
       env_projectId := 1 + n; env_position := 2 |};
    {| env_id := 6 + n; env_name := "Production"; env_slug := "prod";
       env_projectId := 1 + n; env_position := 3 |} ].

Definition folderRows (n : Id) : list TSecretFolder :=
  [ {| folder_id := 7 + n; folder_name := "root"; folder_envId := 4 + n; folder_version := 1 |};
    {| folder_id := 8 + n; folder_name := "root"; folder_envId := 5 + n; folder_version := 1 |};
    {| folder_id := 9 + n; folder_name := "root"; folder_envId := 6 + n; folder_version := 1 |} ].

Definition blindIndexRow (bi : TBlindIndex) (n : Id) : TSecretBlindIndex :=
  {| sbi_projectId := 1 + n; sbi_keyEncoding := bi_keyEncoding bi; sbi_saltIV := bi_iv bi;
     sbi_saltTag := bi_tag bi; sbi_algorithm := bi_algorithm bi;
     sbi_encryptedSaltCipherText := bi_ciphertext bi |}.

Definition ghostProjectKey (D : Deps) (n : Id) : string * string :=
  createProjectKey D (fst (generateUserKeys D n)) (snd (generateUserKeys D n)).

Definition ghostKeyRow (D : Deps) (n : Id) : TProjectKey :=
  {| pk_id := 10 + n; pk_projectId := 1 + n; pk_receiverId := n;
     pk_encryptedKey := fst (ghostProjectKey D n);
     pk_nonce := snd (ghostProjectKey D n);
     pk_senderId := n |}.

Definition botRow (D : Deps) (n : Id) : TProjectBot :=
  let sealed := infisicalSymmetricEncypt D (snd (generateUserKeys D n)) in
  {| bot_id := 11 + n; bot_name := "Infisical Bot (Ghost)"; bot_projectId := 1 + n;
     bot_tag := sealed_tag sealed; bot_iv := sealed_iv sealed;
     bot_encryptedProjectKey := fst (ghostProjectKey D n);
     bot_encryptedProjectKeyNonce := snd (ghostProjectKey D n);
     bot_encryptedPrivateKey := sealed_ciphertext sealed;
     bot_isActive := true;
     bot_publicKey := fst (generateUserKeys D n);
     bot_senderId := n;
     bot_algorithm := sealed_algorithm sealed;
     bot_keyEncoding := sealed_encoding sealed |}.

Definition ghostMembershipRow (n : Id) : TProjectMembership :=
  {| pm_id := 2 + n; pm_userId := n; pm_projectId := 1 + n |}.

Definition ghostRoleRow (n : Id) : TProjectUserMembershipRole :=
  {| pumr_id := 3 + n; pumr_projectMembershipId := 2 + n; pumr_role := PAdmin |}.

Definition userMembershipRow (user : TUserEncKey) (n : Id) : TProjectMembership :=
  {| pm_id := 12 + n; pm_userId := uek_userId user; pm_projectId := 1 + n |}.

Definition userRoleRow (n : Id) : TProjectUserMembershipRole :=
  {| pumr_id := 13 + n; pumr_projectMembershipId := 12 + n; pumr_role := PAdmin |}.

Definition userKeyRow (user : TUserEncKey) (wrapped : string * string) (n : Id) : TProjectKey :=
  {| pk_id := 14 + n; pk_projectId := 1 + n; pk_receiverId := uek_userId user;
     pk_encryptedKey := fst wrapped; pk_nonce := snd wrapped; pk_senderId := n |}.

Definition identityMembershipRow (dto : TCreateProjectDTO) (n : Id) : TIdentityProjectMembership :=
  {| ipm_id := 12 + n; ipm_identityId := actorId dto; ipm_projectId := 1 + n |}.

Definition identityRoleRow (customRole : option TOrgRole) (n : Id)
    : TIdentityProjectMembershipRole :=
  {| ipmr_id := 13 + n; ipmr_projectMembershipId := 12 + n;
     ipmr_role := match customRole with Some _ => PCustom | None => PAdmin end;
     ipmr_customRoleId := option_map orgRole_id customRole |}.

(** The rows the actor branch adds, by actor kind. *)
Definition ActorRows (D : Deps) (dto : TCreateProjectDTO) (org : TOrganization)
    (perm : Permission) (d d' : DB) : Prop :=
  let n := nextId d in
  match actor dto with
  | USER =>
      exists user wrapped,
        findUserEncKeyByUserId D (actorId dto) = Some user /\
        projectMemberships d' =
          projectMemberships d ++ [ghostMembershipRow n; userMembershipRow user n] /\
        projectUserMembershipRoles d' =
          projectUserMembershipRoles d ++ [ghostRoleRow n; userRoleRow n] /\
        projectKeys d' = projectKeys d ++ [ghostKeyRow D n; userKeyRow user wrapped n] /\
        identityProjectMemberships d' = identityProjectMemberships d /\
        identityProjectMembershipRoles d' = identityProjectMembershipRoles d
  | IDENTITY =>
      exists iom rolePermission customRole,
        identityOrgMembershipDAL_findOne D (actorId dto) (org_id org) = Some iom /\
        getOrgPermissionByRole D OMember (org_id org) = inr (rolePermission, customRole) /\
        isAtLeastAsPrivileged D perm rolePermission = true /\
        projectMemberships d' = projectMemberships d ++ [ghostMembershipRow n] /\
        projectUserMembershipRoles d' = projectUserMembershipRoles d ++ [ghostRoleRow n] /\
        projectKeys d' = projectKeys d ++ [ghostKeyRow D n] /\
        identityProjectMemberships d' =
          identityProjectMemberships d ++ [identityMembershipRow dto n] /\
        identityProjectMembershipRoles d' =
          identityProjectMembershipRoles d ++ [identityRoleRow customRole n]
  | _ =>
      projectMemberships d' = projectMemberships d ++ [ghostMembershipRow n] /\
      projectUserMembershipRoles d' = projectUserMembershipRoles d ++ [ghostRoleRow n] /\
      projectKeys d' = projectKeys d ++ [ghostKeyRow D n] /\
      identityProjectMemberships d' = identityProjectMemberships d /\
      identityProjectMembershipRoles d' = identityProjectMembershipRoles d
  end.

(** The store [d'] and the result [r] of a provisioning that started on [d]. *)
Definition Provisioned (D : Deps) (dto : TCreateProjectDTO) (org : TOrganization)
    (perm : Permission) (bi : TBlindIndex) (d d' : DB) (r : TCreateProjectResult) : Prop :=
  let n := nextId d in
  r = {| res_project := projectRow D dto org n; res_environments := envRows n;
         res__id := 1 + n |} /\
  users d' = users d ++ [ghostRow org n] /\
  projects d' = projects d ++ [projectRow D dto org n] /\
  secretBlindIndexes d' = secretBlindIndexes d ++ [blindIndexRow bi n] /\
  projectEnvs d' = projectEnvs d ++ envRows n /\
  secretFolders d' = secretFolders d ++ folderRows n /\
  projectBots d' = projectBots d ++ [botRow D n] /\
  ActorRows D dto org perm d d'.

(** Every project or environment reference held in the store was drawn from
    the sequence before [nextId]. *)
Definition wellKeyed (d : DB) : bool :=
  forallb (fun e => Nat.ltb (env_projectId e) (nextId d)) (projectEnvs d)
  && forallb (fun f => Nat.ltb (folder_envId f) (nextId d)) (secretFolders d)
  && forallb (fun k => Nat.ltb (pk_projectId k) (nextId d)) (projectKeys d)
  && forallb (fun b => Nat.ltb (bot_projectId b) (nextId d)) (projectBots d)
  && forallb (fun m => Nat.ltb (pm_projectId m) (nextId d)) (projectMemberships d)
  && forallb (fun m => Nat.ltb (ipm_projectId m) (nextId d)) (identityProjectMemberships d)
  && forallb (fun u => Nat.ltb (user_id u) (nextId d)) (users d).

Definition customIdentityScenario : Scenario :=
  {| sc_plan := sc_plan happyScenario;
     sc_permission := allowAll;
     sc_privileged := true;
     sc_memberRoleObject := None;
     sc_identityMembership :=
       Some {| iom_id := 50; iom_role := OCustom; iom_roleId := Some 77;
               iom_identityId := 1; iom_orgId := "org1" |};
     sc_userKey := None;
     sc_isProjectAdmin := true;
     sc_latestKeyFound := true;
     sc_fault := noFault |}.

Definition memberRoleObjectScenario : Scenario :=
  {| sc_plan := sc_plan happyScenario;
     sc_permission := allowAll;
     sc_privileged := true;
     sc_memberRoleObject := Some {| orgRole_id := 77 |};
     sc_identityMembership := sc_identityMembership happyScenario;
     sc_userKey := None;
     sc_isProjectAdmin := true;
     sc_latestKeyFound := true;
     sc_fault := noFault |}.

Definition noUserKeyScenario : Scenario :=
  {| sc_plan := sc_plan happyScenario;
     sc_permission := allowAll;
     sc_privileged := true;
     sc_memberRoleObject := None;
     sc_identityMembership := None;
     sc_userKey := None;
     sc_isProjectAdmin := true;
     sc_latestKeyFound := true;
     sc_fault := noFault |}.

Definition acmeProject : TProject :=
  {| project_id := 5; project_name := "Acme"; project_orgId := "org1";
     project_slug := "acme"; project_version := V2; project_pitVersionLimit := 10 |}.

Definition acmeWorld : World :=
  {| db := withProjects emptyDB [acmeProject]; txdb := None; deletedItems := [] |}.

Definition deleteAcme : TDeleteProjectDTO :=
  {| del_actor := USER; del_actorId := 1; del_actorOrgId := Some "org1"%string;
     del_actorAuthMethod := None; del_filter := FilterID 5 |}.

Definition onlyAdminsError : Error :=
  BadRequestError "Only admins are allowed to take this action".

Definition capabilityFreeAdminScenario : Scenario :=
  {| sc_plan := sc_plan happyScenario;
     sc_permission := denyAll;
     sc_privileged := true;
     sc_memberRoleObject := None;
     sc_identityMembership := None;
     sc_userKey := None;
     sc_isProjectAdmin := true;
     sc_latestKeyFound := true;
     sc_fault := noFault |}.

Definition memberOnlyScenario : Scenario :=
  {| sc_plan := sc_plan happyScenario;
     sc_permission := allowAll;
     sc_privileged := true;
     sc_memberRoleObject := None;
     sc_identityMembership := None;
     sc_userKey := None;
     sc_isProjectAdmin := false;
     sc_latestKeyFound := true;
     sc_fault := noFault |}.

Definition raiseAcmeLimit : TUpdateProjectVersionLimitDTO :=
  {| uvl_actor := USER; uvl_actorId := 1; uvl_actorOrgId := Some "org1"%string;
     uvl_actorAuthMethod := None; uvl_pitVersionLimit := 42;
     uvl_workspaceSlug := "acme"%string |}.

(** [findLatestProjectKey] finds a grant whenever the receiver has one in
    the project. *)
Definition latestKeyComplete (D : Deps) : Prop :=
  forall u p ks k,
    In k ks -> pk_receiverId k = u -> pk_projectId k = p ->
    findLatestProjectKey D u p ks <> None.

Definition escalationError : Error :=
  ForbiddenRequestError "Failed to add identity to project with more privileged role".

Definition escalatingScenario : Scenario :=
  {| sc_plan := sc_plan happyScenario;
     sc_permission := allowAll;
     sc_privileged := false;
     sc_memberRoleObject := None;
     sc_identityMembership := sc_identityMembership happyScenario;
     sc_userKey := None;
     sc_isProjectAdmin := false;
     sc_latestKeyFound := true;
     sc_fault := noFault |}.

Definition fullPlanScenario : Scenario :=
  {| sc_plan := {| workspaceLimit := Some 1; workspacesUsed := 1 |};
     sc_permission := allowAll;
     sc_privileged := true;
     sc_memberRoleObject := None;
     sc_identityMembership := sc_identityMembership happyScenario;
     sc_userKey := sc_userKey happyScenario;
     sc_isProjectAdmin := true;
     sc_latestKeyFound := true;
     sc_fault := noFault |}.

(** ** The remaining operations of the service *)

(** *** getAProject *)

Record TGetProjectDTO := {
  get_actor : ActorType;
  get_actorId : Id;
  get_actorOrgId : option OrgId;
  get_actorAuthMethod : ActorAuthMethod;
  get_filter : Filter
}.

Definition getAProject (D : Deps) (dto : TGetProjectDTO) : M TProject :=
  found <- dalRead NoTx (projectDAL_findProjectByFilter (get_filter dto)) ;;
  project <- liftResult found ;;
  liftResult (getProjectPermission D (get_actor dto) (get_actorId dto) (project_id project)
                                   (get_actorAuthMethod dto) (get_actorOrgId dto)) ;;;
  ret project.

(** *** updateName *)

Record TUpdateProjectNameDTO := {
  un_projectId : Id;
  un_actor : ActorType;
  un_actorId : Id;
  un_actorOrgId : option OrgId;
  un_actorAuthMethod : ActorAuthMethod;
  un_name : string
}.

Definition setName (name : string) (p : TProject) : TProject :=
  {| project_id := project_id p; project_name := name;
     project_orgId := project_orgId p; project_slug := project_slug p;
     project_version := project_version p;
     project_pitVersionLimit := project_pitVersionLimit p |}.

(** [projectDAL.updateById(id, { name })] *)
Definition projectDAL_updateNameById_op (id : Id) (name : string) (d : DB)
    : option TProject * DB :=
  let upd := map (fun p => if Nat.eqb (project_id p) id then setName name p else p)
                 (projects d) in
  (find (fun p => Nat.eqb (project_id p) id) upd, withProjects d upd).

Definition updateName (D : Deps) (dto : TUpdateProjectNameDTO) : M (option TProject) :=
  pp <- liftResult (getProjectPermission D (un_actor dto) (un_actorId dto) (un_projectId dto)
                                         (un_actorAuthMethod dto) (un_actorOrgId dto)) ;;
  throwUnlessCan (pp_permission pp) Edit Settings ;;;
  updatedProject <- dal D OpProjectUpdateById NoTx
                        (projectDAL_updateNameById_op (un_projectId dto) (un_name dto)) ;;
  ret updatedProject.

(** *** upgradeProject *)

Record TUpgradeProjectDTO := {
  up_projectId : Id;
  up_actor : ActorType;
  up_actorId : Id;
  up_actorAuthMethod : ActorAuthMethod;
  up_actorOrgId : option OrgId;
  up_userPrivateKey : string
}.

(** The payload of [projectQueue.upgradeProject]. *)
Record TUpgradeJob := {
  job_projectId : Id;
  job_startedByUserId : Id;
  job_encryptedKey : string;
  job_encryptedKeyIv : string;
  job_encryptedKeyTag : string;
  job_keyEncoding : string
}.

(** [upgradeProject] touches neither the store nor the key store: its only
    effect is the hand-off to the queue, so it is a computation over the list
    of enqueued jobs, oldest first.

    Modelled from the spec: [projectQueue.upgradeProject] (project-queue.ts
    is not among the sources) "hands off an asynchronous version-migration
    request to a background execution facility": the job is appended. *)
Definition upgradeProject (D : Deps) (dto : TUpgradeProjectDTO) (queue : list TUpgradeJob)
    : Result unit * list TUpgradeJob :=
  match getProjectPermission D (up_actor dto) (up_actorId dto) (up_projectId dto)
                             (up_actorAuthMethod dto) (up_actorOrgId dto) with
  | inl e => (inl e, queue)
  | inr pp =>
      if can (pp_permission pp) Delete Project then
        if negb (pp_hasRole pp PAdmin) then
          (inl (ForbiddenRequestError "User must be admin"), queue)
        else
          let encryptedPrivateKey := infisicalSymmetricEncypt D (up_userPrivateKey dto) in
          (inr tt,
           queue ++ [ {| job_projectId := up_projectId dto;
                         job_startedByUserId := up_actorId dto;
                         job_encryptedKey := sealed_ciphertext encryptedPrivateKey;
                         job_encryptedKeyIv := sealed_iv encryptedPrivateKey;
                         job_encryptedKeyTag := sealed_tag encryptedPrivateKey;
                         job_keyEncoding := sealed_encoding encryptedPrivateKey |} ])
      else (inl ForbiddenError, queue)
  end.

(** *** getProjectUpgradeStatus *)

(** lib/types: [TProjectPermission]. *)
Record TProjectPermissionDTO := {
  ppd_projectId : Id;
  ppd_actor : ActorType;
  ppd_actorId : Id;
  ppd_actorAuthMethod : ActorAuthMethod;
  ppd_actorOrgId : option OrgId
}.

(** [x || null] on an optional string. *)
Definition js_or_null (x : option string) : option string :=
  match x with
  | None => None
  | Some EmptyString => None
  | Some s => Some s
  end.

(** [findProjectById] is the lookup of [projectDAL.findProjectById], seen
    through the one column this operation reads: the [upgradeStatus] of the
    project, when the project exists. *)
Definition getProjectUpgradeStatus (D : Deps) (findProjectById : Id -> option (option string))
    (dto : TProjectPermissionDTO) : Result (option string) :=
  match getProjectPermission D (ppd_actor dto) (ppd_actorId dto) (ppd_projectId dto)
                             (ppd_actorAuthMethod dto) (ppd_actorOrgId dto) with
  | inl e => inl e
  | inr pp =>
      if can (pp_permission pp) Read Secrets then
        match findProjectById (ppd_projectId dto) with
        | None =>
            inl (BadRequestError
                   ("Project with id " ++ idText (ppd_projectId dto) ++ " not found")%string)
        | Some upgradeStatus => inr (js_or_null upgradeStatus)
        end
      else inl ForbiddenError
  end.

(** ** Rate-limit options (the rate-limit configuration module) *)

(** What the key generators read of a request. *)
Record TRequest := {
  req_url : string;
  req_realIp : string;
  req_authorization : option string     (* req.headers.authorization *)
}.

(** [s.split(sep)] for a one-character separator. *)
Fixpoint splitOn (sep : Ascii.ascii) (s : string) : list string :=
  match s with
  | EmptyString => [EmptyString]
  | String c rest =>
      if Ascii.eqb c sep then EmptyString :: splitOn sep rest
      else match splitOn sep rest with
           | h :: t => String c h :: t
           | [] => [String c EmptyString]
           end
  end.

Definition SPACE : Ascii.ascii := " "%char.

(** [mfaRateLimit.keyGenerator]:
    [req.headers.authorization?.split(" ")[1] || req.realIp] *)
Definition mfaKeyGenerator (req : TRequest) : string :=
  js_or (match req_authorization req with
         | None => None
         | Some h => nth_error (splitOn SPACE h) 1
         end)
        (req_realIp req).

(** The key generator of every other limiter: [req.realIp]. *)
Definition ipKeyGenerator (req : TRequest) : string := req_realIp req.

Fixpoint hasChar (c : Ascii.ascii) (s : string) : bool :=
  match s with
  | EmptyString => false
  | String x rest => Ascii.eqb x c || hasChar c rest
  end.

(** [l.join(sep)] *)
Fixpoint joinWith (sep : Ascii.ascii) (l : list string) : string :=
  match l with
  | [] => EmptyString
  | [x] => x
  | x :: t => (x ++ String sep (joinWith sep t))%string
  end.

(** ** Further notions used by the theorems *)

Definition isPrefix {A} (l l' : list A) : Prop := exists t, l' = l ++ t.

(** Every table of [d'] extends the same table of [d]. *)
Definition extendsDB (d d' : DB) : Prop :=
  isPrefix (users d) (users d') /\
  isPrefix (projects d) (projects d') /\
  isPrefix (projectMemberships d) (projectMemberships d') /\
  isPrefix (projectUserMembershipRoles d) (projectUserMembershipRoles d') /\
  isPrefix (secretBlindIndexes d) (secretBlindIndexes d') /\
  isPrefix (projectEnvs d) (projectEnvs d') /\
  isPrefix (secretFolders d) (secretFolders d') /\
  isPrefix (projectKeys d) (projectKeys d') /\
  isPrefix (projectBots d) (projectBots d') /\
  isPrefix (identityProjectMemberships d) (identityProjectMemberships d') /\
  isPrefix (identityProjectMembershipRoles d) (identityProjectMembershipRoles d').

(** Every project id held in the store was drawn before [nextId]. *)
Definition projectsKeyed (d : DB) : bool :=
  forallb (fun p => Nat.ltb (project_id p) (nextId d)) (projects d).

(** What the actor branch of the provisioning needs in order not to throw. *)
Definition actorReady (D : Deps) (dto : TCreateProjectDTO) (org : TOrganization)
    (perm : Permission) : Prop :=
  match actor dto with
  | USER => findUserEncKeyByUserId D (actorId dto) <> None
  | IDENTITY =>
      identityOrgMembershipDAL_findOne D (actorId dto) (org_id org) <> None /\
      exists rolePermission customRole,
        getOrgPermissionByRole D OMember (org_id org) = inr (rolePermission, customRole) /\
        isAtLeastAsPrivileged D perm rolePermission = true
  | _ => True
  end.

Definition unauthorisedFullPlanScenario : Scenario :=
  {| sc_plan := {| workspaceLimit := Some 1; workspacesUsed := 1 |};
     sc_permission := denyAll;
     sc_privileged := true;
     sc_memberRoleObject := None;
     sc_identityMembership := sc_identityMembership happyScenario;
     sc_userKey := sc_userKey happyScenario;
     sc_isProjectAdmin := true;
     sc_latestKeyFound := true;
     sc_fault := noFault |}.

Definition unlimitedPlanScenario : Scenario :=
  {| sc_plan := {| workspaceLimit := None; workspacesUsed := 1000 |};
     sc_permission := allowAll;
     sc_privileged := true;
     sc_memberRoleObject := None;
     sc_identityMembership := sc_identityMembership happyScenario;
     sc_userKey := sc_userKey happyScenario;
     sc_isProjectAdmin := true;
     sc_latestKeyFound := true;
     sc_fault := noFault |}.

(** The same collaborators with another custodian lookup. *)
Definition withGhostLookup (D : Deps) (f : Id -> DB -> Result TUser) : Deps :=
  {| orgDAL_findOne := orgDAL_findOne D;
     getOrgPermission := getOrgPermission D;
     getOrgPermissionByRole := getOrgPermissionByRole D;
     getProjectPermission := getProjectPermission D;
     isAtLeastAsPrivileged := isAtLeastAsPrivileged D;
     getPlan := getPlan D;
     getConfig := getConfig D;
     createSecretBlindIndex := createSecretBlindIndex D;
     createProjectKey := createProjectKey D;
     infisicalSymmetricEncypt := infisicalSymmetricEncypt D;
     decryptAsymmetric := decryptAsymmetric D;
     encryptAsymmetric := encryptAsymmetric D;
     slugify := slugify D;
     alphaNumericNanoId := alphaNumericNanoId D;
     generateUserKeys := generateUserKeys D;
     findUserEncKeyByUserId := findUserEncKeyByUserId D;
     identityOrgMembershipDAL_findOne := identityOrgMembershipDAL_findOne D;
     findLatestProjectKey := findLatestProjectKey D;
     findProjectGhostUser := f;
     dalFault := dalFault D |}.

(** The custodian of a project as the membership table shows it: the ghost
    user among the users that are members of the project. *)
Definition ghostOfProject (projectId : Id) (d : DB) : Result TUser :=
  match find (fun u => user_isGhost u
                       && existsb (fun m => Nat.eqb (pm_userId m) (user_id u)
                                            && Nat.eqb (pm_projectId m) projectId)
                                  (projectMemberships d))
             (users d) with
  | Some u => inr u
  | None => inl (CollaboratorError "ghost user not found")
  end.

Definition acmeGhost : TUser := {| user_id := 3; user_isGhost := true; user_orgId := "org1" |}.

(** A store holding the Acme project with its custodian. *)
Definition acmeWithGhostWorld : World :=
  {| db := withProjectMemberships
             (withUsers (withProjects emptyDB [acmeProject]) [acmeGhost])
             [ {| pm_id := 6; pm_userId := 3; pm_projectId := 5 |} ];
     txdb := None; deletedItems := [] |}.

Definition userDeleteFaultScenario : Scenario :=
  {| sc_plan := sc_plan happyScenario;
     sc_permission := allowAll;
     sc_privileged := true;
     sc_memberRoleObject := None;
     sc_identityMembership := None;
     sc_userKey := None;
     sc_isProjectAdmin := true;
     sc_latestKeyFound := true;
     sc_fault := fun op _ => match op with OpUserDeleteById => true | _ => false end |}.

Definition deleterWithoutCapabilityScenario : Scenario :=
  {| sc_plan := sc_plan happyScenario;
     sc_permission := denyAll;
     sc_privileged := true;
     sc_memberRoleObject := None;
     sc_identityMembership := None;
     sc_userKey := None;
     sc_isProjectAdmin := true;
     sc_latestKeyFound := true;
     sc_fault := noFault |}.

Definition deleteCreated (id : Id) : TDeleteProjectDTO :=
  {| del_actor := USER; del_actorId := 1; del_actorOrgId := Some "org1"%string;
     del_actorAuthMethod := None; del_filter := FilterID id |}.

(** A project row without its retention limit, and without its name. *)
Definition exceptLimit (p : TProject) :=
  (project_id p, project_name p, project_orgId p, project_slug p, project_version p).

Definition exceptName (p : TProject) :=
  (project_id p, project_orgId p, project_slug p, project_version p,
   project_pitVersionLimit p).

Definition otherAcmeProject : TProject :=
  {| project_id := 9; project_name := "Acme (other tenant)"; project_orgId := "org2";
     project_slug := "acme"; project_version := V2; project_pitVersionLimit := 10 |}.

(** Two tenants, each with a project whose slug is [acme]. *)
Definition twoTenantsWorld : World :=
  {| db := withProjects emptyDB [otherAcmeProject; acmeProject];
     txdb := None; deletedItems := [] |}.

Definition renameAcme : TUpdateProjectNameDTO :=
  {| un_projectId := 5; un_actor := USER; un_actorId := 1;
     un_actorOrgId := Some "org1"%string; un_actorAuthMethod := None;
     un_name := "Acme Corp" |}.

Definition upgradeAcme : TUpgradeProjectDTO :=
  {| up_projectId := 5; up_actor := USER; up_actorId := 1; up_actorAuthMethod := None;
     up_actorOrgId := Some "org1"%string; up_userPrivateKey := "alice-private-key" |}.

Definition statusOfAcme : TProjectPermissionDTO :=
  {| ppd_projectId := 5; ppd_actor := USER; ppd_actorId := 1; ppd_actorAuthMethod := None;
     ppd_actorOrgId := Some "org1"%string |}.

Definition getAcme : TGetProjectDTO :=
  {| get_actor := USER; get_actorId := 1; get_actorOrgId := Some "org1"%string;
     get_actorAuthMethod := None; get_filter := FilterSLUG "acme" (Some "org1"%string) |}.

(** Whether a project satisfies a filter. *)
Definition matchesFilter (f : Filter) (p : TProject) : Prop :=
  match f with
  | FilterID id => project_id p = id
  | FilterSLUG slug orgId => project_slug p = slug /\ orgId = Some (project_orgId p)
  end.

(** ** A permission ordering for evaluation *)

Definition allActions : list Action := [Create; Read; Edit; Delete].
Definition allSubjects : list Subject := [Workspace; Project; Settings; Secrets].

(** [a] is at least as privileged as [b]: whatever [b] allows, [a] allows. *)
Definition grantsAtLeast (a b : Permission) : bool :=
  forallb (fun x => forallb (fun y => implb (can b x y) (can a x y)) allSubjects) allActions.

(** A permission of the kind an organisation member has: it may create
    workspaces and read, nothing else. *)
Definition memberPermission : Permission :=
  {| can := fun a s => match a, s with
                       | Create, Workspace => true
                       | Read, _ => true
                       | _, _ => false
                       end |}.

(** The same collaborators with another privilege comparison and another
    answer of [getOrgPermissionByRole]. *)
Definition withOrgRole (D : Deps) (atLeast : Permission -> Permission -> bool)
    (byRole : OrgMembershipRole -> OrgId -> Result (Permission * option TOrgRole)) : Deps :=
  {| orgDAL_findOne := orgDAL_findOne D;
     getOrgPermission := getOrgPermission D;
     getOrgPermissionByRole := byRole;
     getProjectPermission := getProjectPermission D;
     isAtLeastAsPrivileged := atLeast;
     getPlan := getPlan D;
     getConfig := getConfig D;
     createSecretBlindIndex := createSecretBlindIndex D;
     createProjectKey := createProjectKey D;
     infisicalSymmetricEncypt := infisicalSymmetricEncypt D;
     decryptAsymmetric := decryptAsymmetric D;
     encryptAsymmetric := encryptAsymmetric D;
     slugify := slugify D;
     alphaNumericNanoId := alphaNumericNanoId D;
     generateUserKeys := generateUserKeys D;
     findUserEncKeyByUserId := findUserEncKeyByUserId D;
     identityOrgMembershipDAL_findOne := identityOrgMembershipDAL_findOne D;
     findLatestProjectKey := findLatestProjectKey D;
     findProjectGhostUser := findProjectGhostUser D;
     dalFault := dalFault D |}.

(** The actor holds every capability; the role Member holds
    [memberPermission]; permissions are compared by what they allow. *)
Definition orderedDeps : Deps :=
  withOrgRole (scenarioDeps happyScenario) grantsAtLeast
              (fun _ _ => inr (memberPermission, None)).

(** The job [upgradeProject] hands to the queue. *)
Definition upgradeJob (D : Deps) (dto : TUpgradeProjectDTO) : TUpgradeJob :=
  let encryptedPrivateKey := infisicalSymmetricEncypt D (up_userPrivateKey dto) in
  {| job_projectId := up_projectId dto;
     job_startedByUserId := up_actorId dto;
     job_encryptedKey := sealed_ciphertext encryptedPrivateKey;
     job_encryptedKeyIv := sealed_iv encryptedPrivateKey;
     job_encryptedKeyTag := sealed_tag encryptedPrivateKey;
     job_keyEncoding := sealed_encoding encryptedPrivateKey |}.

(** * Reasoning about the computation type *)

Lemma bind_inr A B (m : M A) (f : A -> M B) w b w2 :
  bind m f w = (inr b, w2) ->
  exists a w1, m w = (inr a, w1) /\ f a w1 = (inr b, w2).
Proof.
  unfold bind. destruct (m w) as [[e|a] w1]; intro H.
  - discriminate H.
  - exists a, w1. split; [reflexivity | exact H].
Qed.

Lemma bind_inl A B (m : M A) (f : A -> M B) w e w2 :
  bind m f w = (inl e, w2) ->
  m w = (inl e, w2) \/ exists a w1, m w = (inr a, w1) /\ f a w1 = (inl e, w2).
Proof.
  unfold bind. destruct (m w) as [[e'|a] w1]; intro H.
  - left. inversion H; reflexivity.
  - right. exists a, w1. split; [reflexivity | exact H].
Qed.

Lemma dal_Tx_run A D op (f : DB -> A * DB) b d l :
  dal D op Tx f {| db := b; txdb := Some d; deletedItems := l |} =
  if dalFault D op d
  then (inl (DatabaseError op), {| db := b; txdb := Some d; deletedItems := l |})
  else (inr (fst (f d)), {| db := b; txdb := Some (snd (f d)); deletedItems := l |}).
Proof.
  unfold dal; simpl. destruct (dalFault D op d); [reflexivity|].
  destruct (f d); reflexivity.
Qed.

Lemma dalRead_Tx_run A (f : DB -> A) b d l :
  dalRead Tx f {| db := b; txdb := Some d; deletedItems := l |} =
  (inr (f d), {| db := b; txdb := Some d; deletedItems := l |}).
Proof. reflexivity. Qed.

(** ** Computations that stay inside the open transaction *)

Lemma txLocal_ret A (a : A) : txLocal (ret a).
Proof. intros b d l r w' H. inversion H. eauto. Qed.

Lemma txLocal_throw A e : txLocal (@throw A e).
Proof. intros b d l r w' H. inversion H. eauto. Qed.

Lemma txLocal_liftResult A (r : Result A) : txLocal (liftResult r).
Proof. destruct r; [apply txLocal_throw | apply txLocal_ret]. Qed.

Lemma txLocal_bind A B (m : M A) (f : A -> M B) :
  txLocal m -> (forall a, txLocal (f a)) -> txLocal (bind m f).
Proof.
  intros Hm Hf b d l r w' H. unfold bind in H.
  destruct (m _) as [[e|a] w1] eqn:E; destruct (Hm _ _ _ _ _ E) as [d1 ->].
  - inversion H. eauto.
  - exact (Hf a _ _ _ _ _ H).
Qed.

Lemma txLocal_dal A D op (f : DB -> A * DB) : txLocal (dal D op Tx f).
Proof.
  intros b d l r w' H. rewrite dal_Tx_run in H.
  destruct (dalFault D op d); inversion H; eauto.
Qed.

Lemma txLocal_dalRead A (f : DB -> A) : txLocal (dalRead Tx f).
Proof. intros b d l r w' H. rewrite dalRead_Tx_run in H. inversion H. eauto. Qed.

Create HintDb txlocal.
#[export] Hint Resolve txLocal_ret txLocal_throw txLocal_liftResult
  txLocal_dal txLocal_dalRead : txlocal.

Ltac tx_local :=
  repeat first
    [ apply txLocal_bind; [| intro]
    | solve [auto with txlocal]
    | match goal with
      | |- txLocal (match ?x with _ => _ end) => destruct x
      | |- txLocal (if ?x then _ else _) => destruct x
      | |- txLocal (let '(_, _) := ?x in _) => destruct x
      end ].

Lemma addUserAsAdmin_txLocal D dto om g p lk :
  txLocal (addUserAsAdmin D Tx dto om g p lk).
Proof. unfold addUserAsAdmin. tx_local. Qed.

Lemma addIdentityAsAdmin_txLocal D dto perm org p :
  txLocal (addIdentityAsAdmin D Tx dto perm org p).
Proof. unfold addIdentityAsAdmin. tx_local. Qed.

Lemma createProject_tx_txLocal D dto org perm om bi :
  txLocal (createProject_tx D dto org perm om bi Tx).
Proof.
  unfold createProject_tx.
  pose proof addUserAsAdmin_txLocal. pose proof addIdentityAsAdmin_txLocal.
  tx_local.
Qed.

Lemma deleteProject_tx_txLocal D p : txLocal (deleteProject_tx D p Tx).
Proof. unfold deleteProject_tx. tx_local. Qed.

(** A transaction whose callback stays inside it changes nothing when the
    callback throws, and touches only the committed store when it returns. *)
Lemma transaction_rollback A (body : Handle -> M A) w e w' :
  txLocal (body Tx) -> transaction body w = (inl e, w') -> w' = w.
Proof.
  intros L H. unfold transaction in H.
  destruct (body Tx _) as [[e1|a] w1] eqn:E; [|discriminate H].
  destruct (L _ _ _ _ _ E) as [d1 ->]. inversion H. destruct w; reflexivity.
Qed.

Lemma transaction_commit A (body : Handle -> M A) w a w' :
  txLocal (body Tx) -> transaction body w = (inr a, w') ->
  exists d', body Tx {| db := db w; txdb := Some (db w); deletedItems := deletedItems w |}
             = (inr a, {| db := db w; txdb := Some d'; deletedItems := deletedItems w |})
             /\ w' = {| db := d'; txdb := txdb w; deletedItems := deletedItems w |}.
Proof.
  intros L H. unfold transaction in H.
  destruct (body Tx _) as [[e1|a1] w1] eqn:E; [discriminate H|].
  destruct (L _ _ _ _ _ E) as [d1 ->]. inversion H; subst. eauto.
Qed.

(** * createProject: failures *)

Lemma createProject_unfold D dto w :
  createProject D dto w =
  match orgDAL_findOne D (actorOrgId dto) with
  | None => (inl TypeError, w)
  | Some organization =>
      match getOrgPermission D (actor dto) (actorId dto) (org_id organization)
                             (actorAuthMethod dto) (actorOrgId dto) with
      | inl e => (inl e, w)
      | inr (permission, orgMembership) =>
          if can permission Create Workspace then
            if planLimitReached (getPlan D (org_id organization)) then (inl planLimitError, w)
            else createProject_provision D dto organization permission orgMembership w
          else (inl ForbiddenError, w)
      end
  end.
Proof.
  unfold createProject, createProject_provision.
  destruct (orgDAL_findOne D (actorOrgId dto)) as [org|]; [|reflexivity].
  unfold bind at 1.
  destruct (getOrgPermission D _ _ _ _ _) as [e|[perm om]]; simpl; [reflexivity|].
  unfold bind at 1, throwUnlessCan.
  destruct (can perm Create Workspace); simpl; [|reflexivity].
  destruct (planLimitReached _); reflexivity.
Qed.

Lemma createProject_provision_inl D dto org perm om w e w' :
  createProject_provision D dto org perm om w = (inl e, w') -> w' = w.
Proof.
  unfold createProject_provision. intro H.
  apply bind_inl in H. destruct H as [H | (a & w1 & _ & H)].
  - eapply transaction_rollback; [apply createProject_tx_txLocal | exact H].
  - discriminate H.
Qed.

Lemma createProject_provision_inr D dto org perm om w r w' :
  createProject_provision D dto org perm om w = (inr r, w') ->
  exists d',
    createProject_tx D dto org perm om
      (createSecretBlindIndex D (ROOT_ENCRYPTION_KEY (getConfig D)) (ENCRYPTION_KEY (getConfig D)))
      Tx {| db := db w; txdb := Some (db w); deletedItems := deletedItems w |}
    = (inr r, {| db := db w; txdb := Some d'; deletedItems := deletedItems w |})
    /\ w' = {| db := d'; txdb := txdb w;
               deletedItems := deletedItems w ++ [planCacheKey (actorOrgId dto)] |}.
Proof.
  unfold createProject_provision. intro H.
  apply bind_inr in H. destruct H as (a & w1 & Ht & H).
  apply transaction_commit in Ht; [|apply createProject_tx_txLocal].
  destruct Ht as (d' & Hb & ->).
  inversion H; subst. exists d'. split; [exact Hb | reflexivity].
Qed.

Lemma createProject_inl D dto w e w' :
  createProject D dto w = (inl e, w') -> w' = w.
Proof.
  rewrite createProject_unfold. intro H.
  destruct (orgDAL_findOne D (actorOrgId dto)) as [org|]; [|now inversion H].
  destruct (getOrgPermission D _ _ _ _ _) as [e1|[perm om]]; [now inversion H|].
  destruct (can perm Create Workspace); [|now inversion H].
  destruct (planLimitReached _); [now inversion H|].
  eapply createProject_provision_inl; exact H.
Qed.

(** C3: whenever [createProject] throws -- at any step of the provisioning
    transaction, a refused store call and the latest-key integrity check
    included -- the world afterwards is the world before: no Project,
    membership, key grant, blind-index, environment or custodian row of the
    attempt remains, and the key store is untouched. *)
Theorem createProject_error_rolls_back D dto w e w' :
  createProject D dto w = (inl e, w') ->
  w' = w /\ db w' = db w /\ deletedItems w' = deletedItems w.
Proof.
  intro H. apply createProject_inl in H. subst. auto.
Qed.

Lemma createProject_error_rolls_back_witness :
  fst (createProject (scenarioDeps botFaultScenario) (acmeBy USER None) emptyWorld)
    = inl (DatabaseError OpProjectBotCreate) /\
  snd (createProject (scenarioDeps botFaultScenario) (acmeBy USER None) emptyWorld)
    = emptyWorld.
Proof.
  split; [vm_compute; reflexivity|].
  apply (@createProject_error_rolls_back (scenarioDeps botFaultScenario) (acmeBy USER None)
           emptyWorld (DatabaseError OpProjectBotCreate)).
  vm_compute. reflexivity.
Defined.

(** Refusing any one store call of the transaction makes the whole call fail
    with that call's error, and nothing of the attempt is left. *)
Example createProject_fault_at_each_common_step :
  map (fun op => createProject (scenarioDeps (faultAt op)) (acmeBy USER None) emptyWorld)
      commonSteps
  = map (fun op => (inl (DatabaseError op), emptyWorld)) commonSteps.
Proof. vm_compute. reflexivity. Qed.

Example createProject_fault_at_each_user_step :
  map (fun op => createProject (scenarioDeps (faultAtActorRows op)) (acmeBy USER None)
                               emptyWorld)
      userSteps
  = map (fun op => (inl (DatabaseError op), emptyWorld)) userSteps.
Proof. vm_compute. reflexivity. Qed.

Example createProject_fault_at_each_identity_step :
  map (fun op => createProject (scenarioDeps (faultAt op)) (acmeBy IDENTITY None) emptyWorld)
      identitySteps
  = map (fun op => (inl (DatabaseError op), emptyWorld)) identitySteps.
Proof. vm_compute. reflexivity. Qed.

(** The integrity check on the custodian's latest key. *)
Example createProject_latest_key_missing :
  createProject (scenarioDeps noLatestKeyScenario) (acmeBy USER None) emptyWorld
  = (inl (PlainError "Latest key not found for user"), emptyWorld).
Proof. vm_compute. reflexivity. Qed.

(** The human actor without a key record. *)
Example createProject_user_not_found :
  createProject (scenarioDeps noUserKeyScenario) (acmeBy USER None) emptyWorld
  = (inl (PlainError "User not found"), emptyWorld).
Proof. vm_compute. reflexivity. Qed.

(** The machine identity without an organisation membership. *)
Example createProject_identity_not_found :
  createProject (scenarioDeps noUserKeyScenario) (acmeBy IDENTITY None) emptyWorld
  = (inl (BadRequestError "Failed to find identity with id 1"), emptyWorld).
Proof. vm_compute. reflexivity. Qed.

(** * createProject: what a successful run leaves behind *)


Ltac fault_step H :=
  match type of H with
  | context [if ?f ?op ?d then _ else _] =>
      match type of op with DalOp => idtac end;
      destruct (f op d) eqn:?; vm_compute in H; [discriminate H|]
  end.

Lemma createProject_tx_inr D dto org perm om bi b d l r w' :
  createProject_tx D dto org perm om bi Tx
    {| db := b; txdb := Some d; deletedItems := l |} = (inr r, w') ->
  exists d', w' = {| db := b; txdb := Some d'; deletedItems := l |}
             /\ Provisioned D dto org perm bi d d' r.
Proof.
  destruct d as [n us ps pms purs sbis envs0 sfs pks bots ipms ipmrs].
  destruct D as [orgFind getOrgPerm getRolePerm getProjPerm atLeast plan cfg mkBlind mkKey seal
                 dec enc slugf nano genKeys findUser findIom findLatest findGhost fault].
  destruct dto as [a am aid ao wn sl], org as [oid], om, bi.
  intro H. vm_compute in H.
  repeat fault_step H.
  match type of H with
  | context [findLatest ?u ?p ?ks] =>
      destruct (findLatest u p ks) as [latestKey|]; vm_compute in H; [|discriminate H]
  end.
  destruct a; vm_compute in H.
  - inversion H; subst; clear H. eexists; split; [reflexivity|].
    vm_compute. repeat split; reflexivity.
  - destruct (findUser aid) as [user|] eqn:Eu; vm_compute in H; [|discriminate H].
    repeat fault_step H.
    inversion H; subst; clear H. eexists; split; [reflexivity|].
    vm_compute. repeat split; try reflexivity.
    exists user. eexists (_, _). repeat split;
      first [exact Eu | reflexivity | symmetry; apply (app_assoc _ [_] [_])].
  - inversion H; subst; clear H. eexists; split; [reflexivity|].
    vm_compute. repeat split; reflexivity.
  - destruct (findIom aid oid) as [iom|] eqn:Ei;
      vm_compute in H; [|discriminate H].
    destruct (getRolePerm OMember oid) as [e|[rp cr]] eqn:Er;
      vm_compute in H; [discriminate H|].
    destruct (atLeast perm rp) eqn:Ep; vm_compute in H; [|discriminate H].
    repeat fault_step H.
    inversion H; subst; clear H. eexists; split; [reflexivity|].
    vm_compute. repeat split; try reflexivity.
    exists iom, rp, cr. destruct cr; repeat split; first [assumption | reflexivity].
Qed.

Lemma createProject_inr D dto w r w' :
  createProject D dto w = (inr r, w') ->
  exists org perm om d',
    orgDAL_findOne D (actorOrgId dto) = Some org /\
    getOrgPermission D (actor dto) (actorId dto) (org_id org)
                     (actorAuthMethod dto) (actorOrgId dto) = inr (perm, om) /\
    can perm Create Workspace = true /\
    planLimitReached (getPlan D (org_id org)) = false /\
    w' = {| db := d'; txdb := txdb w;
            deletedItems := deletedItems w ++ [planCacheKey (actorOrgId dto)] |} /\
    Provisioned D dto org perm
      (createSecretBlindIndex D (ROOT_ENCRYPTION_KEY (getConfig D)) (ENCRYPTION_KEY (getConfig D)))
      (db w) d' r.
Proof.
  rewrite createProject_unfold. intro H.
  destruct (orgDAL_findOne D (actorOrgId dto)) as [org|]; [|discriminate H].
  destruct (getOrgPermission D _ _ _ _ _) as [e1|[perm om]] eqn:Ep; [discriminate H|].
  destruct (can perm Create Workspace) eqn:Ec; [|discriminate H].
  destruct (planLimitReached _) eqn:El; [discriminate H|].
  apply createProject_provision_inr in H. destruct H as (d' & Hb & ->).
  apply createProject_tx_inr in Hb. destruct Hb as (d'' & Hw & HP).
  inversion Hw; subst d''.
  exists org, perm, om, d'.
  do 5 (split; [first [assumption | reflexivity]|]). exact HP.
Qed.

(** ** Primary keys not yet drawn *)

Lemma filter_fresh A (key : A -> Id) (n k : Id) (old new : list A) :
  forallb (fun x => Nat.ltb (key x) n) old = true -> n <= k ->
  filter (fun x => Nat.eqb (key x) k) (old ++ new) = filter (fun x => Nat.eqb (key x) k) new.
Proof.
  intros Hold Hk. rewrite filter_app.
  replace (filter (fun x => Nat.eqb (key x) k) old) with (@nil A); [reflexivity|].
  symmetry. induction old as [|x t IH]; [reflexivity|].
  simpl in Hold. apply andb_true_iff in Hold. destruct Hold as [Hx Ht].
  simpl. apply Nat.ltb_lt in Hx.
  destruct (Nat.eqb (key x) k) eqn:E; [apply Nat.eqb_eq in E; lia | auto].
Qed.

Ltac decide_eqb :=
  repeat match goal with
         | |- context [Nat.eqb ?a ?b] =>
             first [ replace (Nat.eqb a b) with true by (symmetry; apply Nat.eqb_eq; lia)
                   | replace (Nat.eqb a b) with false by (symmetry; apply Nat.eqb_neq; lia) ]
         end.

Ltac well_keyed H :=
  unfold wellKeyed in H; repeat (apply andb_true_iff in H; destruct H as [H ?]).

(** * Successful creation *)

(** C10: every project that [createProject] creates has schema version V2
    and retention limit 10, and owns exactly the environments Development
    (dev), Staging (staging), Production (prod) at positions 1, 2, 3, each
    with exactly one folder, named root -- whatever the request and the
    collaborators are. *)
Theorem createProject_fixed_defaults D dto w r w' :
  wellKeyed (db w) = true ->
  createProject D dto w = (inr r, w') ->
  In (res_project r) (projects (db w')) /\
  project_version (res_project r) = V2 /\
  project_pitVersionLimit (res_project r) = 10 /\
  filter (fun e => Nat.eqb (env_projectId e) (project_id (res_project r))) (projectEnvs (db w'))
    = res_environments r /\
  map (fun e => (env_name e, env_slug e, env_position e)) (res_environments r)
    = [ ("Development", "dev", 1); ("Staging", "staging", 2); ("Production", "prod", 3) ] /\
  forall e, In e (res_environments r) ->
    map (fun f => (folder_name f, folder_version f))
        (filter (fun f => Nat.eqb (folder_envId f) (env_id e)) (secretFolders (db w')))
    = [ (ROOT_FOLDER_NAME, 1) ].
Proof.
  intros WK H. apply createProject_inr in H.
  destruct H as (org & perm & om & d' & _ & _ & _ & _ & -> & HP).
  destruct HP as (-> & _ & Hp & _ & He & Hf & _). cbn [db res_project res_environments].
  well_keyed WK.
  split; [rewrite Hp; apply in_or_app; right; left; reflexivity|].
  split; [reflexivity|]. split; [reflexivity|].
  split.
  { rewrite He.
    rewrite (filter_fresh env_projectId (n := nextId (db w))); [|assumption|cbn; lia].
    cbn -[Nat.eqb]. decide_eqb. reflexivity. }
  split; [reflexivity|].
  intros e He'. rewrite Hf.
  rewrite (filter_fresh folder_envId (n := nextId (db w)));
    [|assumption|cbn in He'; decompose [or] He'; subst; cbn; try lia; contradiction].
  cbn in He'. decompose [or] He'; subst; try contradiction;
    cbn -[Nat.eqb]; decide_eqb; reflexivity.
Qed.

Lemma createProject_fixed_defaults_witness :
  let out := createProject (scenarioDeps happyScenario) (acmeBy IDENTITY (Some "acme")) emptyWorld in
  exists r, fst out = inr r /\
            project_version (res_project r) = V2 /\
            project_pitVersionLimit (res_project r) = 10 /\
            length (res_environments r) = 3.
Proof.
  pose proof (createProject_fixed_defaults (scenarioDeps happyScenario)
                (acmeBy IDENTITY (Some "acme")) emptyWorld) as T.
  cbv zeta.
  destruct (createProject (scenarioDeps happyScenario) (acmeBy IDENTITY (Some "acme")) emptyWorld)
    as [[e|r] w'] eqn:E; [vm_compute in E; discriminate E|].
  specialize (T r w' eq_refl eq_refl).
  destruct T as (_ & Hv & Hl & _ & Hm & _).
  exists r. split; [reflexivity|]. split; [exact Hv|]. split; [exact Hl|].
  rewrite <- (length_map (fun e => (env_name e, env_slug e, env_position e))), Hm. reflexivity.
Defined.

Lemma filter_fresh2 A (key : A -> Id) (p : A -> bool) (n k : Id) (old new : list A) :
  forallb (fun x => Nat.ltb (key x) n) old = true -> n <= k ->
  filter (fun x => Nat.eqb (key x) k && p x) (old ++ new)
  = filter (fun x => Nat.eqb (key x) k && p x) new.
Proof.
  intros Hold Hk. rewrite filter_app.
  replace (filter (fun x => Nat.eqb (key x) k && p x) old) with (@nil A); [reflexivity|].
  symmetry. induction old as [|x t IH]; [reflexivity|].
  simpl in Hold. apply andb_true_iff in Hold. destruct Hold as [Hx Ht].
  simpl. apply Nat.ltb_lt in Hx.
  destruct (Nat.eqb (key x) k) eqn:E; [apply Nat.eqb_eq in E; lia | auto].
Qed.

(** C4: a successful [createProject] adds exactly one custodian (ghost)
    account; the new project then has exactly one bot row, sent by the
    custodian, and exactly one key grant received by the custodian; when the
    actor is a human user the project has exactly two key grants, the
    custodian's and the actor's, both sent by the custodian.  The actor's
    user record is one that existed before the call. *)
Theorem createProject_custody_rows D dto w r w' :
  wellKeyed (db w) = true ->
  (forall u, findUserEncKeyByUserId D (actorId dto) = Some u -> uek_userId u < nextId (db w)) ->
  createProject D dto w = (inr r, w') ->
  let pid := project_id (res_project r) in
  exists ghost,
    user_isGhost ghost = true /\
    users (db w') = users (db w) ++ [ghost] /\
    filter (fun u => Nat.eqb (user_id u) (user_id ghost)) (users (db w')) = [ghost] /\
    In {| pm_id := S pid; pm_userId := user_id ghost; pm_projectId := pid |}
       (projectMemberships (db w')) /\
    map bot_senderId (filter (fun b => Nat.eqb (bot_projectId b) pid) (projectBots (db w')))
      = [user_id ghost] /\
    length (filter (fun k => Nat.eqb (pk_projectId k) pid
                             && Nat.eqb (pk_receiverId k) (user_id ghost))
                   (projectKeys (db w'))) = 1 /\
    (actor dto = USER ->
     exists user,
       findUserEncKeyByUserId D (actorId dto) = Some user /\
       map (fun k => (pk_receiverId k, pk_senderId k))
           (filter (fun k => Nat.eqb (pk_projectId k) pid) (projectKeys (db w')))
       = [ (user_id ghost, user_id ghost); (uek_userId user, user_id ghost) ]).
Proof.
  intros WK Hu H. apply createProject_inr in H.
  destruct H as (org & perm & om & d' & _ & _ & _ & _ & -> & HP).
  destruct HP as (-> & Hus & _ & _ & _ & _ & Hb & HA).
  cbn [db res_project project_id projectRow].
  well_keyed WK.
  exists (ghostRow org (nextId (db w))).
  split; [reflexivity|]. split; [exact Hus|].
  split.
  { rewrite Hus. rewrite (filter_fresh user_id (n := nextId (db w))); [|assumption|cbn; lia].
    cbn -[Nat.eqb]. decide_eqb. reflexivity. }
  unfold ActorRows in HA.
  split.
  { destruct (actor dto); [ destruct HA as (Hm & _)
                          | destruct HA as (u & wr & _ & Hm & _)
                          | destruct HA as (Hm & _)
                          | destruct HA as (i & rp & cr & _ & _ & _ & Hm & _) ];
    rewrite Hm; apply in_or_app; right; left; reflexivity. }
  split.
  { rewrite Hb. rewrite (filter_fresh bot_projectId (n := nextId (db w))); [|assumption|cbn; lia].
    cbn -[Nat.eqb]. decide_eqb. reflexivity. }
  split.
  { destruct (actor dto) eqn:Ea;
      [ destruct HA as (_ & _ & Hk & _)
      | destruct HA as (u & wr & Eu & _ & _ & Hk & _)
      | destruct HA as (_ & _ & Hk & _)
      | destruct HA as (i & rp & cr & _ & _ & _ & _ & _ & Hk & _) ];
      rewrite Hk;
      rewrite (@filter_fresh2 _ pk_projectId _ (nextId (db w))); try assumption; try (cbn; lia);
      try (specialize (Hu u Eu)); cbn -[Nat.eqb]; decide_eqb; reflexivity. }
  intro Ea. rewrite Ea in HA. destruct HA as (u & wr & Eu & _ & _ & Hk & _).
  exists u. split; [exact Eu|].
  rewrite Hk. rewrite (filter_fresh pk_projectId (n := nextId (db w))); [|assumption|cbn; lia].
  cbn -[Nat.eqb]. decide_eqb. reflexivity.
Qed.

Lemma createProject_custody_rows_witness :
  exists r w',
    createProject (scenarioDeps happyScenario) (acmeBy USER None) emptyWorld = (inr r, w') /\
    length (filter (fun k => Nat.eqb (pk_projectId k) (project_id (res_project r)))
                   (projectKeys (db w'))) = 2.
Proof.
  destruct (createProject (scenarioDeps happyScenario) (acmeBy USER None) emptyWorld)
    as [[e|r] w'] eqn:E; [vm_compute in E; discriminate E|].
  exists r, w'. split; [reflexivity|].
  destruct (@createProject_custody_rows (scenarioDeps happyScenario) (acmeBy USER None)
              emptyWorld r w') as (g & _ & _ & _ & _ & _ & _ & HU).
  - reflexivity.
  - intros u Hu. vm_compute in Hu. inversion Hu. vm_compute. lia.
  - exact E.
  - destruct (HU eq_refl) as (u & _ & Hk).
    rewrite <- (length_map (fun k => (pk_receiverId k, pk_senderId k))), Hk. reflexivity.
Defined.

(** C5 (as the code has it): the slug of the created project is the slug of
    the request when that is a non-empty string; when no slug is supplied --
    or the supplied one is the empty string -- it is the slugified form of
    the workspace name joined by a hyphen to a 4-character token from
    [alphaNumericNanoId]. *)
Theorem createProject_slug D dto w r w' :
  createProject D dto w = (inr r, w') ->
  In (res_project r) (projects (db w')) /\
  (forall s, slug dto = Some s -> s <> EmptyString -> project_slug (res_project r) = s) /\
  (slug dto = None \/ slug dto = Some EmptyString ->
   project_slug (res_project r)
   = slugify D (workspaceName dto ++ "-" ++ alphaNumericNanoId D 4)%string).
Proof.
  intro H. apply createProject_inr in H.
  destruct H as (org & perm & om & d' & _ & _ & _ & _ & -> & HP).
  destruct HP as (-> & _ & Hp & _). cbn [db res_project project_slug projectRow].
  split; [rewrite Hp; apply in_or_app; right; left; reflexivity|].
  unfold newSlug, js_or. split.
  - intros s Hs Hne. rewrite Hs. destruct s; [contradiction|reflexivity].
  - intros [Hs|Hs]; rewrite Hs; reflexivity.
Qed.

Lemma createProject_slug_witness :
  exists r w',
    createProject (scenarioDeps happyScenario) (acmeBy USER (Some "acme-hq")) emptyWorld
      = (inr r, w') /\
    project_slug (res_project r) = "acme-hq"%string.
Proof.
  destruct (createProject (scenarioDeps happyScenario) (acmeBy USER (Some "acme-hq")) emptyWorld)
    as [[e|r] w'] eqn:E; [vm_compute in E; discriminate E|].
  exists r, w'. split; [reflexivity|].
  destruct (createProject_slug _ _ _ E) as (_ & Hs & _).
  apply Hs; [reflexivity | discriminate].
Defined.

(** C5, as stated, fails: a request that supplies the empty string as slug
    does not get it back unchanged. *)
Lemma createProject_empty_slug_not_kept :
  exists r w',
    createProject (scenarioDeps happyScenario) (acmeBy USER (Some ""%string)) emptyWorld
      = (inr r, w') /\
    slug (acmeBy USER (Some ""%string)) = Some ""%string /\
    project_slug (res_project r) = "Acme-x7k2"%string /\
    project_slug (res_project r) <> ""%string.
Proof.
  eexists. eexists. split; [vm_compute; reflexivity|].
  split; [reflexivity|]. split; [reflexivity|]. discriminate.
Qed.

(** C6 (as the code has it): after a successful [createProject] by a machine
    identity, exactly one identity membership and one role row are added;
    the role is Custom, with the role object's id kept as [customRoleId],
    when [getOrgPermissionByRole] returns a role object for the organisation
    role Member, and Admin with no [customRoleId] otherwise.  The
    organisation role of the identity itself is not consulted. *)
Theorem createProject_identity_role D dto w r w' :
  actor dto = IDENTITY ->
  createProject D dto w = (inr r, w') ->
  exists org rolePermission customRole membership roleRow,
    orgDAL_findOne D (actorOrgId dto) = Some org /\
    getOrgPermissionByRole D OMember (org_id org) = inr (rolePermission, customRole) /\
    identityProjectMemberships (db w') = identityProjectMemberships (db w) ++ [membership] /\
    ipm_identityId membership = actorId dto /\
    ipm_projectId membership = project_id (res_project r) /\
    identityProjectMembershipRoles (db w')
      = identityProjectMembershipRoles (db w) ++ [roleRow] /\
    ipmr_projectMembershipId roleRow = ipm_id membership /\
    ipmr_role roleRow = match customRole with Some _ => PCustom | None => PAdmin end /\
    ipmr_customRoleId roleRow = option_map orgRole_id customRole.
Proof.
  intros Ea H. apply createProject_inr in H.
  destruct H as (org & perm & om & d' & Eo & _ & _ & _ & -> & HP).
  destruct HP as (-> & _ & _ & _ & _ & _ & _ & HA).
  unfold ActorRows in HA. rewrite Ea in HA.
  destruct HA as (iom & rp & cr & _ & Er & _ & _ & _ & _ & Hm & Hr).
  exists org, rp, cr, (identityMembershipRow dto (nextId (db w))),
         (identityRoleRow cr (nextId (db w))).
  cbn [db]. repeat split; assumption.
Qed.

Lemma createProject_identity_role_witness :
  exists r w',
    createProject (scenarioDeps memberRoleObjectScenario) (acmeBy IDENTITY None) emptyWorld
      = (inr r, w') /\
    map (fun x => (ipmr_role x, ipmr_customRoleId x)) (identityProjectMembershipRoles (db w'))
      = [ (PCustom, Some 77) ].
Proof.
  destruct (createProject (scenarioDeps memberRoleObjectScenario) (acmeBy IDENTITY None)
                          emptyWorld) as [[e|r] w'] eqn:E; [vm_compute in E; discriminate E|].
  exists r, w'. split; [reflexivity|].
  destruct (@createProject_identity_role (scenarioDeps memberRoleObjectScenario)
              (acmeBy IDENTITY None) emptyWorld r w' eq_refl E)
    as (org & rp & cr & m & rr & Eo & Er & _ & _ & _ & Hr & _ & Hrole & Hid).
  vm_compute in Er. inversion Er; subst cr.
  rewrite Hr. cbn. rewrite Hrole, Hid. reflexivity.
Defined.

(** C6, as stated, fails: an identity whose organisation role is a custom
    role is persisted with the Admin project role and no [customRoleId],
    because the role object comes from the lookup of the Member role. *)
Lemma createProject_custom_identity_gets_admin :
  exists iom r w',
    identityOrgMembershipDAL_findOne (scenarioDeps customIdentityScenario) 1 "org1" = Some iom /\
    iom_role iom = OCustom /\ iom_roleId iom = Some 77 /\
    createProject (scenarioDeps customIdentityScenario) (acmeBy IDENTITY None) emptyWorld
      = (inr r, w') /\
    map (fun x => (ipmr_role x, ipmr_customRoleId x)) (identityProjectMembershipRoles (db w'))
      = [ (PAdmin, None) ].
Proof.
  eexists. eexists. eexists. split; [reflexivity|]. split; [reflexivity|].
  split; [reflexivity|]. split; [vm_compute; reflexivity|]. reflexivity.
Qed.

(** C9: for a human actor, [createProject] fails and leaves the world as it
    was when the actor has no public-key record; when it succeeds, the actor
    has a membership in the new project with the Admin role and a key grant
    for the project whose sender is the custodian created by the same call. *)
Theorem createProject_human_actor D dto w :
  actor dto = USER ->
  (findUserEncKeyByUserId D (actorId dto) = None ->
   exists e, createProject D dto w = (inl e, w)) /\
  (forall r w',
     createProject D dto w = (inr r, w') ->
     exists user ghost membership roleRow grant,
       findUserEncKeyByUserId D (actorId dto) = Some user /\
       users (db w') = users (db w) ++ [ghost] /\ user_isGhost ghost = true /\
       In membership (projectMemberships (db w')) /\
       pm_userId membership = uek_userId user /\
       pm_projectId membership = project_id (res_project r) /\
       In roleRow (projectUserMembershipRoles (db w')) /\
       pumr_projectMembershipId roleRow = pm_id membership /\
       pumr_role roleRow = PAdmin /\
       In grant (projectKeys (db w')) /\
       pk_projectId grant = project_id (res_project r) /\
       pk_receiverId grant = uek_userId user /\
       pk_senderId grant = user_id ghost).
Proof.
  intro Ea. split.
  - intro Hn.
    destruct (createProject D dto w) as [[e|r] w'] eqn:E.
    + apply createProject_inl in E. subst. exists e. reflexivity.
    + exfalso. apply createProject_inr in E.
      destruct E as (org & perm & om & d' & _ & _ & _ & _ & _ & HP).
      destruct HP as (_ & _ & _ & _ & _ & _ & _ & HA).
      unfold ActorRows in HA. rewrite Ea in HA.
      destruct HA as (u & wr & Eu & _). congruence.
  - intros r w' H. apply createProject_inr in H.
    destruct H as (org & perm & om & d' & _ & _ & _ & _ & -> & HP).
    destruct HP as (-> & Hus & _ & _ & _ & _ & _ & HA).
    unfold ActorRows in HA. rewrite Ea in HA.
    destruct HA as (u & wr & Eu & Hm & Hr & Hk & _).
    exists u, (ghostRow org (nextId (db w))), (userMembershipRow u (nextId (db w))),
           (userRoleRow (nextId (db w))), (userKeyRow u wr (nextId (db w))).
    cbn [db res_project]. rewrite Hm, Hr, Hk.
    repeat split; try assumption; try reflexivity;
      apply in_or_app; right; right; left; reflexivity.
Qed.

Lemma createProject_human_actor_witness :
  findUserEncKeyByUserId (scenarioDeps noUserKeyScenario) (actorId (acmeBy USER None)) = None /\
  exists e, createProject (scenarioDeps noUserKeyScenario) (acmeBy USER None) emptyWorld
            = (inl e, emptyWorld).
Proof.
  split; [reflexivity|].
  exact (proj1 (@createProject_human_actor (scenarioDeps noUserKeyScenario)
                  (acmeBy USER None) emptyWorld eq_refl) eq_refl).
Defined.

(** * deleteProject *)

Lemma deleteProject_unfold D dto w :
  deleteProject D dto w =
  match projectDAL_findProjectByFilter (del_filter dto) (db w) with
  | inl e => (inl e, w)
  | inr project =>
      match getProjectPermission D (del_actor dto) (del_actorId dto) (project_id project)
                                 (del_actorAuthMethod dto) (del_actorOrgId dto) with
      | inl e => (inl e, w)
      | inr pp =>
          if can (pp_permission pp) Delete Project then
            (deletedProject <- transaction (deleteProject_tx D project) ;;
             keyStore_deleteItem (planCacheKey (del_actorOrgId dto)) ;;;
             ret deletedProject) w
          else (inl ForbiddenError, w)
      end
  end.
Proof.
  unfold deleteProject. unfold bind at 1. unfold dalRead at 1. cbn [fst snd].
  unfold bind at 1.
  destruct (projectDAL_findProjectByFilter (del_filter dto) (db w)) as [e|p]; [reflexivity|].
  cbn [liftResult ret]. unfold bind at 1.
  destruct (getProjectPermission D _ _ _ _ _) as [e|pp]; [reflexivity|].
  cbn [liftResult ret]. unfold bind at 1, throwUnlessCan.
  destruct (can (pp_permission pp) Delete Project); reflexivity.
Qed.

Lemma deleteProject_inl D dto w e w' :
  deleteProject D dto w = (inl e, w') -> w' = w.
Proof.
  rewrite deleteProject_unfold. intro H.
  destruct (projectDAL_findProjectByFilter _ _) as [e1|p]; [now inversion H|].
  destruct (getProjectPermission D _ _ _ _ _) as [e1|pp]; [now inversion H|].
  destruct (can (pp_permission pp) Delete Project); [|now inversion H].
  apply bind_inl in H. destruct H as [H | (a & w1 & _ & H)].
  - eapply transaction_rollback; [apply deleteProject_tx_txLocal | exact H].
  - discriminate H.
Qed.

Lemma deleteProject_inr D dto w r w' :
  deleteProject D dto w = (inr r, w') ->
  deletedItems w' = deletedItems w ++ [planCacheKey (del_actorOrgId dto)].
Proof.
  rewrite deleteProject_unfold. intro H.
  destruct (projectDAL_findProjectByFilter _ _) as [e1|p]; [discriminate H|].
  destruct (getProjectPermission D _ _ _ _ _) as [e1|pp]; [discriminate H|].
  destruct (can (pp_permission pp) Delete Project); [|discriminate H].
  apply bind_inr in H. destruct H as (a & w1 & Ht & H).
  apply transaction_commit in Ht; [|apply deleteProject_tx_txLocal].
  destruct Ht as (d' & _ & ->). inversion H; subst. reflexivity.
Qed.

(** C8 (as the code has it): the key handed to the key store is
    [infisical-cloud-plan-] followed by the actor's organisation id.  A
    successful [createProject] and a successful [deleteProject] each delete
    that key exactly once, after the transaction has committed; a failed one
    deletes nothing. *)
Theorem plan_cache_invalidation D :
  (forall dto w r w',
     createProject D dto w = (inr r, w') ->
     deletedItems w' = deletedItems w ++ [planCacheKey (actorOrgId dto)]) /\
  (forall dto w e w',
     createProject D dto w = (inl e, w') -> deletedItems w' = deletedItems w) /\
  (forall dto w r w',
     deleteProject D dto w = (inr r, w') ->
     deletedItems w' = deletedItems w ++ [planCacheKey (del_actorOrgId dto)]) /\
  (forall dto w e w',
     deleteProject D dto w = (inl e, w') -> deletedItems w' = deletedItems w).
Proof.
  repeat split.
  - intros dto w r w' H. apply createProject_inr in H.
    destruct H as (org & perm & om & d' & _ & _ & _ & _ & -> & _). reflexivity.
  - intros dto w e w' H. apply createProject_inl in H. subst. reflexivity.
  - intros dto w r w' H. eapply deleteProject_inr; exact H.
  - intros dto w e w' H. apply deleteProject_inl in H. subst. reflexivity.
Qed.

Lemma plan_cache_invalidation_witness :
  (exists r w',
     createProject (scenarioDeps happyScenario) (acmeBy USER None) emptyWorld = (inr r, w') /\
     deletedItems w' = ["infisical-cloud-plan-org1"%string]) /\
  (exists r w',
     deleteProject (scenarioDeps happyScenario) deleteAcme acmeWorld = (inr r, w') /\
     deletedItems w' = ["infisical-cloud-plan-org1"%string]).
Proof.
  destruct (plan_cache_invalidation (scenarioDeps happyScenario)) as (Hc & _ & Hd & _).
  split.
  - destruct (createProject (scenarioDeps happyScenario) (acmeBy USER None) emptyWorld)
      as [[e|r] w'] eqn:E; [vm_compute in E; discriminate E|].
    exists r, w'. split; [reflexivity|]. rewrite (Hc _ _ _ _ E). reflexivity.
  - destruct (deleteProject (scenarioDeps happyScenario) deleteAcme acmeWorld)
      as [[e|r] w'] eqn:E; [vm_compute in E; discriminate E|].
    exists r, w'. split; [reflexivity|]. rewrite (Hd _ _ _ _ E). reflexivity.
Defined.

(** C8, as stated, fails: after a successful creation the key store was
    asked to delete [infisical-cloud-plan-org1], and never
    [plan-usage-org1]. *)
Lemma plan_usage_key_not_invalidated :
  exists r w',
    createProject (scenarioDeps happyScenario) (acmeBy USER None) emptyWorld = (inr r, w') /\
    deletedItems w' = ["infisical-cloud-plan-org1"%string] /\
    count_occ string_dec (deletedItems w') "plan-usage-org1"%string = 0.
Proof.
  eexists. eexists. split; [vm_compute; reflexivity|]. split; reflexivity.
Qed.

(** * updateVersionLimit *)

Lemma updateVersionLimit_unfold D dto w :
  updateVersionLimit D dto w =
  match projectDAL_findProjectBySlug (uvl_workspaceSlug dto) (uvl_actorOrgId dto) (db w) with
  | None => (inl (BadRequestError "Project not found"), w)
  | Some project =>
      match getProjectPermission D (uvl_actor dto) (uvl_actorId dto) (project_id project)
                                 (uvl_actorAuthMethod dto) (uvl_actorOrgId dto) with
      | inl e => (inl e, w)
      | inr pp =>
          if pp_hasRole pp PAdmin then
            dal D OpProjectUpdateById NoTx
                (projectDAL_updateById_op (project_id project) (uvl_pitVersionLimit dto)) w
          else (inl onlyAdminsError, w)
      end
  end.
Proof.
  unfold updateVersionLimit. unfold bind at 1. unfold dalRead at 1. cbn [fst snd].
  destruct (projectDAL_findProjectBySlug _ _ _) as [p|]; [|reflexivity].
  unfold bind at 1.
  destruct (getProjectPermission D _ _ _ _ _) as [e|pp]; [reflexivity|].
  cbn [liftResult ret]. destruct (pp_hasRole pp PAdmin); reflexivity.
Qed.

Lemma updateById_returns (id limit : Id) (l : list TProject) (project : TProject) :
  In project l -> project_id project = id ->
  exists p',
    find (fun p => Nat.eqb (project_id p) id)
         (map (fun p => if Nat.eqb (project_id p) id then setPitVersionLimit limit p else p) l)
    = Some p' /\
    project_id p' = id /\ project_pitVersionLimit p' = limit.
Proof.
  intros Hin Hid. induction l as [|x t IH]; [contradiction|].
  cbn [map find]. destruct (Nat.eqb (project_id x) id) eqn:E.
  - cbn [setPitVersionLimit project_id]. rewrite E.
    eexists. split; [reflexivity|]. split; [apply Nat.eqb_eq; exact E | reflexivity].
  - rewrite E. destruct Hin as [->|Hin]; [|exact (IH Hin)].
    apply Nat.eqb_neq in E. contradiction.
Qed.

(** C7 (as the code has it): [updateVersionLimit] obtains the caller's
    project permission and gates on the Admin project role alone.  A caller
    without the Admin role gets an error and the world is unchanged, so the
    retention limit is not patched; a caller with the Admin role has the
    limit patched whatever capabilities the permission grants. *)
Theorem updateVersionLimit_admin_gate D dto w :
  ((forall project pp,
      projectDAL_findProjectBySlug (uvl_workspaceSlug dto) (uvl_actorOrgId dto) (db w)
        = Some project ->
      getProjectPermission D (uvl_actor dto) (uvl_actorId dto) (project_id project)
                           (uvl_actorAuthMethod dto) (uvl_actorOrgId dto) = inr pp ->
      pp_hasRole pp PAdmin = false) ->
   exists e, updateVersionLimit D dto w = (inl e, w)) /\
  (forall project pp,
     projectDAL_findProjectBySlug (uvl_workspaceSlug dto) (uvl_actorOrgId dto) (db w)
       = Some project ->
     getProjectPermission D (uvl_actor dto) (uvl_actorId dto) (project_id project)
                          (uvl_actorAuthMethod dto) (uvl_actorOrgId dto) = inr pp ->
     (pp_hasRole pp PAdmin = false ->
      updateVersionLimit D dto w = (inl onlyAdminsError, w)) /\
     (pp_hasRole pp PAdmin = true ->
      dalFault D OpProjectUpdateById (db w) = false ->
      exists p' w',
        updateVersionLimit D dto w = (inr (Some p'), w') /\
        project_id p' = project_id project /\
        project_pitVersionLimit p' = uvl_pitVersionLimit dto /\
        In (setPitVersionLimit (uvl_pitVersionLimit dto) project) (projects (db w')))).
Proof.
  split.
  - intro Hno. rewrite updateVersionLimit_unfold.
    destruct (projectDAL_findProjectBySlug _ _ _) as [p|] eqn:Ef; [|eauto].
    destruct (getProjectPermission D _ _ _ _ _) as [e|pp] eqn:Ep; [eauto|].
    rewrite (Hno p pp eq_refl Ep). eauto.
  - intros project pp Ef Ep. rewrite updateVersionLimit_unfold, Ef, Ep. split.
    + intros ->. reflexivity.
    + intros -> Hf. unfold dal. rewrite Hf.
      assert (Hin : In project (projects (db w))).
      { unfold projectDAL_findProjectBySlug in Ef.
        destruct (uvl_actorOrgId dto); [|discriminate Ef].
        apply find_some in Ef. tauto. }
      destruct (@updateById_returns (project_id project) (uvl_pitVersionLimit dto)
                  (projects (db w)) project Hin eq_refl)
        as (p' & Hfind & Hid & Hlim).
      exists p'. eexists. split; [|split; [exact Hid|split; [exact Hlim|]]].
      * unfold projectDAL_updateById_op. rewrite Hfind. reflexivity.
      * cbn [db projects withProjects]. apply in_map_iff. exists project.
        rewrite Nat.eqb_refl. split; [reflexivity | exact Hin].
Qed.

Lemma updateVersionLimit_admin_gate_witness :
  updateVersionLimit (scenarioDeps memberOnlyScenario) raiseAcmeLimit acmeWorld
  = (inl onlyAdminsError, acmeWorld).
Proof.
  pose proof (updateVersionLimit_admin_gate (scenarioDeps memberOnlyScenario)
                raiseAcmeLimit acmeWorld) as [_ H].
  refine (proj1 (H acmeProject _ eq_refl eq_refl) eq_refl).
Defined.

(** C7, as stated, fails: a caller whose permission grants no capability at
    all, but who holds the Admin role, has the retention limit patched -- no
    capability check stands before the role gate. *)
Lemma updateVersionLimit_without_capability :
  (forall a s, can (sc_permission capabilityFreeAdminScenario) a s = false) /\
  exists p' w',
    updateVersionLimit (scenarioDeps capabilityFreeAdminScenario) raiseAcmeLimit acmeWorld
      = (inr (Some p'), w') /\
    project_pitVersionLimit p' = 42 /\
    map project_pitVersionLimit (projects (db w')) = [42].
Proof.
  split; [reflexivity|].
  eexists. eexists. split; [vm_compute; reflexivity|]. split; reflexivity.
Qed.

(** * createProject: privilege and quota guards *)

Lemma createProject_tx_forbidden D dto org perm om bi b d l iom rolePerm customRole :
  actor dto = IDENTITY ->
  (forall op d0, dalFault D op d0 = false) ->
  latestKeyComplete D ->
  identityOrgMembershipDAL_findOne D (actorId dto) (org_id org) = Some iom ->
  getOrgPermissionByRole D OMember (org_id org) = inr (rolePerm, customRole) ->
  isAtLeastAsPrivileged D perm rolePerm = false ->
  fst (createProject_tx D dto org perm om bi Tx
         {| db := b; txdb := Some d; deletedItems := l |}) = inl escalationError.
Proof.
  destruct d as [n us ps pms purs sbis envs0 sfs pks bots ipms ipmrs].
  destruct D as [orgFind getOrgPerm getRolePerm getProjPerm atLeast plan cfg mkBlind mkKey seal
                 dec enc slugf nano genKeys findUser findIom findLatest findGhost fault].
  destruct dto as [a am aid ao wn sl], org as [oid], om, bi.
  unfold latestKeyComplete. cbn. intros -> Hf Hc Ei Er Ep.
  vm_compute.
  repeat (rewrite Hf; vm_compute).
  match goal with
  | |- context [findLatest ?u ?p ?ks] =>
      destruct (findLatest u p ks) as [latestKey|] eqn:EL
  end.
  - vm_compute. rewrite Ei. vm_compute. rewrite Er. vm_compute. rewrite Ep. reflexivity.
  - exfalso. eapply Hc; [| | |exact EL]; [apply in_or_app; right; left; reflexivity| |];
      reflexivity.
Qed.

Lemma latestGrant_complete sc :
  sc_latestKeyFound sc = true -> latestKeyComplete (scenarioDeps sc).
Proof.
  intros Hl u p ks k Hin Hu Hp. cbn. rewrite Hl. unfold latestGrant.
  destruct (find _ (rev ks)) eqn:E; [discriminate|].
  exfalso. apply in_rev in Hin. pose proof (find_none _ _ E k Hin) as Hk.
  cbv beta in Hk. subst. rewrite !Nat.eqb_refl in Hk. discriminate Hk.
Qed.

(** C1 (as the code has it): the comparison is
    [isAtLeastAsPrivileged(permission, rolePermission)], the actor's own
    organisation permission against the permission of the organisation role
    Member.  A [createProject] call by a machine identity for which it is
    false -- the actor is not at least as privileged as a member -- fails,
    and leaves the world, hence the Project table, as it was.  When the call gets as far as
    the comparison (the create-workspace capability is granted, the plan
    limit is not reached, the store accepts every call, the custodian's
    latest key and the identity's organisation membership are found) the
    error is the forbidden-request error of the privilege check. *)
Theorem createProject_identity_escalation D dto w org perm om rolePerm customRole :
  actor dto = IDENTITY ->
  orgDAL_findOne D (actorOrgId dto) = Some org ->
  getOrgPermission D (actor dto) (actorId dto) (org_id org)
                   (actorAuthMethod dto) (actorOrgId dto) = inr (perm, om) ->
  getOrgPermissionByRole D OMember (org_id org) = inr (rolePerm, customRole) ->
  isAtLeastAsPrivileged D perm rolePerm = false ->
  (exists e, createProject D dto w = (inl e, w)) /\
  (forall r w', createProject D dto w <> (inr r, w')) /\
  (can perm Create Workspace = true ->
   planLimitReached (getPlan D (org_id org)) = false ->
   (forall op d, dalFault D op d = false) ->
   latestKeyComplete D ->
   identityOrgMembershipDAL_findOne D (actorId dto) (org_id org) <> None ->
   createProject D dto w = (inl escalationError, w)).
Proof.
  intros Ea Eo Ep Er Epriv.
  assert (Hno : forall r w', createProject D dto w <> (inr r, w')).
  { intros r w' E. apply createProject_inr in E.
    destruct E as (org' & perm' & om' & d' & Eo' & Ep' & _ & _ & _ & HP).
    rewrite Eo in Eo'. inversion Eo'; subst org'.
    rewrite Ep in Ep'. inversion Ep'; subst perm' om'.
    destruct HP as (_ & _ & _ & _ & _ & _ & _ & HA).
    unfold ActorRows in HA. rewrite Ea in HA.
    destruct HA as (iom & rp & cr & _ & Er' & Hp & _).
    rewrite Er in Er'. inversion Er'; subst rp cr. congruence. }
  assert (Hfail : exists e, createProject D dto w = (inl e, w)).
  { destruct (createProject D dto w) as [[e|r] w'] eqn:E.
    - apply createProject_inl in E. subst. eauto.
    - exfalso. exact (Hno r w' eq_refl). }
  split; [exact Hfail|]. split; [exact Hno|].
  intros Ec El Hf Hc Hi.
  destruct (identityOrgMembershipDAL_findOne D (actorId dto) (org_id org)) as [iom|] eqn:Ei;
    [|contradiction].
  destruct Hfail as (e & He). rewrite He. f_equal. f_equal.
  rewrite createProject_unfold, Eo, Ep, Ec, El in He.
  unfold createProject_provision in He.
  pose proof (@createProject_tx_forbidden D dto org perm om
                (createSecretBlindIndex D (ROOT_ENCRYPTION_KEY (getConfig D))
                                        (ENCRYPTION_KEY (getConfig D)))
                (db w) (db w) (deletedItems w) iom rolePerm customRole
                Ea Hf Hc Ei Er Epriv) as Hx.
  unfold bind, transaction in He.
  destruct (createProject_tx _ _ _ _ _ _ _ _) as [[e1|r1] w1]; cbn [fst] in Hx.
  - inversion Hx; subst e1. inversion He. reflexivity.
  - discriminate Hx.
Qed.

Lemma createProject_identity_escalation_witness :
  createProject (scenarioDeps escalatingScenario) (acmeBy IDENTITY None) emptyWorld
  = (inl escalationError, emptyWorld)
  /\ projects (db emptyWorld) = [].
Proof.
  split; [|reflexivity].
  refine (proj2 (proj2 (@createProject_identity_escalation (scenarioDeps escalatingScenario)
            (acmeBy IDENTITY None) emptyWorld {| org_id := "org1" |} allowAll
            {| orgMembership_id := 7 |} allowAll None
            eq_refl eq_refl eq_refl eq_refl eq_refl)) eq_refl eq_refl _ _ _).
  - intros op d. reflexivity.
  - apply latestGrant_complete. reflexivity.
  - discriminate.
Defined.

(** C1, as stated, fails: here the permission computed in the identity
    branch is strictly weaker than the creating actor's own, as decided by
    [isAtLeastAsPrivileged] in both directions, and the call succeeds: the
    Project row is persisted.  The check refuses the opposite case. *)
Lemma createProject_weaker_role_permission_succeeds :
  exists r w',
    getOrgPermission orderedDeps IDENTITY 1 "org1" None (Some "org1"%string)
      = inr (allowAll, {| orgMembership_id := 7 |}) /\
    getOrgPermissionByRole orderedDeps OMember "org1" = inr (memberPermission, None) /\
    isAtLeastAsPrivileged orderedDeps allowAll memberPermission = true /\
    isAtLeastAsPrivileged orderedDeps memberPermission allowAll = false /\
    createProject orderedDeps (acmeBy IDENTITY None) emptyWorld = (inr r, w') /\
    In (res_project r) (projects (db w')).
Proof.
  eexists. eexists.
  split; [reflexivity|]. split; [reflexivity|]. split; [reflexivity|].
  split; [reflexivity|]. split; [vm_compute; reflexivity|].
  left. reflexivity.
Qed.

(** C2: when the plan of the organisation reports a workspace limit and
    [workspacesUsed] has reached it, [createProject] fails and the world is
    exactly what it was: the transaction was never opened, no row was
    written, the key store was not touched.  For a caller who passes the
    create-workspace authorisation the error is the plan-limit error. *)
Theorem createProject_plan_limit D dto w org limit :
  orgDAL_findOne D (actorOrgId dto) = Some org ->
  workspaceLimit (getPlan D (org_id org)) = Some limit ->
  limit <= workspacesUsed (getPlan D (org_id org)) ->
  (exists e, createProject D dto w = (inl e, w)) /\
  (forall perm om,
     getOrgPermission D (actor dto) (actorId dto) (org_id org)
                      (actorAuthMethod dto) (actorOrgId dto) = inr (perm, om) ->
     can perm Create Workspace = true ->
     createProject D dto w = (inl planLimitError, w)).
Proof.
  intros Eo El Hle.
  assert (Hp : planLimitReached (getPlan D (org_id org)) = true).
  { unfold planLimitReached. rewrite El. apply Nat.leb_le. exact Hle. }
  split.
  - rewrite createProject_unfold, Eo.
    destruct (getOrgPermission D _ _ _ _ _) as [e|[perm om]]; [eauto|].
    destruct (can perm Create Workspace); [|eauto]. rewrite Hp. eauto.
  - intros perm om Ep Ec. rewrite createProject_unfold, Eo, Ep, Ec, Hp. reflexivity.
Qed.

Lemma createProject_plan_limit_witness :
  createProject (scenarioDeps fullPlanScenario) (acmeBy USER None) emptyWorld
  = (inl planLimitError, emptyWorld).
Proof.
  refine (proj2 (@createProject_plan_limit (scenarioDeps fullPlanScenario)
            (acmeBy USER None) emptyWorld {| org_id := "org1" |} 1
            eq_refl eq_refl _) allowAll {| orgMembership_id := 7 |} eq_refl eq_refl).
  cbn. lia.
Defined.

(** * The MFA rate-limit key *)

Lemma splitOn_not_nil sep s : splitOn sep s <> [].
Proof.
  destruct s as [|c r]; cbn; [discriminate|].
  destruct (Ascii.eqb c sep); [discriminate|].
  destruct (splitOn sep r); discriminate.
Qed.

Lemma joinWith_cons sep x y t :
  joinWith sep (x :: y :: t) = (x ++ String sep (joinWith sep (y :: t)))%string.
Proof. reflexivity. Qed.

(** Joining the pieces gives the string back. *)
Lemma joinWith_splitOn sep s : joinWith sep (splitOn sep s) = s.
Proof.
  induction s as [|c r IH]; [reflexivity|].
  cbn [splitOn]. destruct (Ascii.eqb c sep) eqn:E.
  - apply Ascii.eqb_eq in E. subst c.
    destruct (splitOn sep r) as [|h t] eqn:Es; [exfalso; exact (splitOn_not_nil _ _ Es)|].
    rewrite joinWith_cons. cbn [String.append]. rewrite IH. reflexivity.
  - destruct (splitOn sep r) as [|h t] eqn:Es; [exfalso; exact (splitOn_not_nil _ _ Es)|].
    destruct t as [|y t'].
    + cbn [joinWith] in *. rewrite IH. reflexivity.
    + rewrite joinWith_cons in *. cbn [String.append]. rewrite IH. reflexivity.
Qed.

(** No piece contains the separator. *)
Lemma splitOn_pieces sep s : Forall (fun x => hasChar sep x = false) (splitOn sep s).
Proof.
  induction s as [|c r IH]; [repeat constructor|].
  cbn [splitOn]. destruct (Ascii.eqb c sep) eqn:E.
  - constructor; [reflexivity | exact IH].
  - destruct (splitOn sep r) as [|h t]; [repeat constructor; cbn; rewrite E; reflexivity|].
    inversion IH; subst. constructor; [|assumption].
    cbn. rewrite E. assumption.
Qed.

Lemma splitOn_app sep a b :
  hasChar sep a = false ->
  splitOn sep (a ++ String sep b) = a :: splitOn sep b.
Proof.
  induction a as [|c r IH]; intro H.
  - cbn. rewrite Ascii.eqb_refl. reflexivity.
  - cbn in H. apply orb_false_iff in H. destruct H as [Hc Hr].
    cbn [String.append splitOn]. rewrite Hc, (IH Hr). reflexivity.
Qed.

Lemma splitOn_no_sep sep a : hasChar sep a = false -> splitOn sep a = [a].
Proof.
  induction a as [|c r IH]; intro H; [reflexivity|].
  cbn in H. apply orb_false_iff in H. destruct H as [Hc Hr].
  cbn [splitOn]. rewrite Hc, (IH Hr). reflexivity.
Qed.

Lemma append_empty_r (s : string) : (s ++ "")%string = s.
Proof. induction s as [|c r IH]; [reflexivity|]. cbn. rewrite IH. reflexivity. Qed.

(** X25: for an Authorization header of the form "scheme token", or
    "scheme token more ...", with a non-empty token, the MFA limiter counts
    requests per token: the key is the token, whatever the address. *)
Theorem mfaKeyGenerator_token scheme token rest url ip :
  hasChar SPACE scheme = false ->
  hasChar SPACE token = false ->
  token <> EmptyString ->
  (rest = EmptyString \/ exists r, rest = String SPACE r) ->
  mfaKeyGenerator {| req_url := url; req_realIp := ip;
                     req_authorization := Some (scheme ++ String SPACE (token ++ rest))%string |}
  = token.
Proof.
  intros Hs Ht Hne Hr. unfold mfaKeyGenerator. cbn [req_authorization req_realIp].
  rewrite (@splitOn_app _ _ _ Hs).
  assert (E : exists t, splitOn SPACE (token ++ rest) = token :: t).
  { destruct Hr as [->|[r ->]].
    - rewrite append_empty_r, (@splitOn_no_sep _ _ Ht). eauto.
    - rewrite (@splitOn_app _ _ _ Ht). eauto. }
  destruct E as [t ->]. cbn [nth_error]. unfold js_or.
  destruct token; [contradiction | reflexivity].
Qed.

Lemma mfaKeyGenerator_token_witness :
  mfaKeyGenerator {| req_url := "/api/v2/auth/mfa/verify"; req_realIp := "10.0.0.7";
                     req_authorization := Some "Bearer eyJhbGciOi.tok"%string |}
  = "eyJhbGciOi.tok"%string.
Proof.
  apply (@mfaKeyGenerator_token "Bearer" "eyJhbGciOi.tok" "" "/api/v2/auth/mfa/verify" "10.0.0.7").
  - reflexivity.
  - reflexivity.
  - discriminate.
  - left. reflexivity.
Defined.

(** X26: whatever the request, the MFA key is either the client address
    or a non-empty, space-free piece of the Authorization header: the piece
    between its first space and the next one (or the end). *)
Theorem mfaKeyGenerator_shape req :
  mfaKeyGenerator req = req_realIp req \/
  exists h pre post,
    req_authorization req = Some h /\
    h = (pre ++ String SPACE (mfaKeyGenerator req ++ post))%string /\
    hasChar SPACE pre = false /\
    hasChar SPACE (mfaKeyGenerator req) = false /\
    mfaKeyGenerator req <> EmptyString /\
    (post = EmptyString \/ exists r, post = String SPACE r).
Proof.
  unfold mfaKeyGenerator. destruct (req_authorization req) as [h|]; [|left; reflexivity].
  pose proof (joinWith_splitOn SPACE h) as Hj.
  pose proof (splitOn_pieces SPACE h) as Hp.
  destruct (splitOn SPACE h) as [|a [|b t]]; cbn [nth_error js_or]; try (left; reflexivity).
  destruct b as [|c b']; [left; reflexivity|].
  right. pose proof (Forall_inv Hp) as Ha.
  pose proof (Forall_inv (Forall_inv_tail Hp)) as Hb. cbv beta in Ha, Hb.
  rewrite joinWith_cons in Hj.
  destruct t as [|y t'].
  - exists h, a, EmptyString. cbn [joinWith] in Hj. rewrite append_empty_r.
    split; [reflexivity|]. split; [symmetry; exact Hj|].
    split; [exact Ha|]. split; [exact Hb|]. split; [discriminate|]. left. reflexivity.
  - exists h, a, (String SPACE (joinWith SPACE (y :: t'))).
    split; [reflexivity|]. split; [symmetry; exact Hj|].
    split; [exact Ha|]. split; [exact Hb|]. split; [discriminate|]. right. eauto.
Qed.

(** X27: the MFA limiter falls back to the client address when there is
    no Authorization header, when the header contains no space, and when the
    first space is followed at once by another space or by the end of the
    header. *)
Theorem mfaKeyGenerator_fallback req :
  (req_authorization req = None \/
   (exists h, req_authorization req = Some h /\ hasChar SPACE h = false) \/
   (exists pre, req_authorization req = Some (pre ++ String SPACE EmptyString)%string /\
                hasChar SPACE pre = false) \/
   (exists pre r, req_authorization req = Some (pre ++ String SPACE (String SPACE r))%string /\
                  hasChar SPACE pre = false)) ->
  mfaKeyGenerator req = req_realIp req.
Proof.
  unfold mfaKeyGenerator.
  intros [-> | [(h & -> & Hh) | [(pre & -> & Hp) | (pre & r & -> & Hp)]]].
  - reflexivity.
  - rewrite (@splitOn_no_sep _ _ Hh). reflexivity.
  - rewrite (@splitOn_app _ _ _ Hp). reflexivity.
  - rewrite (@splitOn_app _ _ _ Hp). cbn [splitOn]. rewrite Ascii.eqb_refl. reflexivity.
Qed.

Lemma mfaKeyGenerator_fallback_witness :
  mfaKeyGenerator {| req_url := "/api/v2/auth/mfa/verify"; req_realIp := "10.0.0.7";
                     req_authorization := Some "Bearer  token"%string |}
  = "10.0.0.7"%string.
Proof.
  apply (@mfaKeyGenerator_fallback
           {| req_url := "/api/v2/auth/mfa/verify"; req_realIp := "10.0.0.7";
              req_authorization := Some "Bearer  token"%string |}).
  right. right. right. exists "Bearer"%string, "token"%string. split; reflexivity.
Defined.

(** * createProject: further properties *)

Ltac provisioned H :=
  apply createProject_inr in H;
  let org := fresh "org" in let perm := fresh "perm" in let om := fresh "om" in
  let d' := fresh "d'" in
  destruct H as (org & perm & om & d' & ? & ? & ? & ? & -> & H).

Lemma isPrefix_app A (l t : list A) : isPrefix l (l ++ t).
Proof. exists t. reflexivity. Qed.

Lemma isPrefix_refl A (l : list A) : isPrefix l l.
Proof. exists []. symmetry. apply app_nil_r. Qed.

(** X1: a successful [createProject] only appends: every row that was in
    the store is still there, unchanged and in place, in each of the eleven
    tables. *)
Theorem createProject_only_appends D dto w r w' :
  createProject D dto w = (inr r, w') -> extendsDB (db w) (db w').
Proof.
  intro H. provisioned H.
  destruct H as (_ & Hu & Hp & Hs & He & Hf & Hb & HA). cbn [db].
  assert (HR : isPrefix (projectMemberships (db w)) (projectMemberships d') /\
               isPrefix (projectUserMembershipRoles (db w)) (projectUserMembershipRoles d') /\
               isPrefix (projectKeys (db w)) (projectKeys d') /\
               isPrefix (identityProjectMemberships (db w)) (identityProjectMemberships d') /\
               isPrefix (identityProjectMembershipRoles (db w))
                        (identityProjectMembershipRoles d')).
  { unfold ActorRows in HA.
    destruct (actor dto);
      [ destruct HA as (-> & -> & -> & -> & ->)
      | destruct HA as (u & wr & _ & -> & -> & -> & -> & ->)
      | destruct HA as (-> & -> & -> & -> & ->)
      | destruct HA as (i & rp & cr & _ & _ & _ & -> & -> & -> & -> & ->) ];
      repeat split; first [apply isPrefix_app | apply isPrefix_refl]. }
  destruct HR as (R1 & R2 & R3 & R4 & R5).
  unfold extendsDB. rewrite Hu, Hp, Hs, He, Hf, Hb.
  repeat split; first [apply isPrefix_app | assumption].
Qed.

Lemma createProject_only_appends_witness :
  exists r w',
    createProject (scenarioDeps happyScenario) (acmeBy USER None) acmeWorld = (inr r, w') /\
    isPrefix (projects (db acmeWorld)) (projects (db w')).
Proof.
  destruct (createProject (scenarioDeps happyScenario) (acmeBy USER None) acmeWorld)
    as [[e|r] w'] eqn:E; [vm_compute in E; discriminate E|].
  exists r, w'. split; [reflexivity|].
  exact (proj1 (proj2 (@createProject_only_appends _ _ _ _ _ E))).
Defined.

(** X4: the custodian's wrapped project key is stored twice and
    consistently: the bot row of the new project carries the same wrapped
    key and nonce as the custodian's key grant, the custodian's public key,
    and all five parts of its sealed private key (ciphertext, iv, tag,
    encoding, algorithm); the bot is active. *)
Theorem createProject_bot_matches_grant D dto w r w' :
  createProject D dto w = (inr r, w') ->
  exists ghost bot grant,
    users (db w') = users (db w) ++ [ghost] /\
    In bot (projectBots (db w')) /\ In grant (projectKeys (db w')) /\
    bot_projectId bot = project_id (res_project r) /\
    pk_projectId grant = project_id (res_project r) /\
    pk_receiverId grant = user_id ghost /\
    pk_senderId grant = user_id ghost /\
    bot_senderId bot = user_id ghost /\
    bot_encryptedProjectKey bot = pk_encryptedKey grant /\
    bot_encryptedProjectKeyNonce bot = pk_nonce grant /\
    bot_isActive bot = true /\
    let keys := generateUserKeys D (user_id ghost) in
    let sealed := infisicalSymmetricEncypt D (snd keys) in
    bot_publicKey bot = fst keys /\
    (pk_encryptedKey grant, pk_nonce grant) = createProjectKey D (fst keys) (snd keys) /\
    bot_encryptedPrivateKey bot = sealed_ciphertext sealed /\
    bot_iv bot = sealed_iv sealed /\
    bot_tag bot = sealed_tag sealed /\
    bot_keyEncoding bot = sealed_encoding sealed /\
    bot_algorithm bot = sealed_algorithm sealed.
Proof.
  intro H. provisioned H.
  destruct H as (-> & Hu & _ & _ & _ & _ & Hb & HA). cbn [db res_project].
  exists (ghostRow org (nextId (db w))), (botRow D (nextId (db w))),
         (ghostKeyRow D (nextId (db w))).
  split; [exact Hu|].
  split; [rewrite Hb; apply in_or_app; right; left; reflexivity|].
  split.
  { unfold ActorRows in HA.
    destruct (actor dto);
      [ destruct HA as (_ & _ & -> & _)
      | destruct HA as (u & wr & _ & _ & _ & -> & _)
      | destruct HA as (_ & _ & -> & _)
      | destruct HA as (i & rp & cr & _ & _ & _ & _ & _ & -> & _) ];
      apply in_or_app; right; left; reflexivity. }
  cbn. unfold ghostProjectKey. repeat split.
  destruct (createProjectKey D _ _); reflexivity.
Qed.

Lemma createProject_bot_matches_grant_witness :
  exists r w' bot grant,
    createProject (scenarioDeps happyScenario) (acmeBy IDENTITY None) emptyWorld
      = (inr r, w') /\
    In bot (projectBots (db w')) /\ In grant (projectKeys (db w')) /\
    bot_encryptedProjectKey bot = pk_encryptedKey grant.
Proof.
  destruct (createProject (scenarioDeps happyScenario) (acmeBy IDENTITY None) emptyWorld)
    as [[e|r] w'] eqn:E; [vm_compute in E; discriminate E|].
  destruct (@createProject_bot_matches_grant _ _ _ _ _ E)
    as (g & bot & grant & _ & Hb & Hg & _ & _ & _ & _ & _ & Hk & _).
  exists r, w', bot, grant. repeat split; assumption.
Defined.

(** X5: when the actor is not a human user -- a machine identity
    included -- the new project has exactly one key grant, the custodian's:
    the identity path creates no grant for the identity. *)
Theorem createProject_non_user_single_grant D dto w r w' :
  wellKeyed (db w) = true ->
  actor dto <> USER ->
  createProject D dto w = (inr r, w') ->
  exists ghost,
    users (db w') = users (db w) ++ [ghost] /\
    map (fun k => (pk_receiverId k, pk_senderId k))
        (filter (fun k => Nat.eqb (pk_projectId k) (project_id (res_project r)))
                (projectKeys (db w')))
    = [ (user_id ghost, user_id ghost) ].
Proof.
  intros WK Ha H. provisioned H.
  destruct H as (-> & Hu & _ & _ & _ & _ & _ & HA). cbn [db res_project project_id projectRow].
  well_keyed WK.
  exists (ghostRow org (nextId (db w))). split; [exact Hu|].
  unfold ActorRows in HA.
  destruct (actor dto);
    [ destruct HA as (_ & _ & -> & _)
    | contradiction
    | destruct HA as (_ & _ & -> & _)
    | destruct HA as (i & rp & cr & _ & _ & _ & _ & _ & -> & _) ];
    (rewrite (filter_fresh pk_projectId (n := nextId (db w))); [|assumption|cbn; lia]);
    cbn -[Nat.eqb]; decide_eqb; reflexivity.
Qed.

Lemma createProject_non_user_single_grant_witness :
  exists r w',
    createProject (scenarioDeps happyScenario) (acmeBy IDENTITY None) emptyWorld
      = (inr r, w') /\
    length (filter (fun k => Nat.eqb (pk_projectId k) (project_id (res_project r)))
                   (projectKeys (db w'))) = 1.
Proof.
  destruct (createProject (scenarioDeps happyScenario) (acmeBy IDENTITY None) emptyWorld)
    as [[e|r] w'] eqn:E; [vm_compute in E; discriminate E|].
  exists r, w'. split; [reflexivity|].
  destruct (@createProject_non_user_single_grant (scenarioDeps happyScenario)
              (acmeBy IDENTITY None) emptyWorld r w' eq_refl ltac:(discriminate) E)
    as (g & _ & Hk).
  rewrite <- (length_map (fun k => (pk_receiverId k, pk_senderId k))), Hk. reflexivity.
Defined.

(** X6: for an actor that is neither a human user nor a machine identity
    (a service token, the platform) the project is created with the custodian
    as its only member: one membership and one role row are added, both the
    custodian's, and no identity membership. *)
Theorem createProject_other_actor_no_membership D dto w r w' :
  actor dto <> USER -> actor dto <> IDENTITY ->
  createProject D dto w = (inr r, w') ->
  exists ghost membership,
    users (db w') = users (db w) ++ [ghost] /\
    projectMemberships (db w') = projectMemberships (db w) ++ [membership] /\
    pm_userId membership = user_id ghost /\
    pm_projectId membership = project_id (res_project r) /\
    length (projectUserMembershipRoles (db w'))
      = S (length (projectUserMembershipRoles (db w))) /\
    identityProjectMemberships (db w') = identityProjectMemberships (db w) /\
    identityProjectMembershipRoles (db w') = identityProjectMembershipRoles (db w).
Proof.
  intros Hu Hi H. provisioned H.
  destruct H as (-> & Hus & _ & _ & _ & _ & _ & HA). cbn [db res_project].
  exists (ghostRow org (nextId (db w))), (ghostMembershipRow (nextId (db w))).
  unfold ActorRows in HA.
  destruct (actor dto); try contradiction;
    destruct HA as (-> & -> & _ & -> & ->);
    rewrite length_app; cbn; repeat split; try assumption; lia.
Qed.

Lemma createProject_other_actor_no_membership_witness :
  exists r w',
    createProject (scenarioDeps happyScenario) (acmeBy SERVICE None) emptyWorld
      = (inr r, w') /\
    length (projectMemberships (db w')) = 1 /\
    identityProjectMemberships (db w') = [].
Proof.
  destruct (createProject (scenarioDeps happyScenario) (acmeBy SERVICE None) emptyWorld)
    as [[e|r] w'] eqn:E; [vm_compute in E; discriminate E|].
  exists r, w'. split; [reflexivity|].
  destruct (@createProject_other_actor_no_membership (scenarioDeps happyScenario)
              (acmeBy SERVICE None) emptyWorld r w'
              ltac:(discriminate) ltac:(discriminate) E)
    as (g & m & _ & Hm & _ & _ & _ & Hi & _).
  rewrite Hm, Hi. split; reflexivity.
Defined.

(** X7: the custodian of every created project is a ghost user holding
    the Admin role: its membership in the new project and an Admin role row
    for that membership are in the store. *)
Theorem createProject_custodian_is_admin D dto w r w' :
  createProject D dto w = (inr r, w') ->
  exists ghost membership roleRow,
    In ghost (users (db w')) /\ user_isGhost ghost = true /\
    In membership (projectMemberships (db w')) /\
    pm_userId membership = user_id ghost /\
    pm_projectId membership = project_id (res_project r) /\
    In roleRow (projectUserMembershipRoles (db w')) /\
    pumr_projectMembershipId roleRow = pm_id membership /\
    pumr_role roleRow = PAdmin.
Proof.
  intro H. provisioned H.
  destruct H as (-> & Hus & _ & _ & _ & _ & _ & HA). cbn [db res_project].
  exists (ghostRow org (nextId (db w))), (ghostMembershipRow (nextId (db w))),
         (ghostRoleRow (nextId (db w))).
  split; [rewrite Hus; apply in_or_app; right; left; reflexivity|].
  split; [reflexivity|].
  unfold ActorRows in HA.
  destruct (actor dto);
    [ destruct HA as (-> & -> & _)
    | destruct HA as (u & wr & _ & -> & -> & _)
    | destruct HA as (-> & -> & _)
    | destruct HA as (i & rp & cr & _ & _ & _ & -> & -> & _) ];
    repeat split; apply in_or_app; right; left; reflexivity.
Qed.

Lemma createProject_custodian_is_admin_witness :
  exists r w' roleRow,
    createProject (scenarioDeps happyScenario) (acmeBy USER None) emptyWorld = (inr r, w') /\
    In roleRow (projectUserMembershipRoles (db w')) /\ pumr_role roleRow = PAdmin.
Proof.
  destruct (createProject (scenarioDeps happyScenario) (acmeBy USER None) emptyWorld)
    as [[e|r] w'] eqn:E; [vm_compute in E; discriminate E|].
  destruct (@createProject_custodian_is_admin _ _ _ _ _ E)
    as (g & m & rr & _ & _ & _ & _ & _ & Hr & _ & Ha).
  exists r, w', rr. repeat split; assumption.
Defined.

(** X8: a successful [createProject] adds exactly one blind-index row; it
    belongs to the new project and carries the five parts of the blind index
    computed from the configured root and encryption keys. *)
Theorem createProject_blind_index D dto w r w' :
  createProject D dto w = (inr r, w') ->
  exists row,
    secretBlindIndexes (db w') = secretBlindIndexes (db w) ++ [row] /\
    sbi_projectId row = project_id (res_project r) /\
    let blindIndex := createSecretBlindIndex D (ROOT_ENCRYPTION_KEY (getConfig D))
                                             (ENCRYPTION_KEY (getConfig D)) in
    sbi_keyEncoding row = bi_keyEncoding blindIndex /\
    sbi_saltIV row = bi_iv blindIndex /\
    sbi_saltTag row = bi_tag blindIndex /\
    sbi_algorithm row = bi_algorithm blindIndex /\
    sbi_encryptedSaltCipherText row = bi_ciphertext blindIndex.
Proof.
  intro H. provisioned H.
  destruct H as (-> & _ & _ & Hs & _). cbn [db res_project].
  eexists. split; [exact Hs|]. cbn. repeat split.
Qed.

Lemma createProject_blind_index_witness :
  exists r w' row,
    createProject (scenarioDeps happyScenario) (acmeBy USER None) emptyWorld = (inr r, w') /\
    secretBlindIndexes (db w') = [row] /\ sbi_projectId row = project_id (res_project r).
Proof.
  destruct (createProject (scenarioDeps happyScenario) (acmeBy USER None) emptyWorld)
    as [[e|r] w'] eqn:E; [vm_compute in E; discriminate E|].
  destruct (@createProject_blind_index _ _ _ _ _ E) as (row & Hs & Hp & _).
  exists r, w', row. repeat split; assumption.
Defined.

(** X9: the create-workspace check comes first: a caller whose
    organisation permission does not allow creating a workspace gets the
    forbidden error and nothing changes, whatever the plan says -- also on a
    plan whose limit is reached. *)
Theorem createProject_authorization_first D dto w org perm om :
  orgDAL_findOne D (actorOrgId dto) = Some org ->
  getOrgPermission D (actor dto) (actorId dto) (org_id org)
                   (actorAuthMethod dto) (actorOrgId dto) = inr (perm, om) ->
  can perm Create Workspace = false ->
  createProject D dto w = (inl ForbiddenError, w).
Proof.
  intros Eo Ep Ec. rewrite createProject_unfold, Eo, Ep, Ec. reflexivity.
Qed.


Lemma createProject_authorization_first_witness :
  createProject (scenarioDeps unauthorisedFullPlanScenario) (acmeBy USER None) emptyWorld
  = (inl ForbiddenError, emptyWorld).
Proof.
  exact (@createProject_authorization_first (scenarioDeps unauthorisedFullPlanScenario)
           (acmeBy USER None) emptyWorld {| org_id := "org1" |} denyAll
           {| orgMembership_id := 7 |} eq_refl eq_refl eq_refl).
Defined.

Lemma createProject_tx_succeeds D dto org perm om bi b d l :
  (forall op d0, dalFault D op d0 = false) ->
  latestKeyComplete D ->
  actorReady D dto org perm ->
  exists r, fst (createProject_tx D dto org perm om bi Tx
                   {| db := b; txdb := Some d; deletedItems := l |}) = inr r.
Proof.
  destruct d as [n us ps pms purs sbis envs0 sfs pks bots ipms ipmrs].
  destruct D as [orgFind getOrgPerm getRolePerm getProjPerm atLeast plan cfg mkBlind mkKey seal
                 dec enc slugf nano genKeys findUser findIom findLatest findGhost fault].
  destruct dto as [a am aid ao wn sl], org as [oid], om, bi.
  unfold latestKeyComplete, actorReady. cbn. intros Hf Hc Hr.
  vm_compute.
  repeat (rewrite Hf; vm_compute).
  match goal with
  | |- context [findLatest ?u ?p ?ks] =>
      destruct (findLatest u p ks) as [latestKey|] eqn:EL
  end.
  - destruct a; vm_compute.
    + eexists; reflexivity.
    + destruct (findUser aid) as [user|]; [|contradiction].
      vm_compute. repeat (rewrite Hf; vm_compute). eexists; reflexivity.
    + eexists; reflexivity.
    + destruct Hr as (Hi & rp & cr & Er & Ep).
      destruct (findIom aid oid) as [iom|]; [|contradiction].
      vm_compute. rewrite Er. vm_compute. rewrite Ep. vm_compute.
      repeat (rewrite Hf; vm_compute). eexists; reflexivity.
  - exfalso. eapply Hc; [| | |exact EL]; [apply in_or_app; right; left; reflexivity| |];
      reflexivity.
Qed.

(** X10: [createProject] succeeds whenever nothing stands in its way: the
    organisation is found, the caller may create workspaces, the plan has no
    limit or is below it, the store accepts every call, the custodian's
    latest key is found, and the actor is ready (a human has a key record; a
    machine identity has an organisation membership and passes the privilege
    comparison). *)
Theorem createProject_succeeds D dto w org perm om :
  orgDAL_findOne D (actorOrgId dto) = Some org ->
  getOrgPermission D (actor dto) (actorId dto) (org_id org)
                   (actorAuthMethod dto) (actorOrgId dto) = inr (perm, om) ->
  can perm Create Workspace = true ->
  (workspaceLimit (getPlan D (org_id org)) = None \/
   exists limit, workspaceLimit (getPlan D (org_id org)) = Some limit /\
                 workspacesUsed (getPlan D (org_id org)) < limit) ->
  (forall op d, dalFault D op d = false) ->
  latestKeyComplete D ->
  actorReady D dto org perm ->
  exists r w', createProject D dto w = (inr r, w').
Proof.
  intros Eo Ep Ec Hplan Hf Hc Hr.
  assert (El : planLimitReached (getPlan D (org_id org)) = false).
  { unfold planLimitReached. destruct Hplan as [->|(limit & -> & Hlt)]; [reflexivity|].
    apply Nat.leb_gt. exact Hlt. }
  rewrite createProject_unfold, Eo, Ep, Ec, El.
  unfold createProject_provision.
  destruct (@createProject_tx_succeeds D dto org perm om
              (createSecretBlindIndex D (ROOT_ENCRYPTION_KEY (getConfig D))
                                      (ENCRYPTION_KEY (getConfig D)))
              (db w) (db w) (deletedItems w) Hf Hc Hr) as (r & Hx).
  unfold bind, transaction.
  destruct (createProject_tx _ _ _ _ _ _ _ _) as [[e1|r1] w1]; cbn [fst] in Hx.
  - discriminate Hx.
  - eexists. eexists. reflexivity.
Qed.


Lemma createProject_succeeds_witness :
  exists r w',
    createProject (scenarioDeps unlimitedPlanScenario) (acmeBy IDENTITY None) emptyWorld
    = (inr r, w').
Proof.
  apply (@createProject_succeeds (scenarioDeps unlimitedPlanScenario) (acmeBy IDENTITY None)
           emptyWorld {| org_id := "org1" |} allowAll {| orgMembership_id := 7 |}
           eq_refl eq_refl eq_refl).
  - left. reflexivity.
  - intros op d. reflexivity.
  - apply latestGrant_complete. reflexivity.
  - split; [discriminate|]. exists allowAll, None. split; reflexivity.
Defined.

(** * deleteProject: further properties *)

Lemma deleteProject_tx_run D project b d l :
  deleteProject_tx D project Tx {| db := b; txdb := Some d; deletedItems := l |} =
  if dalFault D OpProjectDeleteById d
  then (inl (DatabaseError OpProjectDeleteById),
        {| db := b; txdb := Some d; deletedItems := l |})
  else
    let d1 := snd (projectDAL_deleteById_op (project_id project) d) in
    match catchNull (findProjectGhostUser D (project_id project) d1) with
    | Some g =>
        if dalFault D OpUserDeleteById d1
        then (inl (DatabaseError OpUserDeleteById),
              {| db := b; txdb := Some d1; deletedItems := l |})
        else (inr (fst (projectDAL_deleteById_op (project_id project) d)),
              {| db := b; txdb := Some (snd (userDAL_deleteById_op (user_id g) d1));
                 deletedItems := l |})
    | None => (inr (fst (projectDAL_deleteById_op (project_id project) d)),
               {| db := b; txdb := Some d1; deletedItems := l |})
    end.
Proof.
  unfold deleteProject_tx. unfold bind at 1. rewrite dal_Tx_run.
  destruct (dalFault D OpProjectDeleteById d); [reflexivity|].
  unfold bind at 1. rewrite dalRead_Tx_run. cbv zeta.
  destruct (catchNull _) as [g|].
  - unfold bind at 1. unfold bind at 1. rewrite dal_Tx_run.
    destruct (dalFault D OpUserDeleteById _); reflexivity.
  - reflexivity.
Qed.

(** What [deleteProject] does once the project is found and the caller may
    delete it. *)
Lemma deleteProject_run D dto w project pp :
  projectDAL_findProjectByFilter (del_filter dto) (db w) = inr project ->
  getProjectPermission D (del_actor dto) (del_actorId dto) (project_id project)
                       (del_actorAuthMethod dto) (del_actorOrgId dto) = inr pp ->
  can (pp_permission pp) Delete Project = true ->
  deleteProject D dto w =
  if dalFault D OpProjectDeleteById (db w) then (inl (DatabaseError OpProjectDeleteById), w)
  else
    let d1 := snd (projectDAL_deleteById_op (project_id project) (db w)) in
    let done d2 :=
      (inr (fst (projectDAL_deleteById_op (project_id project) (db w))),
       {| db := d2; txdb := txdb w;
          deletedItems := deletedItems w ++ [planCacheKey (del_actorOrgId dto)] |}) in
    match catchNull (findProjectGhostUser D (project_id project) d1) with
    | Some g =>
        if dalFault D OpUserDeleteById d1 then (inl (DatabaseError OpUserDeleteById), w)
        else done (snd (userDAL_deleteById_op (user_id g) d1))
    | None => done d1
    end.
Proof.
  intros Ef Ep Ec. rewrite deleteProject_unfold, Ef, Ep, Ec.
  unfold bind at 1. unfold transaction. rewrite deleteProject_tx_run.
  destruct w as [b t l]. cbn [db txdb deletedItems].
  destruct (dalFault D OpProjectDeleteById b); [reflexivity|]. cbv zeta.
  destruct (catchNull _) as [g|]; [|reflexivity].
  destruct (dalFault D OpUserDeleteById _); reflexivity.
Qed.

(** X11: the deletion transaction of [deleteProject] is atomic.  If its
    callback throws, the world is what it was; in particular, when the store
    has deleted the project row and then refuses to delete the custodian,
    the call ends in that refusal and the project row is still there.  If
    the callback returns, only the committed store has changed: the key
    store is touched afterwards, outside the transaction. *)
Theorem deleteProject_transaction_atomic D project w :
  (forall e w', transaction (deleteProject_tx D project) w = (inl e, w') -> w' = w) /\
  (forall r w', transaction (deleteProject_tx D project) w = (inr r, w') ->
                txdb w' = txdb w /\ deletedItems w' = deletedItems w) /\
  (forall g,
     dalFault D OpProjectDeleteById (db w) = false ->
     findProjectGhostUser D (project_id project)
       (snd (projectDAL_deleteById_op (project_id project) (db w))) = inr g ->
     dalFault D OpUserDeleteById
       (snd (projectDAL_deleteById_op (project_id project) (db w))) = true ->
     transaction (deleteProject_tx D project) w = (inl (DatabaseError OpUserDeleteById), w)).
Proof.
  split; [|split].
  - intros e w' H. eapply transaction_rollback; [apply deleteProject_tx_txLocal | exact H].
  - intros r w' H. apply transaction_commit in H; [|apply deleteProject_tx_txLocal].
    destruct H as (d' & _ & ->). split; reflexivity.
  - intros g Hf Hg Hu. unfold transaction. rewrite deleteProject_tx_run, Hf. cbv zeta.
    rewrite Hg. cbn [catchNull]. rewrite Hu. destruct w; reflexivity.
Qed.

Lemma deleteProject_transaction_atomic_witness :
  transaction (deleteProject_tx
                 (withGhostLookup (scenarioDeps userDeleteFaultScenario) ghostOfProject)
                 acmeProject) acmeWithGhostWorld
  = (inl (DatabaseError OpUserDeleteById), acmeWithGhostWorld)
  /\ projects (db acmeWithGhostWorld) = [acmeProject].
Proof.
  split; [|reflexivity].
  refine (proj2 (proj2 (@deleteProject_transaction_atomic
            (withGhostLookup (scenarioDeps userDeleteFaultScenario) ghostOfProject)
            acmeProject acmeWithGhostWorld)) acmeGhost eq_refl eq_refl eq_refl).
Defined.

(** X12: [deleteProject] deletes only for a caller whose project
    permission allows deleting the project: every success implies that
    capability, and without it the call ends in the forbidden error with
    nothing deleted and the plan cache untouched. *)
Theorem deleteProject_requires_capability D dto w :
  (forall r w',
     deleteProject D dto w = (inr r, w') ->
     exists project pp,
       projectDAL_findProjectByFilter (del_filter dto) (db w) = inr project /\
       getProjectPermission D (del_actor dto) (del_actorId dto) (project_id project)
                            (del_actorAuthMethod dto) (del_actorOrgId dto) = inr pp /\
       can (pp_permission pp) Delete Project = true) /\
  (forall project pp,
     projectDAL_findProjectByFilter (del_filter dto) (db w) = inr project ->
     getProjectPermission D (del_actor dto) (del_actorId dto) (project_id project)
                          (del_actorAuthMethod dto) (del_actorOrgId dto) = inr pp ->
     can (pp_permission pp) Delete Project = false ->
     deleteProject D dto w = (inl ForbiddenError, w)).
Proof.
  split.
  - intros r w'. rewrite deleteProject_unfold. intro H.
    destruct (projectDAL_findProjectByFilter _ _) as [e1|p]; [discriminate H|].
    destruct (getProjectPermission D _ _ _ _ _) as [e1|pp] eqn:Ep; [discriminate H|].
    destruct (can (pp_permission pp) Delete Project) eqn:Ec; [|discriminate H].
    exists p, pp. auto.
  - intros project pp Ef Ep Ec. rewrite deleteProject_unfold, Ef, Ep, Ec. reflexivity.
Qed.

Lemma deleteProject_requires_capability_witness :
  deleteProject (scenarioDeps deleterWithoutCapabilityScenario) deleteAcme acmeWorld
  = (inl ForbiddenError, acmeWorld).
Proof.
  refine (proj2 (@deleteProject_requires_capability
                   (scenarioDeps deleterWithoutCapabilityScenario) deleteAcme acmeWorld)
                acmeProject _ eq_refl eq_refl eq_refl).
Defined.

Lemma find_fresh A (key : A -> Id) (n k : Id) (old new : list A) :
  forallb (fun x => Nat.ltb (key x) n) old = true -> n <= k ->
  find (fun x => Nat.eqb (key x) k) (old ++ new) = find (fun x => Nat.eqb (key x) k) new.
Proof.
  intros Hold Hk. induction old as [|x t IH]; [reflexivity|].
  cbn in Hold. apply andb_true_iff in Hold. destruct Hold as [Hx Ht].
  cbn. apply Nat.ltb_lt in Hx.
  destruct (Nat.eqb (key x) k) eqn:E; [apply Nat.eqb_eq in E; lia | auto].
Qed.

Lemma filter_out_fresh A (key : A -> Id) (n k : Id) (old : list A) :
  forallb (fun x => Nat.ltb (key x) n) old = true -> n <= k ->
  filter (fun x => negb (Nat.eqb (key x) k)) old = old.
Proof.
  intros Hold Hk. induction old as [|x t IH]; [reflexivity|].
  cbn in Hold. apply andb_true_iff in Hold. destruct Hold as [Hx Ht].
  cbn. apply Nat.ltb_lt in Hx.
  destruct (Nat.eqb (key x) k) eqn:E; [apply Nat.eqb_eq in E; lia|].
  cbn. rewrite (IH Ht). reflexivity.
Qed.

Lemma deleteProject_inr_shape D dto w r w' :
  deleteProject D dto w = (inr r, w') ->
  exists project,
    projectDAL_findProjectByFilter (del_filter dto) (db w) = inr project /\
    r = find (fun p => Nat.eqb (project_id p) (project_id project)) (projects (db w)) /\
    deletedItems w' = deletedItems w ++ [planCacheKey (del_actorOrgId dto)] /\
    txdb w' = txdb w /\
    let d1 := snd (projectDAL_deleteById_op (project_id project) (db w)) in
    (db w' = d1 /\ catchNull (findProjectGhostUser D (project_id project) d1) = None \/
     exists g, catchNull (findProjectGhostUser D (project_id project) d1) = Some g /\
               db w' = snd (userDAL_deleteById_op (user_id g) d1)).
Proof.
  intro H. pose proof H as H0. rewrite deleteProject_unfold in H0.
  destruct (projectDAL_findProjectByFilter _ _) as [e1|p] eqn:Ef; [discriminate H0|].
  destruct (getProjectPermission D _ _ _ _ _) as [e1|pp] eqn:Ep; [discriminate H0|].
  destruct (can (pp_permission pp) Delete Project) eqn:Ec; [|discriminate H0].
  clear H0. rewrite (@deleteProject_run D dto w _ _ Ef Ep Ec) in H.
  destruct (dalFault D OpProjectDeleteById (db w)); [discriminate H|]. cbv zeta in H.
  exists p. split; [reflexivity|].
  destruct (catchNull _) as [g|] eqn:Eg.
  - destruct (dalFault D OpUserDeleteById _); [discriminate H|].
    inversion H; subst. cbn. repeat split. right. exists g. auto.
  - inversion H; subst. cbn. repeat split. left. auto.
Qed.

(** X13: after a successful [deleteProject] no project with the id of
    the designated project is left, every other project row is kept (in
    order), and at most the custodian returned by the lookup -- made on the
    store from which the project row is already gone -- is removed from the
    users. *)
Theorem deleteProject_effect D dto w r w' :
  deleteProject D dto w = (inr r, w') ->
  exists project,
    projectDAL_findProjectByFilter (del_filter dto) (db w) = inr project /\
    projects (db w')
      = filter (fun p => negb (Nat.eqb (project_id p) (project_id project))) (projects (db w)) /\
    (forall p, In p (projects (db w')) -> project_id p <> project_id project) /\
    (users (db w') = users (db w) \/
     exists g,
       findProjectGhostUser D (project_id project)
         (snd (projectDAL_deleteById_op (project_id project) (db w))) = inr g /\
       users (db w') = filter (fun u => negb (Nat.eqb (user_id u) (user_id g))) (users (db w))).
Proof.
  intro H. apply deleteProject_inr_shape in H.
  destruct H as (project & Ef & _ & _ & _ & Hd). cbv zeta in Hd.
  exists project. split; [exact Ef|].
  assert (Hp : projects (db w')
               = filter (fun p => negb (Nat.eqb (project_id p) (project_id project)))
                        (projects (db w))).
  { destruct Hd as [[-> _] | (g & _ & ->)]; reflexivity. }
  split; [exact Hp|]. split.
  - intros p Hin. rewrite Hp in Hin. apply filter_In in Hin. destruct Hin as [_ Hne].
    apply negb_true_iff, Nat.eqb_neq in Hne. exact Hne.
  - destruct Hd as [[-> _] | (g & Eg & ->)]; [left; reflexivity|].
    right. exists g. split; [|reflexivity].
    unfold catchNull in Eg. destruct (findProjectGhostUser D _ _); [discriminate Eg|].
    inversion Eg. reflexivity.
Qed.

Lemma deleteProject_effect_witness :
  exists r w',
    deleteProject (withGhostLookup (scenarioDeps happyScenario) ghostOfProject)
                  deleteAcme acmeWithGhostWorld = (inr r, w') /\
    projects (db w') = [] /\ users (db w') = [].
Proof.
  destruct (deleteProject (withGhostLookup (scenarioDeps happyScenario) ghostOfProject)
                          deleteAcme acmeWithGhostWorld) as [[e|r] w'] eqn:E;
    [vm_compute in E; discriminate E|].
  exists r, w'. split; [reflexivity|].
  destruct (@deleteProject_effect _ _ _ _ _ E) as (p & Ef & Hp & _ & _).
  vm_compute in Ef. inversion Ef; subst p. split; [rewrite Hp; reflexivity|].
  vm_compute in E. inversion E. reflexivity.
Defined.

(** X14: a missing custodian is tolerated: when the custodian lookup
    throws, an authorised [deleteProject] still succeeds (if the store
    accepts the deletion), removes the project, leaves the users alone and
    invalidates the plan cache once. *)
Theorem deleteProject_tolerates_missing_custodian D dto w project pp e :
  projectDAL_findProjectByFilter (del_filter dto) (db w) = inr project ->
  getProjectPermission D (del_actor dto) (del_actorId dto) (project_id project)
                       (del_actorAuthMethod dto) (del_actorOrgId dto) = inr pp ->
  can (pp_permission pp) Delete Project = true ->
  dalFault D OpProjectDeleteById (db w) = false ->
  findProjectGhostUser D (project_id project)
    (snd (projectDAL_deleteById_op (project_id project) (db w))) = inl e ->
  exists r w',
    deleteProject D dto w = (inr r, w') /\
    users (db w') = users (db w) /\
    (forall p, In p (projects (db w')) -> project_id p <> project_id project) /\
    deletedItems w' = deletedItems w ++ [planCacheKey (del_actorOrgId dto)].
Proof.
  intros Ef Ep Ec Hf Hg. rewrite (@deleteProject_run D dto w _ _ Ef Ep Ec), Hf. cbv zeta.
  rewrite Hg. cbn [catchNull].
  eexists. eexists. split; [reflexivity|]. cbn. split; [reflexivity|]. split; [|reflexivity].
  intros p Hin. apply filter_In in Hin. destruct Hin as [_ Hne].
  apply negb_true_iff, Nat.eqb_neq in Hne. exact Hne.
Qed.

Lemma deleteProject_tolerates_missing_custodian_witness :
  exists r w',
    deleteProject (scenarioDeps happyScenario) deleteAcme acmeWorld = (inr r, w') /\
    users (db w') = users (db acmeWorld).
Proof.
  destruct (@deleteProject_tolerates_missing_custodian (scenarioDeps happyScenario)
              deleteAcme acmeWorld acmeProject
              {| pp_permission := allowAll;
                 pp_hasRole := fun r => match r with PAdmin => true | _ => false end |}
              (CollaboratorError "ghost user not found")
              eq_refl eq_refl eq_refl eq_refl eq_refl) as (r & w' & E & Hu & _).
  exists r, w'. split; assumption.
Defined.

Lemma deleteProject_effect_shape_by_id D dto w r w' id :
  del_filter dto = FilterID id ->
  deleteProject D dto w = (inr r, w') ->
  projects (db w') = filter (fun p => negb (Nat.eqb (project_id p) id)) (projects (db w)).
Proof.
  intros F H. apply deleteProject_inr_shape in H.
  destruct H as (project & Ef & _ & _ & _ & Hd). cbv zeta in Hd.
  rewrite F in Ef. unfold projectDAL_findProjectByFilter in Ef. cbv beta iota zeta in Ef.
  destruct (find _ (projects (db w))) as [p|] eqn:E; [|discriminate Ef].
  inversion Ef; subst p. apply find_some in E. destruct E as [_ E].
  apply Nat.eqb_eq in E. rewrite <- E.
  destruct Hd as [[-> _] | (g & _ & ->)]; reflexivity.
Qed.

Lemma find_after_filter_out A (f : A -> bool) (l : list A) :
  find f (filter (fun x => negb (f x)) l) = None.
Proof.
  induction l as [|x t IH]; [reflexivity|].
  cbn. destruct (f x) eqn:E; cbn; [exact IH|]. rewrite E. exact IH.
Qed.

(** X15: deleting is not repeatable: once a project has been deleted by
    its id, no project with that id is in the store, and a second
    [deleteProject] for the same id -- by any caller -- fails with the error
    of the project lookup and changes nothing; in particular the plan cache
    is not invalidated again. *)
Theorem deleteProject_twice D dto w r w' D2 dto2 id :
  del_filter dto = FilterID id ->
  del_filter dto2 = FilterID id ->
  deleteProject D dto w = (inr r, w') ->
  find (fun p => Nat.eqb (project_id p) id) (projects (db w')) = None /\
  exists e,
    projectDAL_findProjectByFilter (del_filter dto2) (db w') = inl e /\
    deleteProject D2 dto2 w' = (inl e, w').
Proof.
  intros F1 F2 H. apply deleteProject_effect_shape_by_id with (id := id) in H; [|exact F1].
  assert (Hnone : find (fun p => Nat.eqb (project_id p) id) (projects (db w')) = None).
  { rewrite H. apply find_after_filter_out. }
  split; [exact Hnone|].
  rewrite deleteProject_unfold, F2. unfold projectDAL_findProjectByFilter.
  cbv beta iota zeta. rewrite Hnone. eexists. split; reflexivity.
Qed.

Lemma deleteProject_twice_witness :
  exists r w' e,
    deleteProject (scenarioDeps happyScenario) deleteAcme acmeWorld = (inr r, w') /\
    deleteProject (scenarioDeps happyScenario) deleteAcme w' = (inl e, w').
Proof.
  destruct (deleteProject (scenarioDeps happyScenario) deleteAcme acmeWorld)
    as [[e|r] w'] eqn:E; [vm_compute in E; discriminate E|].
  destruct (@deleteProject_twice (scenarioDeps happyScenario) deleteAcme acmeWorld r w'
              (scenarioDeps happyScenario) deleteAcme 5 eq_refl eq_refl E)
    as (_ & e & _ & H2).
  exists r, w', e. split; [reflexivity | exact H2].
Defined.

(** X16: creating a project and then deleting it by the id the creation
    returned gives back the project table as it was before: the deletion
    returns the created row, and the plan cache has been invalidated twice.
    (Project ids in the store were drawn before [nextId].) *)
Theorem createProject_then_deleteProject D dto w r w1 D2 ddto r2 w2 :
  projectsKeyed (db w) = true ->
  createProject D dto w = (inr r, w1) ->
  del_filter ddto = FilterID (res__id r) ->
  deleteProject D2 ddto w1 = (inr r2, w2) ->
  r2 = Some (res_project r) /\
  projects (db w2) = projects (db w) /\
  deletedItems w2
    = deletedItems w ++ [planCacheKey (actorOrgId dto); planCacheKey (del_actorOrgId ddto)].
Proof.
  intros PK Hc F Hd. unfold projectsKeyed in PK.
  provisioned Hc. destruct Hc as (-> & _ & Hp & _).
  cbn [res__id res_project] in *.
  pose proof (@deleteProject_effect_shape_by_id _ _ _ _ _ _ F Hd) as Hps.
  apply deleteProject_inr_shape in Hd.
  destruct Hd as (project & Ef & Hr & Hdel & _ & _).
  cbn [db deletedItems] in *.
  rewrite F in Ef. unfold projectDAL_findProjectByFilter in Ef. cbv beta iota zeta in Ef.
  rewrite Hp in Ef, Hr, Hps.
  rewrite (find_fresh project_id (n := nextId (db w))) in Ef; [|assumption|lia].
  cbn [find projectRow project_id] in Ef. rewrite Nat.eqb_refl in Ef.
  inversion Ef; subst project. cbn [projectRow project_id] in Hr.
  rewrite (find_fresh project_id (n := nextId (db w))) in Hr; [|assumption|lia].
  cbn [find projectRow project_id] in Hr. rewrite Nat.eqb_refl in Hr.
  split; [exact Hr|]. split.
  - rewrite Hps, filter_app.
    rewrite (filter_out_fresh project_id (n := nextId (db w))); [|assumption|lia].
    cbn [filter projectRow project_id]. rewrite Nat.eqb_refl. cbn. apply app_nil_r.
  - rewrite Hdel, <- app_assoc. reflexivity.
Qed.


Lemma createProject_then_deleteProject_witness :
  exists r w1 r2 w2,
    createProject (scenarioDeps happyScenario) (acmeBy USER None) acmeWorld = (inr r, w1) /\
    deleteProject (scenarioDeps happyScenario) (deleteCreated (res__id r)) w1 = (inr r2, w2) /\
    projects (db w2) = [acmeProject].
Proof.
  destruct (createProject (scenarioDeps happyScenario) (acmeBy USER None) acmeWorld)
    as [[e|r] w1] eqn:E1; [vm_compute in E1; discriminate E1|].
  destruct (deleteProject (scenarioDeps happyScenario) (deleteCreated (res__id r)) w1)
    as [[e|r2] w2] eqn:E2.
  { vm_compute in E1. inversion E1; subst. vm_compute in E2. discriminate E2. }
  exists r, w1, r2, w2. split; [reflexivity|]. split; [exact E2|].
  exact (proj1 (proj2 (@createProject_then_deleteProject
                         (scenarioDeps happyScenario) (acmeBy USER None) acmeWorld r w1
                         (scenarioDeps happyScenario) (deleteCreated (res__id r)) r2 w2
                         eq_refl E1 eq_refl E2))).
Defined.

(** * updateVersionLimit and updateName: what they change *)

Lemma updateVersionLimit_inr D dto w r w' :
  updateVersionLimit D dto w = (inr r, w') ->
  exists project,
    projectDAL_findProjectBySlug (uvl_workspaceSlug dto) (uvl_actorOrgId dto) (db w)
      = Some project /\
    w' = {| db := snd (projectDAL_updateById_op (project_id project)
                         (uvl_pitVersionLimit dto) (db w));
            txdb := txdb w; deletedItems := deletedItems w |}.
Proof.
  rewrite updateVersionLimit_unfold. intro H.
  destruct (projectDAL_findProjectBySlug _ _ _) as [p|]; [|discriminate H].
  destruct (getProjectPermission D _ _ _ _ _) as [e|pp]; [discriminate H|].
  destruct (pp_hasRole pp PAdmin); [|discriminate H].
  unfold dal in H. destruct (dalFault D OpProjectUpdateById (db w)); [discriminate H|].
  exists p. split; [reflexivity|].
  destruct (projectDAL_updateById_op _ _ _) as [a d1]. inversion H. reflexivity.
Qed.

Lemma findProjectBySlug_some slug orgId d project :
  projectDAL_findProjectBySlug slug orgId d = Some project ->
  In project (projects d) /\ project_slug project = slug /\ orgId = Some (project_orgId project).
Proof.
  unfold projectDAL_findProjectBySlug. destruct orgId as [o|]; [|discriminate].
  intro H. apply find_some in H. destruct H as [Hin Hb].
  apply andb_true_iff in Hb. destruct Hb as [Hs Ho].
  apply String.eqb_eq in Hs. apply String.eqb_eq in Ho. subst. auto.
Qed.

(** X17: a successful [updateVersionLimit] changes nothing but retention
    limits: every project row keeps its id, name, organisation, slug and
    version, the table keeps its order and length, and neither the key store
    nor any open transaction is touched. *)
Theorem updateVersionLimit_changes_only_limit D dto w r w' :
  updateVersionLimit D dto w = (inr r, w') ->
  map exceptLimit (projects (db w')) = map exceptLimit (projects (db w)) /\
  db w' = withProjects (db w) (projects (db w')) /\
  txdb w' = txdb w /\ deletedItems w' = deletedItems w.
Proof.
  intro H. apply updateVersionLimit_inr in H. destruct H as (project & _ & ->).
  cbn. split; [|auto].
  rewrite map_map. apply map_ext. intro p.
  destruct (Nat.eqb (project_id p) (project_id project)); reflexivity.
Qed.

Lemma updateVersionLimit_changes_only_limit_witness :
  exists r w',
    updateVersionLimit (scenarioDeps happyScenario) raiseAcmeLimit acmeWorld = (inr r, w') /\
    map exceptLimit (projects (db w')) = map exceptLimit [acmeProject].
Proof.
  destruct (updateVersionLimit (scenarioDeps happyScenario) raiseAcmeLimit acmeWorld)
    as [[e|r] w'] eqn:E; [vm_compute in E; discriminate E|].
  exists r, w'. split; [reflexivity|].
  exact (proj1 (@updateVersionLimit_changes_only_limit _ _ _ _ _ E)).
Defined.

(** X18: [updateVersionLimit] stays inside the actor's organisation: the
    project it patches has the requested slug and belongs to that
    organisation, and (project ids being unique) every project of another
    organisation, or with another slug, is left exactly as it was. *)
Theorem updateVersionLimit_tenant_isolation D dto w r w' :
  NoDup (map project_id (projects (db w))) ->
  updateVersionLimit D dto w = (inr r, w') ->
  exists project,
    In project (projects (db w)) /\
    project_slug project = uvl_workspaceSlug dto /\
    uvl_actorOrgId dto = Some (project_orgId project) /\
    In (setPitVersionLimit (uvl_pitVersionLimit dto) project) (projects (db w')) /\
    forall p, In p (projects (db w)) ->
              (uvl_actorOrgId dto <> Some (project_orgId p) \/
               project_slug p <> uvl_workspaceSlug dto) ->
              In p (projects (db w')).
Proof.
  intros ND H. apply updateVersionLimit_inr in H. destruct H as (project & Ef & ->).
  apply findProjectBySlug_some in Ef. destruct Ef as (Hin & Hs & Ho).
  exists project. split; [exact Hin|]. split; [exact Hs|]. split; [exact Ho|].
  cbn [db projects projectDAL_updateById_op snd withProjects]. split.
  - apply in_map_iff. exists project. rewrite Nat.eqb_refl. auto.
  - intros p Hp Hdiff. apply in_map_iff. exists p. split; [|exact Hp].
    destruct (Nat.eqb (project_id p) (project_id project)) eqn:E; [|reflexivity].
    exfalso. apply Nat.eqb_eq in E.
    assert (p = project).
    { clear - ND Hin Hp E. induction (projects (db w)) as [|x t IH]; [contradiction|].
      cbn in ND. inversion ND as [|? ? Hnot ND']; subst.
      destruct Hin as [->|Hin], Hp as [->|Hp]; auto.
      - exfalso. apply Hnot. rewrite <- E. apply in_map. exact Hp.
      - exfalso. apply Hnot. rewrite E. apply in_map. exact Hin. }
    subst p. destruct Hdiff as [Hd|Hd]; [apply Hd; exact Ho | apply Hd; exact Hs].
Qed.

Lemma updateVersionLimit_tenant_isolation_witness :
  exists r w',
    updateVersionLimit (scenarioDeps happyScenario) raiseAcmeLimit twoTenantsWorld
      = (inr r, w') /\
    In otherAcmeProject (projects (db w')).
Proof.
  destruct (updateVersionLimit (scenarioDeps happyScenario) raiseAcmeLimit twoTenantsWorld)
    as [[e|r] w'] eqn:E; [vm_compute in E; discriminate E|].
  exists r, w'. split; [reflexivity|].
  destruct (@updateVersionLimit_tenant_isolation (scenarioDeps happyScenario) raiseAcmeLimit
              twoTenantsWorld r w') as (p & _ & _ & _ & _ & Hothers).
  - cbn. repeat constructor; cbn; intuition discriminate.
  - exact E.
  - apply Hothers; [left; reflexivity|]. left. discriminate.
Defined.

Lemma updateName_unfold D dto w :
  updateName D dto w =
  match getProjectPermission D (un_actor dto) (un_actorId dto) (un_projectId dto)
                             (un_actorAuthMethod dto) (un_actorOrgId dto) with
  | inl e => (inl e, w)
  | inr pp =>
      if can (pp_permission pp) Edit Settings then
        if dalFault D OpProjectUpdateById (db w) then (inl (DatabaseError OpProjectUpdateById), w)
        else (inr (fst (projectDAL_updateNameById_op (un_projectId dto) (un_name dto) (db w))),
              {| db := snd (projectDAL_updateNameById_op (un_projectId dto) (un_name dto) (db w));
                 txdb := txdb w; deletedItems := deletedItems w |})
      else (inl ForbiddenError, w)
  end.
Proof.
  unfold updateName. unfold bind at 1.
  destruct (getProjectPermission D _ _ _ _ _) as [e|pp]; [reflexivity|].
  cbn [liftResult ret]. unfold bind at 1, throwUnlessCan.
  destruct (can (pp_permission pp) Edit Settings); [|reflexivity].
  cbn [ret]. unfold bind at 1, dal.
  destruct (dalFault D OpProjectUpdateById (db w)); [reflexivity|].
  destruct (projectDAL_updateNameById_op _ _ _); reflexivity.
Qed.

(** X19: renaming a project changes names only: after a successful
    [updateName] every project row keeps its id, organisation, slug, version
    and retention limit -- the slug is not recomputed from the new name --
    the rows with the given id carry the new name, and every other row is
    untouched.  The caller held the edit-settings capability. *)
Theorem updateName_keeps_slug D dto w r w' :
  updateName D dto w = (inr r, w') ->
  (exists pp,
     getProjectPermission D (un_actor dto) (un_actorId dto) (un_projectId dto)
                          (un_actorAuthMethod dto) (un_actorOrgId dto) = inr pp /\
     can (pp_permission pp) Edit Settings = true) /\
  map exceptName (projects (db w')) = map exceptName (projects (db w)) /\
  (forall p, In p (projects (db w')) -> project_id p = un_projectId dto ->
             project_name p = un_name dto) /\
  (forall p, In p (projects (db w)) -> project_id p <> un_projectId dto ->
             In p (projects (db w'))) /\
  (forall p, r = Some p -> project_id p = un_projectId dto /\ project_name p = un_name dto).
Proof.
  rewrite updateName_unfold. intro H.
  destruct (getProjectPermission D _ _ _ _ _) as [e|pp]; [discriminate H|].
  destruct (can (pp_permission pp) Edit Settings) eqn:Ec; [|discriminate H].
  destruct (dalFault D OpProjectUpdateById (db w)); [discriminate H|].
  inversion H; subst; clear H. cbn.
  split; [exists pp; auto|]. split.
  { rewrite map_map. apply map_ext. intro p.
    destruct (Nat.eqb (project_id p) (un_projectId dto)); reflexivity. }
  assert (Hall : forall p,
            In p (map (fun p => if Nat.eqb (project_id p) (un_projectId dto)
                                then setName (un_name dto) p else p) (projects (db w))) ->
            project_id p = un_projectId dto -> project_name p = un_name dto).
  { intros p Hin Hid. apply in_map_iff in Hin. destruct Hin as (q & Hq & _).
    destruct (Nat.eqb (project_id q) (un_projectId dto)) eqn:E; subst p; [reflexivity|].
    apply Nat.eqb_neq in E. contradiction. }
  split; [exact Hall|]. split.
  - intros p Hin Hne. apply in_map_iff. exists p. split; [|exact Hin].
    apply Nat.eqb_neq in Hne. rewrite Hne. reflexivity.
  - intros p Hp. apply find_some in Hp. destruct Hp as [Hin Hid].
    apply Nat.eqb_eq in Hid. split; [exact Hid | exact (Hall p Hin Hid)].
Qed.

Lemma updateName_keeps_slug_witness :
  exists r w',
    updateName (scenarioDeps happyScenario) renameAcme acmeWorld = (inr r, w') /\
    map exceptName (projects (db w')) = map exceptName [acmeProject].
Proof.
  destruct (updateName (scenarioDeps happyScenario) renameAcme acmeWorld)
    as [[e|r] w'] eqn:E; [vm_compute in E; discriminate E|].
  exists r, w'. split; [reflexivity|].
  destruct (@updateName_keeps_slug _ _ _ _ _ E) as (_ & Hm & _). exact Hm.
Defined.

(** X20: a failed [updateName] changes nothing, and the caller who
    lacks the edit-settings capability fails with the forbidden error. *)
Theorem updateName_failure D dto w :
  (forall e w', updateName D dto w = (inl e, w') -> w' = w) /\
  (forall pp,
     getProjectPermission D (un_actor dto) (un_actorId dto) (un_projectId dto)
                          (un_actorAuthMethod dto) (un_actorOrgId dto) = inr pp ->
     can (pp_permission pp) Edit Settings = false ->
     updateName D dto w = (inl ForbiddenError, w)).
Proof.
  split.
  - intros e w'. rewrite updateName_unfold. intro H.
    destruct (getProjectPermission D _ _ _ _ _) as [e1|pp]; [now inversion H|].
    destruct (can (pp_permission pp) Edit Settings); [|now inversion H].
    destruct (dalFault D OpProjectUpdateById (db w)); [now inversion H | discriminate H].
  - intros pp Ep Ec. rewrite updateName_unfold, Ep, Ec. reflexivity.
Qed.

Lemma updateName_failure_witness :
  updateName (scenarioDeps deleterWithoutCapabilityScenario) renameAcme acmeWorld
  = (inl ForbiddenError, acmeWorld).
Proof.
  exact (proj2 (@updateName_failure (scenarioDeps deleterWithoutCapabilityScenario)
                  renameAcme acmeWorld) _ eq_refl eq_refl).
Defined.

(** * upgradeProject, getProjectUpgradeStatus and getAProject *)

(** X21: [upgradeProject] enqueues exactly when the caller's project
    permission allows deleting the project and the caller holds the Admin
    role: then it returns having appended the one job of the request to the
    queue; in every other case it throws and the queue is as it was.  The
    capability is checked before the role: without it the error is the
    forbidden error, with it but without the role it is "User must be
    admin". *)
Theorem upgradeProject_gate D dto queue :
  (forall pp,
     getProjectPermission D (up_actor dto) (up_actorId dto) (up_projectId dto)
                          (up_actorAuthMethod dto) (up_actorOrgId dto) = inr pp ->
     can (pp_permission pp) Delete Project = true ->
     pp_hasRole pp PAdmin = true ->
     upgradeProject D dto queue = (inr tt, queue ++ [upgradeJob D dto])) /\
  (snd (upgradeProject D dto queue) <> queue <->
   exists pp,
     getProjectPermission D (up_actor dto) (up_actorId dto) (up_projectId dto)
                          (up_actorAuthMethod dto) (up_actorOrgId dto) = inr pp /\
     can (pp_permission pp) Delete Project = true /\ pp_hasRole pp PAdmin = true) /\
  (fst (upgradeProject D dto queue) = inr tt <->
   snd (upgradeProject D dto queue) = queue ++ [upgradeJob D dto]) /\
  (forall e, fst (upgradeProject D dto queue) = inl e ->
             snd (upgradeProject D dto queue) = queue) /\
  (forall pp,
     getProjectPermission D (up_actor dto) (up_actorId dto) (up_projectId dto)
                          (up_actorAuthMethod dto) (up_actorOrgId dto) = inr pp ->
     (can (pp_permission pp) Delete Project = false ->
      upgradeProject D dto queue = (inl ForbiddenError, queue)) /\
     (can (pp_permission pp) Delete Project = true -> pp_hasRole pp PAdmin = false ->
      upgradeProject D dto queue = (inl (ForbiddenRequestError "User must be admin"), queue))).
Proof.
  assert (Hneq : queue ++ [upgradeJob D dto] <> queue).
  { intro E. apply (f_equal (@length _)) in E. rewrite length_app in E. cbn in E. lia. }
  assert (Hneq' : queue <> queue ++ [upgradeJob D dto]) by (intro E; apply Hneq; auto).
  unfold upgradeProject. fold (upgradeJob D dto).
  destruct (getProjectPermission D _ _ _ _ _) as [e|pp] eqn:Ep.
  - cbn [fst snd]. split; [intros pp Hpp; discriminate Hpp|].
    split; [split; [intro H; contradiction H; reflexivity
                   | intros (pp & Hpp & _); discriminate Hpp]|].
    split; [split; [discriminate | intro H; contradiction (Hneq' H)]|].
    split; [reflexivity|]. intros pp Hpp. discriminate Hpp.
  - destruct (can (pp_permission pp) Delete Project) eqn:Ec;
      [destruct (pp_hasRole pp PAdmin) eqn:Ea|]; cbn [negb fst snd].
    + split; [intros pp' Hpp _ _; reflexivity|].
      split; [split; [intros _; exists pp; auto | intros _; exact Hneq]|].
      split; [split; reflexivity|].
      split; [discriminate|]. intros pp' Hpp. inversion Hpp; subst pp'.
      split; intros; congruence.
    + split; [intros pp' Hpp _ Hr; inversion Hpp; subst pp'; congruence|].
      split; [split; [intro H; contradiction H; reflexivity
                     | intros (pp' & Hpp & _ & Hr); congruence]|].
      split; [split; [discriminate | intro H; contradiction (Hneq' H)]|].
      split; [reflexivity|]. intros pp' Hpp. inversion Hpp; subst pp'.
      split; [intros; congruence | reflexivity].
    + split; [intros pp' Hpp Hc _; inversion Hpp; subst pp'; congruence|].
      split; [split; [intro H; contradiction H; reflexivity
                     | intros (pp' & Hpp & Hc & _); congruence]|].
      split; [split; [discriminate | intro H; contradiction (Hneq' H)]|].
      split; [reflexivity|]. intros pp' Hpp. inversion Hpp; subst pp'.
      split; [reflexivity | intros; congruence].
Qed.

Lemma upgradeProject_gate_witness :
  upgradeProject (scenarioDeps happyScenario) upgradeAcme []
  = (inr tt, [] ++ [upgradeJob (scenarioDeps happyScenario) upgradeAcme])
  /\ upgradeProject (scenarioDeps memberOnlyScenario) upgradeAcme []
     = (inl (ForbiddenRequestError "User must be admin"), []).
Proof.
  split.
  - exact (proj1 (@upgradeProject_gate (scenarioDeps happyScenario) upgradeAcme [])
                 _ eq_refl eq_refl eq_refl).
  - destruct (@upgradeProject_gate (scenarioDeps memberOnlyScenario) upgradeAcme [])
      as (_ & _ & _ & _ & H).
    exact (proj2 (H _ eq_refl) eq_refl eq_refl).
Defined.

(** X22: a successful [upgradeProject] appends exactly one job to the
    queue: it names the project and the caller as starter, and carries the
    ciphertext, iv, tag and encoding of the caller's private key as sealed by
    [infisicalSymmetricEncypt]; jobs already queued are kept. *)
Theorem upgradeProject_job D dto queue queue' :
  upgradeProject D dto queue = (inr tt, queue') ->
  exists job,
    queue' = queue ++ [job] /\
    job_projectId job = up_projectId dto /\
    job_startedByUserId job = up_actorId dto /\
    let sealed := infisicalSymmetricEncypt D (up_userPrivateKey dto) in
    job_encryptedKey job = sealed_ciphertext sealed /\
    job_encryptedKeyIv job = sealed_iv sealed /\
    job_encryptedKeyTag job = sealed_tag sealed /\
    job_keyEncoding job = sealed_encoding sealed.
Proof.
  unfold upgradeProject.
  destruct (getProjectPermission D _ _ _ _ _) as [e|pp]; [discriminate|].
  destruct (can (pp_permission pp) Delete Project); [|discriminate].
  destruct (pp_hasRole pp PAdmin); [|discriminate].
  cbn [negb]. intro H. inversion H; subst. eexists. split; [reflexivity|].
  cbn. repeat split.
Qed.

Lemma upgradeProject_job_witness :
  exists job,
    snd (upgradeProject (scenarioDeps happyScenario) upgradeAcme []) = [] ++ [job] /\
    job_encryptedKey job = "sealed-private-key"%string.
Proof.
  destruct (@upgradeProject_job (scenarioDeps happyScenario) upgradeAcme [] _ eq_refl)
    as (job & Hq & _ & _ & Hk & _).
  exists job. split; [exact Hq | exact Hk].
Defined.

(** X23: [getProjectUpgradeStatus] reports a status only to a caller
    who may read the project's secrets, and what it reports is the stored
    status, never the empty string; a caller without that capability gets
    the forbidden error whether or not the project exists. *)
Theorem getProjectUpgradeStatus_sound D findProjectById dto :
  (forall st,
     getProjectUpgradeStatus D findProjectById dto = inr st ->
     exists pp stored,
       getProjectPermission D (ppd_actor dto) (ppd_actorId dto) (ppd_projectId dto)
                            (ppd_actorAuthMethod dto) (ppd_actorOrgId dto) = inr pp /\
       can (pp_permission pp) Read Secrets = true /\
       findProjectById (ppd_projectId dto) = Some stored /\
       st <> Some EmptyString /\
       (forall s, st = Some s -> stored = Some s) /\
       (st = None -> stored = None \/ stored = Some EmptyString)) /\
  (forall pp,
     getProjectPermission D (ppd_actor dto) (ppd_actorId dto) (ppd_projectId dto)
                          (ppd_actorAuthMethod dto) (ppd_actorOrgId dto) = inr pp ->
     can (pp_permission pp) Read Secrets = false ->
     getProjectUpgradeStatus D findProjectById dto = inl ForbiddenError).
Proof.
  unfold getProjectUpgradeStatus. split.
  - intros st H.
    destruct (getProjectPermission D _ _ _ _ _) as [e|pp]; [discriminate H|].
    destruct (can (pp_permission pp) Read Secrets) eqn:Ec; [|discriminate H].
    destruct (findProjectById (ppd_projectId dto)) as [stored|]; [|discriminate H].
    inversion H; subst st. exists pp, stored.
    split; [reflexivity|]. split; [exact Ec|]. split; [reflexivity|].
    destruct stored as [[|c s]|]; cbn; repeat split; try discriminate; auto.
  - intros pp Ep Ec. rewrite Ep, Ec. reflexivity.
Qed.

Lemma getProjectUpgradeStatus_sound_witness :
  getProjectUpgradeStatus (scenarioDeps deleterWithoutCapabilityScenario)
                          (fun _ => None) statusOfAcme
  = inl ForbiddenError.
Proof.
  exact (proj2 (@getProjectUpgradeStatus_sound (scenarioDeps deleterWithoutCapabilityScenario)
                  (fun _ => None) statusOfAcme) _ eq_refl eq_refl).
Defined.

(** The missing project, for a caller who may read its secrets. *)
Example getProjectUpgradeStatus_missing_project :
  getProjectUpgradeStatus (scenarioDeps happyScenario) (fun _ => None) statusOfAcme
  = inl (BadRequestError "Project with id 5 not found").
Proof. reflexivity. Qed.

Lemma findProjectByFilter_matches f d p :
  projectDAL_findProjectByFilter f d = inr p -> In p (projects d) /\ matchesFilter f p.
Proof.
  unfold projectDAL_findProjectByFilter. destruct f as [id|slug orgId]; cbv beta iota zeta.
  - destruct (find _ (projects d)) as [q|] eqn:E; [|discriminate].
    intro H. inversion H; subst q. apply find_some in E. destruct E as [Hin Hid].
    apply Nat.eqb_eq in Hid. split; assumption.
  - destruct (projectDAL_findProjectBySlug slug orgId d) as [q|] eqn:E; [|discriminate].
    intro H. inversion H; subst q. apply findProjectBySlug_some in E.
    destruct E as (Hin & Hs & Ho). split; [exact Hin | split; assumption].
Qed.

(** X24: [getAProject] never changes the world.  It returns a project
    exactly when the filter designates one in the store and the permission
    lookup for the caller does not throw -- no capability is asked for --
    and the project returned is in the store and satisfies the filter. *)
Theorem getAProject_reads_only D dto w :
  snd (getAProject D dto w) = w /\
  (forall p,
     fst (getAProject D dto w) = inr p <->
     projectDAL_findProjectByFilter (get_filter dto) (db w) = inr p /\
     exists pp,
       getProjectPermission D (get_actor dto) (get_actorId dto) (project_id p)
                            (get_actorAuthMethod dto) (get_actorOrgId dto) = inr pp) /\
  (forall p, fst (getAProject D dto w) = inr p ->
             In p (projects (db w)) /\ matchesFilter (get_filter dto) p).
Proof.
  assert (E : getAProject D dto w =
              match projectDAL_findProjectByFilter (get_filter dto) (db w) with
              | inl e => (inl e, w)
              | inr project =>
                  match getProjectPermission D (get_actor dto) (get_actorId dto)
                          (project_id project) (get_actorAuthMethod dto)
                          (get_actorOrgId dto) with
                  | inl e => (inl e, w)
                  | inr _ => (inr project, w)
                  end
              end).
  { unfold getAProject. unfold bind at 1. unfold dalRead at 1. cbn [fst snd].
    unfold bind at 1.
    destruct (projectDAL_findProjectByFilter _ _) as [e|p]; [reflexivity|].
    cbn [liftResult ret]. unfold bind at 1.
    destruct (getProjectPermission D _ _ _ _ _); reflexivity. }
  rewrite E.
  destruct (projectDAL_findProjectByFilter (get_filter dto) (db w)) as [e|q] eqn:Ef.
  - split; [reflexivity|]. split; [|discriminate].
    intro p. split; [discriminate | intros [H _]; discriminate H].
  - destruct (getProjectPermission D _ _ _ _ _) as [e|pp] eqn:Ep; cbn [fst snd].
    + split; [reflexivity|]. split; [|discriminate].
      intro p. split; [discriminate|]. intros [H (pp & Hpp)].
      inversion H; subst p. congruence.
    + split; [reflexivity|]. split.
      * intro p. split.
        -- intro H. inversion H; subst p. split; [reflexivity | eauto].
        -- intros [H _]. inversion H. reflexivity.
      * intros p H. inversion H; subst p. exact (findProjectByFilter_matches _ _ Ef).
Qed.

Lemma getAProject_reads_only_witness :
  getAProject (scenarioDeps deleterWithoutCapabilityScenario) getAcme acmeWorld
  = (inr acmeProject, acmeWorld).
Proof.
  destruct (@getAProject_reads_only (scenarioDeps deleterWithoutCapabilityScenario)
              getAcme acmeWorld) as (Hw & Hiff & _).
  destruct (getAProject (scenarioDeps deleterWithoutCapabilityScenario) getAcme acmeWorld)
    as [res w'] eqn:E. cbn [fst snd] in *. subst w'.
  f_equal. apply Hiff. split; [reflexivity|]. eexists. reflexivity.
Defined.
